(** * Write path, mark-as-read and health surface of the two services

    A shallow embedding of [docker/transaction-api/main.py] and
    [docker/notification-service/main.py].

    The handlers are embedded as computations in a reader/state/exception
    monad.  The state is the part of the world a handler can touch: the
    committed rows of the service's table, the Redis keyspace, the
    module-level Redis client, the Prometheus accumulators, the structured
    log, the tasks handed over for later execution and the requests issued
    by the HTTP client.  Everything a handler cannot decide for itself is
    read from an environment: whether a call to a collaborator raises, what
    the clock and [uuid4] return, what answer an outgoing POST receives, and
    the interpreter builtins whose results depend on tables outside the
    repository ([str.upper], [str], [eval]).

    Conventions.
    - A Python [str] is a [string], [len] is [String.length].
    - A [float] is an IEEE-754 value of [spec_float]; comparisons are
      [SFltb] and [SFleb], so NaN compares false with everything.
    - [time.time()] is read in whole milliseconds ([Z]); a [datetime] is
      the clock reading at which it was taken.
    - A request body is a record whose fields have the types of the
      annotations of the pydantic model; what is embedded of pydantic is
      the constraints of the fields, the validators, and the check of a
      response model against the attributes it is built from.
    - Expiry of cache entries with the passing of time is not modelled: an
      entry carries its time-to-live and stays until deleted.
    - The ORM classes are taken to behave as their column declarations
      say, and requests are served one after the other. *)

From Stdlib Require Import ZArith String Ascii List Bool Lia.
From Stdlib Require Import DecimalString DecimalZ DecimalPos.
From Stdlib Require Import Floats.SpecFloat.
From stdpp Require Import base option list gmap strings.

Local Open Scope string_scope.
Local Open Scope Z_scope.

(* ===================================================================== *)
(** * Python values and exceptions *)
(* ===================================================================== *)

(** The values a JSON body or a structured-log field can hold. *)
#[local] Unset Elimination Schemes.
Inductive pyval : Type :=
| VNone
| VBool (b : bool)
| VInt (n : Z)
| VFloat (x : spec_float)
| VStr (s : string)
| VList (l : list pyval)
| VDict (d : list (string * pyval)).
#[local] Set Elimination Schemes.

(** A [dict] with string keys, in insertion order. *)
Definition Dict : Type := list (string * pyval).

(** [d[k]] (first binding; [None] stands for [KeyError]). *)
Fixpoint dict_get (k : string) (d : Dict) : option pyval :=
  match d with
  | [] => None
  | (k', v) :: d' => if String.eqb k k' then Some v else dict_get k d'
  end.

(** An [Optional] attribute as a value. *)
Definition opt_str (o : option string) : pyval :=
  match o with Some s => VStr s | None => VNone end.
Definition opt_int (o : option Z) : pyval :=
  match o with Some n => VInt n | None => VNone end.
Definition opt_bool (o : option bool) : pyval :=
  match o with Some b => VBool b | None => VNone end.
Definition opt_dict (o : option Dict) : pyval :=
  match o with Some d => VDict d | None => VNone end.

(** Truth value of an [Optional[Dict]]: [None] and [{}] are falsy. *)
Definition truthy_dict (m : option Dict) : bool :=
  match m with
  | Some (_ :: _) => true
  | _ => false
  end.

(** Truth value of an [Optional[str]]: [None] and [''] are falsy. *)
Definition truthy_str (m : option string) : bool :=
  match m with
  | Some (String _ _) => true
  | _ => false
  end.

(** [str(n)] for an [int]. *)
Definition str_int (n : Z) : string := NilZero.string_of_int (Z.to_int n).

(** [v in allowed] for a list of strings. *)
Definition str_in (v : string) (allowed : list string) : bool :=
  existsb (String.eqb v) allowed.

(** [s[:n]]. *)
Definition prefix (n : nat) (s : string) : string := substring 0 n s.

(** The two exception classes the handlers distinguish: [HTTPException]
    and every other [Exception] (driver errors, pydantic's
    [ValidationError], ...). *)
Inductive exn : Type :=
| HTTPException (status_code : Z) (detail : string)
| Exception (msg : string).

(** [str(e)]. *)
Definition str_exn (e : exn) : string :=
  match e with
  | HTTPException c d => str_int c ++ ": " ++ d
  | Exception m => m
  end.

Definition HTTP_200_OK : Z := 200.
Definition HTTP_201_CREATED : Z := 201.
Definition HTTP_404_NOT_FOUND : Z := 404.
Definition HTTP_422_UNPROCESSABLE_ENTITY : Z := 422.
Definition HTTP_500_INTERNAL_SERVER_ERROR : Z := 500.

(* ===================================================================== *)
(** * The world of one service *)
(* ===================================================================== *)

Inductive level : Type := INFO | WARNING | ERROR.

(** One structlog record: level, event and keyword fields. *)
Record LogEntry : Type := mkLog {
  log_level : level;
  log_event : string;
  log_fields : Dict
}.

(** A request issued through [httpx]: [client.post(url, json=..., timeout=...)]. *)
Record HttpPost : Type := mkPost {
  post_url : string;
  post_json : Dict;
  post_timeout : Z
}.

(** What comes back from an outgoing POST: a response with a status code,
    or an exception raised by the client (connection refused, timeout). *)
Inductive HttpOutcome : Type :=
| Responded (status_code : Z)
| NetworkError (msg : string).

(** The calls to collaborators that can raise. *)
Inductive call : Type :=
| DbExecute
| DbCommit
| DbRefresh
| RedisPing
| RedisGet
| RedisSetex
| RedisExpire
| RedisDelete (key : string).

Record Env : Type := mkEnv {
  (** [faults c = Some msg]: call [c] raises an exception whose text is [msg]. *)
  faults : call -> option string;
  (** the [k]-th reading of the clock, in milliseconds *)
  clock : nat -> Z;
  (** the clock reading taken when the module was loaded: the column
      defaults [default=datetime.now(timezone.utc)] are evaluated once *)
  import_time : Z;
  (** the [k]-th [str(uuid.uuid4())] *)
  uuid4 : nat -> string;
  (** the answer to the outgoing POST *)
  post_outcome : HttpOutcome;
  (** [v.upper()] *)
  str_upper : string -> string;
  (** [str(x)], also what an f-string field renders *)
  py_str : pyval -> string;
  (** [eval(s)]: the value, or the text of the exception it raises *)
  py_eval : string -> pyval + string
}.

Section World.

(** [Row] is the ORM class of the service. *)
Context {Row : Type}.

Record World : Type := mkWorld {
  (** rows of the table, oldest first (committed state) *)
  table : list Row;
  (** the primary-key sequence *)
  seq : Z;
  (** Redis: key to (value, time-to-live in seconds) *)
  cache : gmap string (string * Z);
  (** the module-level [redis_client] is not [None] *)
  redis_client : bool;
  (** counters: created ([TRANSACTION_CREATED], [NOTIFICATIONS_SENT]),
      retrieved, errors *)
  CREATED : nat;
  RETRIEVED : nat;
  ERRORS : nat;
  (** histograms, newest observation first *)
  DURATION : list Z;
  API_REQUEST_DURATION : list Z;
  (** the log, newest entry first *)
  logger : list LogEntry;
  (** arguments of the tasks added to the request's [BackgroundTasks] *)
  background_tasks : list Dict;
  (** arguments of the coroutines given to [asyncio.create_task] *)
  event_loop : list Dict;
  (** POSTs sent so far, newest first *)
  outbox : list HttpPost;
  (** clock readings and uuid draws consumed so far *)
  ticks : nat;
  draws : nat
}.

Definition set_table (f : list Row -> list Row) (w : World) : World :=
  mkWorld (f (table w)) (seq w) (cache w) (redis_client w) (CREATED w)
    (RETRIEVED w) (ERRORS w) (DURATION w) (API_REQUEST_DURATION w)
    (logger w) (background_tasks w) (event_loop w) (outbox w) (ticks w) (draws w).
Definition set_seq (n : Z) (w : World) : World :=
  mkWorld (table w) n (cache w) (redis_client w) (CREATED w)
    (RETRIEVED w) (ERRORS w) (DURATION w) (API_REQUEST_DURATION w)
    (logger w) (background_tasks w) (event_loop w) (outbox w) (ticks w) (draws w).
Definition set_cache (f : gmap string (string * Z) -> gmap string (string * Z))
    (w : World) : World :=
  mkWorld (table w) (seq w) (f (cache w)) (redis_client w) (CREATED w)
    (RETRIEVED w) (ERRORS w) (DURATION w) (API_REQUEST_DURATION w)
    (logger w) (background_tasks w) (event_loop w) (outbox w) (ticks w) (draws w).
Definition set_redis_client (b : bool) (w : World) : World :=
  mkWorld (table w) (seq w) (cache w) b (CREATED w)
    (RETRIEVED w) (ERRORS w) (DURATION w) (API_REQUEST_DURATION w)
    (logger w) (background_tasks w) (event_loop w) (outbox w) (ticks w) (draws w).
Definition inc_CREATED (w : World) : World :=
  mkWorld (table w) (seq w) (cache w) (redis_client w) (S (CREATED w))
    (RETRIEVED w) (ERRORS w) (DURATION w) (API_REQUEST_DURATION w)
    (logger w) (background_tasks w) (event_loop w) (outbox w) (ticks w) (draws w).
Definition inc_RETRIEVED (w : World) : World :=
  mkWorld (table w) (seq w) (cache w) (redis_client w) (CREATED w)
    (S (RETRIEVED w)) (ERRORS w) (DURATION w) (API_REQUEST_DURATION w)
    (logger w) (background_tasks w) (event_loop w) (outbox w) (ticks w) (draws w).
Definition inc_ERRORS (w : World) : World :=
  mkWorld (table w) (seq w) (cache w) (redis_client w) (CREATED w)
    (RETRIEVED w) (S (ERRORS w)) (DURATION w) (API_REQUEST_DURATION w)
    (logger w) (background_tasks w) (event_loop w) (outbox w) (ticks w) (draws w).
Definition observe_DURATION (d : Z) (w : World) : World :=
  mkWorld (table w) (seq w) (cache w) (redis_client w) (CREATED w)
    (RETRIEVED w) (ERRORS w) (d :: DURATION w) (API_REQUEST_DURATION w)
    (logger w) (background_tasks w) (event_loop w) (outbox w) (ticks w) (draws w).
Definition observe_API_REQUEST_DURATION (d : Z) (w : World) : World :=
  mkWorld (table w) (seq w) (cache w) (redis_client w) (CREATED w)
    (RETRIEVED w) (ERRORS w) (DURATION w) (d :: API_REQUEST_DURATION w)
    (logger w) (background_tasks w) (event_loop w) (outbox w) (ticks w) (draws w).
Definition add_log (e : LogEntry) (w : World) : World :=
  mkWorld (table w) (seq w) (cache w) (redis_client w) (CREATED w)
    (RETRIEVED w) (ERRORS w) (DURATION w) (API_REQUEST_DURATION w)
    (e :: logger w) (background_tasks w) (event_loop w) (outbox w) (ticks w) (draws w).
Definition set_background_tasks (f : list Dict -> list Dict) (w : World) : World :=
  mkWorld (table w) (seq w) (cache w) (redis_client w) (CREATED w)
    (RETRIEVED w) (ERRORS w) (DURATION w) (API_REQUEST_DURATION w)
    (logger w) (f (background_tasks w)) (event_loop w) (outbox w) (ticks w) (draws w).
Definition create_task (d : Dict) (w : World) : World :=
  mkWorld (table w) (seq w) (cache w) (redis_client w) (CREATED w)
    (RETRIEVED w) (ERRORS w) (DURATION w) (API_REQUEST_DURATION w)
    (logger w) (background_tasks w) (event_loop w ++ [d]) (outbox w) (ticks w) (draws w).
Definition add_outbox (p : HttpPost) (w : World) : World :=
  mkWorld (table w) (seq w) (cache w) (redis_client w) (CREATED w)
    (RETRIEVED w) (ERRORS w) (DURATION w) (API_REQUEST_DURATION w)
    (logger w) (background_tasks w) (event_loop w) (p :: outbox w) (ticks w) (draws w).
Definition tick (w : World) : World :=
  mkWorld (table w) (seq w) (cache w) (redis_client w) (CREATED w)
    (RETRIEVED w) (ERRORS w) (DURATION w) (API_REQUEST_DURATION w)
    (logger w) (background_tasks w) (event_loop w) (outbox w) (S (ticks w)) (draws w).
Definition draw (w : World) : World :=
  mkWorld (table w) (seq w) (cache w) (redis_client w) (CREATED w)
    (RETRIEVED w) (ERRORS w) (DURATION w) (API_REQUEST_DURATION w)
    (logger w) (background_tasks w) (event_loop w) (outbox w) (ticks w) (S (draws w)).

(* ------------------------------------------------------------------- *)
(** ** The monad of handlers *)

(** How a piece of Python ends: with a value or with a raised exception. *)
Inductive result (A : Type) : Type :=
| Return (a : A)
| Raise (e : exn).
Global Arguments Return {A} a.
Global Arguments Raise {A} e.

Definition M (A : Type) : Type := Env -> World -> result A * World.

Definition ret {A} (a : A) : M A := fun _ w => (Return a, w).
Definition raise {A} (e : exn) : M A := fun _ w => (Raise e, w).
Definition bind {A B} (m : M A) (k : A -> M B) : M B :=
  fun E w =>
    match m E w with
    | (Return a, w') => k a E w'
    | (Raise e, w') => (Raise e, w')
    end.

(** [try: body / except ...: handler]: the effects of [body] up to the
    point where it raised stay. *)
Definition try_except {A} (body : M A) (handler : exn -> M A) : M A :=
  fun E w =>
    match body E w with
    | (Return a, w') => (Return a, w')
    | (Raise e, w') => handler e E w'
    end.

Definition ask : M Env := fun E w => (Return E, w).
Definition modify (f : World -> World) : M unit := fun _ w => (Return tt, f w).
Definition get_world : M World := fun _ w => (Return w, w).

(** A call that raises when the environment says so. *)
Definition may_raise (c : call) : M unit :=
  fun E w =>
    match faults E c with
    | Some msg => (Raise (Exception msg), w)
    | None => (Return tt, w)
    end.

End World.

Arguments World : clear implicits.
Arguments M : clear implicits.

Declare Scope py_scope.
Delimit Scope py_scope with py.
Notation "'do' x <- m ; k" := (bind m (fun x => k))
  (at level 10, x name, m at level 100, k at level 200) : py_scope.
Notation "'run' m ; k" := (bind m (fun _ => k))
  (at level 10, m at level 100, k at level 200) : py_scope.
Local Open Scope py_scope.

(* ===================================================================== *)
(** * Collaborators, framework and the code the two services share *)
(* ===================================================================== *)

(** What FastAPI sends back: a status code and a body, which is the
    serialised response model, the [detail] of an [HTTPException], or the
    field errors of a rejected request body. *)
Inductive Body (A : Type) : Type :=
| Json (a : A)
| Detail (d : string)
| FieldErrors (errs : list (string * string)).
Arguments Json {A} a.
Arguments Detail {A} d.
Arguments FieldErrors {A} errs.

Record Response (A : Type) : Type := mkResponse {
  status_code : Z;
  body : Body A
}.
Arguments mkResponse {A} _ _.
Arguments status_code {A} _.
Arguments body {A} _.

(** The error pydantic reports for a field whose check failed. *)
Definition field_error {A} (name : string) (r : string + A)
    : list (string * string) :=
  match r with
  | inl msg => [(name, msg)]
  | inr _ => []
  end.

Record HealthResponse : Type := mkHealth {
  h_status : string;
  h_timestamp : Z;
  h_version : string;
  h_database : string;
  h_redis : string;
  h_uptime : Z
}.

(** ** ORDER BY, LIMIT and OFFSET *)

(** [a] comes no later than [b] under [ORDER BY key DESC]: NULL first, then
    the larger key. *)
Definition desc_before (a b : option Z) : bool :=
  match a, b with
  | None, _ => true
  | Some _, None => false
  | Some x, Some y => y <=? x
  end.

Fixpoint insert_desc {A} (key : A -> option Z) (x : A) (l : list A) : list A :=
  match l with
  | [] => [x]
  | y :: l' =>
      if desc_before (key x) (key y) then x :: y :: l'
      else y :: insert_desc key x l'
  end.

(** [ORDER BY key DESC]; rows with equal keys, whose order SQL leaves open,
    keep the order of the table. *)
Definition order_by_desc {A} (key : A -> option Z) (rows : list A) : list A :=
  foldr (insert_desc key) [] rows.

(** [LIMIT :limit OFFSET :offset], both not negative. *)
Definition limit_offset {A} (limit offset : Z) (rows : list A) : list A :=
  take (Z.to_nat limit) (drop (Z.to_nat offset) rows).

Section Shared.

Context {Row : Type}.
Abbreviation M := (M Row).

(** [time.time()] and [datetime.now(timezone.utc)]: the next clock reading. *)
Definition time_time : M Z :=
  fun E w => (Return (clock E (ticks w)), tick w).

(** [str(uuid.uuid4())]. *)
Definition uuid_uuid4 : M string :=
  fun E w => (Return (uuid4 E (draws w)), draw w).

(** [logger.info(event, **fields)] and its siblings. *)
Definition log (l : level) (event : string) (fields : Dict) : M unit :=
  modify (add_log (mkLog l event fields)).

(** [d[k]] inside a coroutine. *)
Definition getitem (d : Dict) (k : string) : M pyval :=
  match dict_get k d with
  | Some v => ret v
  | None => raise (Exception ("KeyError: " ++ k))
  end.

(** ** Redis *)

(** [get_redis()]: creates the module-level client on first use.  No
    connection is opened here. *)
Definition with_client (w : World Row) : World Row :=
  set_redis_client (if redis_client w then redis_client w else true) w.

Definition get_redis : M unit := modify with_client.

Definition redis_ping : M unit := may_raise RedisPing.

Definition redis_get (key : string) : M (option string) :=
  run may_raise RedisGet;
  do w <- get_world;
  ret (fst <$> cache w !! key).

Definition redis_setex (key : string) (ttl : Z) (value : string) : M unit :=
  run may_raise RedisSetex;
  modify (set_cache <[key := (value, ttl)]>).

(** [EXPIRE key seconds]: a timeout that is not positive deletes the key. *)
Definition redis_expire (key : string) (seconds : Z) : M unit :=
  run may_raise RedisExpire;
  if seconds <=? 0
  then modify (set_cache (delete key))
  else modify (set_cache (alter (fun e => (fst e, seconds)) key)).

Definition redis_delete (key : string) : M unit :=
  run may_raise (RedisDelete key);
  modify (set_cache (delete key)).

(** ** The health endpoint (the same text in both services) *)

Definition health_check : M HealthResponse :=
  do start_time <- time_time;
  (* Verificar banco de dados *)
  do db_status <-
    try_except
      (run may_raise DbExecute; ret "healthy")
      (fun e => ret ("unhealthy: " ++ str_exn e));
  (* Verificar Redis *)
  do redis_status <-
    try_except
      (run get_redis; run redis_ping; ret "healthy")
      (fun e => ret ("unhealthy: " ++ str_exn e));
  do t <- time_time;
  let uptime := t - start_time in
  do now <- time_time;
  ret {| h_status :=
           if String.eqb db_status "healthy" && String.eqb redis_status "healthy"
           then "healthy" else "degraded";
         h_timestamp := now;
         h_version := "1.0.0";
         h_database := db_status;
         h_redis := redis_status;
         h_uptime := uptime |}.

(** ** FastAPI *)

(** An empty [BackgroundTasks]. *)
Definition drop_background_tasks (w : World Row) : World Row :=
  set_background_tasks (fun _ => []) w.

(** A path operation: the value the handler returns is sent with the
    declared status code, an [HTTPException] with its own; any other
    exception leaves the route.  The tasks added to the request's
    [BackgroundTasks] go with the response of a handler that returned; when
    the handler raised they are dropped with the request. *)
Definition route {A} (declared : Z) (handler : M A) : M (Response A) :=
  fun E w =>
    match handler E w with
    | (Return a, w') => (Return (mkResponse declared (Json a)), w')
    | (Raise (HTTPException c d), w') =>
        (Return (mkResponse c (Detail d)), drop_background_tasks w')
    | (Raise (Exception m), w') => (Raise (Exception m), drop_background_tasks w')
    end.

(** A path operation with a request body: the body is validated first, and
    a body with field errors is answered 422 without calling the handler. *)
Definition route_body {Raw Model A} (declared : Z)
    (validate : Raw -> list (string * string) + Model)
    (handler : Model -> M A) (raw : Raw) : M (Response A) :=
  match validate raw with
  | inl errs => ret (mkResponse HTTP_422_UNPROCESSABLE_ENTITY (FieldErrors errs))
  | inr model => route declared (handler model)
  end.

(** [Depends(dependency)] on a path operation: the dependency is called
    before the body is validated and before the handler runs.  Only
    [get_redis] is embedded: [get_db] opens a session object and contacts
    nothing until the handler uses it. *)
Definition Depends {A} (dependency : M unit) (operation : M (Response A))
    : M (Response A) :=
  run dependency; operation.

(** The [log_requests] middleware. *)
Definition log_requests {A} (method url : string) (call_next : M (Response A))
    : M (Response A) :=
  do start_time <- time_time;
  (* Processar requisição *)
  do response <- call_next;
  (* Calcular duração *)
  do t <- time_time;
  let duration := t - start_time in
  run modify (observe_API_REQUEST_DURATION duration);
  (* Log da requisição *)
  run log INFO "Requisição processada"
        [("method", VStr method); ("url", VStr url);
         ("status_code", VInt (status_code response));
         ("duration", VInt duration)];
  ret response.

(** The server around the application: an exception that nothing handled
    is answered 500. *)
Definition serve {A} (app : M (Response A)) (E : Env) (w : World Row)
    : Response A * World Row :=
  match app E w with
  | (Return r, w') => (r, w')
  | (Raise _, w') =>
      (mkResponse HTTP_500_INTERNAL_SERVER_ERROR (Detail "Internal Server Error"), w')
  end.

End Shared.

(* ===================================================================== *)
(** * docker/transaction-api/main.py *)
(* ===================================================================== *)

Module TransactionApi.

(** ** Data models *)

(** A row of [transactions]; also the ORM object before it is flushed, when
    the key and the columns with a default are still unset. *)
Module TransactionDB.
Record t : Type := mk {
  id : option Z;
  transaction_id : string;
  user_id : string;
  amount : spec_float;
  currency : string;
  transaction_type : string;
  status : string;
  description : option string;
  metadata : option string;   (* JSON string *)
  created_at : option Z;
  updated_at : option Z;
  is_active : option bool
}.
End TransactionDB.

(** The JSON body of [POST /transactions], each field with the type its
    annotation gives it; a field with a default may be absent. *)
Module Payload.
Record t : Type := mk {
  user_id : string;
  amount : spec_float;
  currency : option string;
  transaction_type : string;
  description : option string;
  metadata : option Dict
}.
End Payload.

(** A validated [TransactionCreate]. *)
Module TransactionCreate.
Record t : Type := mk {
  user_id : string;
  amount : spec_float;
  currency : string;
  transaction_type : string;
  description : option string;
  metadata : option Dict
}.
End TransactionCreate.

Module TransactionResponse.
Record t : Type := mk {
  id : Z;
  transaction_id : string;
  user_id : string;
  amount : spec_float;
  currency : string;
  transaction_type : string;
  status : string;
  description : option string;
  metadata : option Dict;
  created_at : Z;
  updated_at : Z
}.
End TransactionResponse.

Abbreviation World := (World TransactionDB.t).
Abbreviation M := (M TransactionDB.t).

Definition NOTIFICATION_SERVICE_URL : string :=
  "http://notification-service:8081/notify".

(** ** [TransactionCreate]: field constraints and validators

    A validator returns the value to store, or the text of its
    [ValueError]. *)

Definition zero : spec_float := S754_zero false.

(** [Field(..., gt=0)] *)
Definition check_amount (v : spec_float) : string + spec_float :=
  if SFltb zero v then inr v else inl "Input should be greater than 0".

Definition validate_transaction_type (v : string) : string + string :=
  let allowed_types := ["credit"; "debit"; "transfer"] in
  if negb (str_in v allowed_types)
  then inl "transaction_type deve ser um dos seguintes: ['credit', 'debit', 'transfer']"
  else inr v.

Definition validate_currency (E : Env) (v : string) : string + string :=
  if negb (String.length v =? 3)%nat
  then inl "currency deve ter exatamente 3 caracteres"
  else inr (str_upper E v).

(** [Field(default="BRL", max_length=3)] and then the validator; the
    default is taken as it is. *)
Definition check_currency (E : Env) (v : option string) : string + string :=
  match v with
  | None => inr "BRL"
  | Some v =>
      if (3 <? String.length v)%nat
      then inl "String should have at most 3 characters"
      else validate_currency E v
  end.

(** Validation of the body: every field is checked, and the errors are
    reported together in the order of the fields. *)
Definition validate (E : Env) (p : Payload.t)
    : list (string * string) + TransactionCreate.t :=
  match check_amount (Payload.amount p),
        check_currency E (Payload.currency p),
        validate_transaction_type (Payload.transaction_type p) with
  | inr a, inr c, inr ty =>
      inr (TransactionCreate.mk (Payload.user_id p) a c ty
             (Payload.description p) (Payload.metadata p))
  | ra, rc, rty =>
      inl (field_error "amount" ra ++ field_error "currency" rc
           ++ field_error "transaction_type" rty)%list
  end.

(** ** The session *)

(** The row an INSERT of [obj] writes: the key comes from the sequence and
    the unset columns take their defaults. *)
Definition inserted (E : Env) (pk : Z) (obj : TransactionDB.t) : TransactionDB.t :=
  TransactionDB.mk (Some pk)
    (TransactionDB.transaction_id obj) (TransactionDB.user_id obj)
    (TransactionDB.amount obj) (TransactionDB.currency obj)
    (TransactionDB.transaction_type obj) (TransactionDB.status obj)
    (TransactionDB.description obj) (TransactionDB.metadata obj)
    (Some (default (import_time E) (TransactionDB.created_at obj)))
    (Some (default (import_time E) (TransactionDB.updated_at obj)))
    (Some (default true (TransactionDB.is_active obj))).

(** [db.add(obj); await db.commit()]: returns the key of the new row. *)
Definition db_add_commit (obj : TransactionDB.t) : M Z :=
  run may_raise DbCommit;
  do E <- ask;
  do w <- get_world;
  let pk := seq w in
  run modify (fun w =>
        set_seq (pk + 1)
          (set_table (fun rows => (rows ++ [inserted E pk obj])%list) w));
  ret pk.

Definition has_pk (pk : Z) (r : TransactionDB.t) : bool :=
  match TransactionDB.id r with
  | Some i => i =? pk
  | None => false
  end.

(** [await db.refresh(obj)]: loads the row of the object again. *)
Definition db_refresh (pk : Z) : M TransactionDB.t :=
  run may_raise DbRefresh;
  do w <- get_world;
  match find (has_pk pk) (table w) with
  | Some r => ret r
  | None => raise (Exception "Could not refresh instance")
  end.

(** [WHERE transaction_id = :transaction_id AND is_active = true] *)
Definition selected (transaction_id : string) (r : TransactionDB.t) : bool :=
  String.eqb (TransactionDB.transaction_id r) transaction_id
  && match TransactionDB.is_active r with Some true => true | _ => false end.

(** [(await db.execute("SELECT * FROM transactions WHERE ...")).fetchone()] *)
Definition db_select_one (transaction_id : string) : M (option TransactionDB.t) :=
  run may_raise DbExecute;
  do w <- get_world;
  ret (find (selected transaction_id) (table w)).

(** [obj.__dict__], the column attributes. *)
Definition __dict__ (o : TransactionDB.t) : Dict :=
  [("id", opt_int (TransactionDB.id o));
   ("transaction_id", VStr (TransactionDB.transaction_id o));
   ("user_id", VStr (TransactionDB.user_id o));
   ("amount", VFloat (TransactionDB.amount o));
   ("currency", VStr (TransactionDB.currency o));
   ("transaction_type", VStr (TransactionDB.transaction_type o));
   ("status", VStr (TransactionDB.status o));
   ("description", opt_str (TransactionDB.description o));
   ("metadata", opt_str (TransactionDB.metadata o));
   ("created_at", opt_int (TransactionDB.created_at o));
   ("updated_at", opt_int (TransactionDB.updated_at o));
   ("is_active", opt_bool (TransactionDB.is_active o))].

(** ** [TransactionResponse] *)

(** [TransactionResponse.from_orm(obj)]: the attributes are validated
    against the annotations; [metadata] is [Optional[Dict]], and the text
    the column holds is not a dictionary. *)
Definition from_orm (o : TransactionDB.t) : M TransactionResponse.t :=
  match TransactionDB.id o, TransactionDB.metadata o,
        TransactionDB.created_at o, TransactionDB.updated_at o with
  | Some i, None, Some c, Some u =>
      ret (TransactionResponse.mk i
             (TransactionDB.transaction_id o) (TransactionDB.user_id o)
             (TransactionDB.amount o) (TransactionDB.currency o)
             (TransactionDB.transaction_type o) (TransactionDB.status o)
             (TransactionDB.description o) None c u)
  | _, _, _, _ => raise (Exception "validation error for TransactionResponse")
  end.

(** [eval(text) if text else None], and the check [TransactionResponse]
    makes of the result. *)
Definition decode_metadata (E : Env) (text : option string) : M (option Dict) :=
  match text with
  | Some s =>
      if truthy_str text then
        match py_eval E s with
        | inl (VDict d) => ret (Some d)
        | inl VNone => ret None
        | inl _ => raise (Exception "validation error for TransactionResponse")
        | inr msg => raise (Exception msg)
        end
      else ret None
  | None => ret None
  end.

(** ** Helpers *)

Definition generate_transaction_id : M string :=
  do timestamp <- time_time;
  do u <- uuid_uuid4;
  let unique_id := prefix 8 u in
  ret ("TXN" ++ str_int timestamp ++ unique_id).

(** [await client.post(url, json=..., timeout=...)]: the status code of the
    response. *)
Definition client_post (url : string) (json : Dict) (timeout : Z) : M Z :=
  fun E w =>
    let w' := add_outbox (mkPost url json timeout) w in
    match post_outcome E with
    | Responded c => (Return c, w')
    | NetworkError msg => (Raise (Exception msg), w')
    end.

Definition send_notification (transaction_data : Dict) : M unit :=
  try_except
    (do E <- ask;
     do user_id <- getitem transaction_data "user_id";
     do amount <- getitem transaction_data "amount";
     do currency <- getitem transaction_data "currency";
     let notification_payload :=
       [("user_id", user_id);
        ("type", VStr "transaction_created");
        ("title", VStr "Nova Transação");
        ("message", VStr ("Transação de " ++ py_str E amount ++ " "
                          ++ py_str E currency ++ " foi criada"));
        ("metadata", VDict transaction_data)] in
     do response_status_code <-
       client_post NOTIFICATION_SERVICE_URL notification_payload 10;
     if response_status_code =? 200
     then
       do transaction_id <- getitem transaction_data "transaction_id";
       log INFO "Notificação enviada com sucesso" [("transaction_id", transaction_id)]
     else
       log WARNING "Falha ao enviar notificação"
         [("status_code", VInt response_status_code)])
    (fun e =>
       do transaction_id <- getitem transaction_data "transaction_id";
       log ERROR "Erro ao enviar notificação"
         [("error", VStr (str_exn e)); ("transaction_id", transaction_id)]).

(** ** Endpoints *)

Definition create_transaction (transaction : TransactionCreate.t)
    : M TransactionResponse.t :=
  do start_time <- time_time;
  try_except
    ((* Gerar ID único para transação *)
     do transaction_id <- generate_transaction_id;
     do E <- ask;
     (* Criar objeto de transação para banco *)
     let db_transaction :=
       TransactionDB.mk None
         transaction_id
         (TransactionCreate.user_id transaction)
         (TransactionCreate.amount transaction)
         (TransactionCreate.currency transaction)
         (TransactionCreate.transaction_type transaction)
         "pending"
         (TransactionCreate.description transaction)
         (match TransactionCreate.metadata transaction with
          | Some d =>
              if truthy_dict (TransactionCreate.metadata transaction)
              then Some (py_str E (VDict d)) else None
          | None => None
          end)
         None None None in
     (* Salvar no banco *)
     do pk <- db_add_commit db_transaction;
     do db_transaction <- db_refresh pk;
     (* Cache da transação *)
     let cache_key := "transaction:" ++ transaction_id in
     run redis_setex cache_key 3600 (py_str E (VDict (__dict__ db_transaction)));
     (* Métricas *)
     run modify inc_CREATED;
     do t <- time_time;
     run modify (observe_DURATION (t - start_time));
     (* Log da transação *)
     run log INFO "Transação criada com sucesso"
           [("transaction_id", VStr transaction_id);
            ("user_id", VStr (TransactionCreate.user_id transaction));
            ("amount", VFloat (TransactionCreate.amount transaction));
            ("currency", VStr (TransactionCreate.currency transaction))];
     (* Enviar notificação em background *)
     run modify (set_background_tasks (fun tasks =>
           (tasks ++ [[("transaction_id", VStr transaction_id);
                       ("user_id", VStr (TransactionCreate.user_id transaction));
                       ("amount", VFloat (TransactionCreate.amount transaction));
                       ("currency", VStr (TransactionCreate.currency transaction));
                       ("transaction_type",
                        VStr (TransactionCreate.transaction_type transaction))]])%list));
     from_orm db_transaction)
    (fun e =>
       run modify inc_ERRORS;
       run log ERROR "Erro ao criar transação"
             [("error", VStr (str_exn e));
              ("user_id", VStr (TransactionCreate.user_id transaction))];
       raise (HTTPException HTTP_500_INTERNAL_SERVER_ERROR
                "Erro interno ao criar transação")).

Definition get_transaction (transaction_id : string) : M TransactionResponse.t :=
  do start_time <- time_time;
  try_except
    ((* Tentar buscar do cache primeiro *)
     let cache_key := "transaction:" ++ transaction_id in
     do cached_transaction <- redis_get cache_key;
     run (if truthy_str cached_transaction
          then log INFO "Transação encontrada no cache"
                 [("transaction_id", VStr transaction_id)]
          else ret tt);
     (* Buscar do banco *)
     do transaction_data <- db_select_one transaction_id;
     match transaction_data with
     | None =>
         raise (HTTPException HTTP_404_NOT_FOUND "Transação não encontrada")
     | Some transaction_data =>
         (* Métricas *)
         run modify inc_RETRIEVED;
         do t <- time_time;
         run modify (observe_DURATION (t - start_time));
         (* Log da consulta *)
         run log INFO "Transação consultada com sucesso"
               [("transaction_id", VStr transaction_id)];
         do E <- ask;
         do metadata <- decode_metadata E (TransactionDB.metadata transaction_data);
         match TransactionDB.id transaction_data,
               TransactionDB.created_at transaction_data,
               TransactionDB.updated_at transaction_data with
         | Some i, Some c, Some u =>
             ret (TransactionResponse.mk i
                    (TransactionDB.transaction_id transaction_data)
                    (TransactionDB.user_id transaction_data)
                    (TransactionDB.amount transaction_data)
                    (TransactionDB.currency transaction_data)
                    (TransactionDB.transaction_type transaction_data)
                    (TransactionDB.status transaction_data)
                    (TransactionDB.description transaction_data)
                    metadata c u)
         | _, _, _ => raise (Exception "validation error for TransactionResponse")
         end
     end)
    (fun e =>
       match e with
       | HTTPException _ _ => raise e
       | Exception _ =>
           run modify inc_ERRORS;
           run log ERROR "Erro ao buscar transação"
                 [("error", VStr (str_exn e));
                  ("transaction_id", VStr transaction_id)];
           raise (HTTPException HTTP_500_INTERNAL_SERVER_ERROR
                    "Erro interno ao buscar transação")
       end).

(** [WHERE user_id = :user_id AND is_active = true] *)
Definition selected_user (user_id : string) (r : TransactionDB.t) : bool :=
  String.eqb (TransactionDB.user_id r) user_id
  && match TransactionDB.is_active r with Some true => true | _ => false end.

(** [(await db.execute("SELECT * FROM transactions WHERE ... ORDER BY
    created_at DESC LIMIT :limit OFFSET :offset")).fetchall()]; the store
    refuses a negative LIMIT or OFFSET. *)
Definition db_select_user (user_id : string) (limit offset : Z)
    : M (list TransactionDB.t) :=
  run may_raise DbExecute;
  if (limit <? 0) || (offset <? 0)
  then raise (Exception "LIMIT and OFFSET must not be negative")
  else
    do w <- get_world;
    ret (limit_offset limit offset
           (order_by_desc TransactionDB.created_at
              (List.filter (selected_user user_id) (table w)))).

Definition get_user_transactions (user_id : string) (limit offset : Z)
    : M (list TransactionResponse.t) :=
  try_except
    (do transactions <- db_select_user user_id limit offset;
     run log INFO "Transações do usuário consultadas"
           [("user_id", VStr user_id);
            ("count", VInt (Z.of_nat (length transactions)))];
     (* TODO: Implementar conversão para lista de TransactionResponse *)
     ret [])
    (fun e =>
       run log ERROR "Erro ao buscar transações do usuário"
             [("error", VStr (str_exn e)); ("user_id", VStr user_id)];
       raise (HTTPException HTTP_500_INTERNAL_SERVER_ERROR
                "Erro interno ao buscar transações")).

(** ** The application *)

(** The tasks of the response, run one after the other once the response
    has been produced. *)
Fixpoint run_tasks (tasks : list Dict) : M unit :=
  match tasks with
  | [] => ret tt
  | d :: tasks' => run send_notification d; run_tasks tasks'
  end.

Definition run_background_tasks : M unit :=
  do w <- get_world;
  run modify drop_background_tasks;
  run_tasks (background_tasks w).

(** [POST /transactions]: a fresh [BackgroundTasks], the middleware around
    the path operation, then the tasks.  What the client sees is the first
    component. *)
Definition post_transactions (url : string) (body : Payload.t)
    (E : Env) (w : World) : Response TransactionResponse.t * World :=
  let (response, w') :=
    serve (log_requests "POST" url
             (Depends get_redis
                (route_body HTTP_201_CREATED (validate E) create_transaction body)))
      E (drop_background_tasks w) in
  (response, snd (run_background_tasks E w')).

(** [GET /transactions/{transaction_id}] *)
Definition get_transactions (url : string) (transaction_id : string)
    (E : Env) (w : World) : Response TransactionResponse.t * World :=
  serve (log_requests "GET" url
           (Depends get_redis
              (route HTTP_200_OK (get_transaction transaction_id)))) E w.

(** [GET /transactions/user/{user_id}]; [limit] and [offset] are query
    parameters with defaults 100 and 0. *)
Definition get_transactions_user (url : string) (user_id : string)
    (limit offset : option Z) (E : Env) (w : World)
    : Response (list TransactionResponse.t) * World :=
  serve (log_requests "GET" url
           (route HTTP_200_OK
              (get_user_transactions user_id (default 100 limit) (default 0 offset))))
    E w.

(** [GET /health] *)
Definition get_health (url : string) (E : Env) (w : World)
    : Response HealthResponse * World :=
  serve (log_requests "GET" url (route HTTP_200_OK health_check)) E w.

End TransactionApi.

(* ===================================================================== *)
(** * docker/notification-service/main.py *)
(* ===================================================================== *)

Module NotificationService.

(** ** Data models *)

(** A row of [notifications]; [metadata] is a JSON column and holds the
    dictionary itself. *)
Module NotificationDB.
Record t : Type := mk {
  id : option Z;
  notification_id : string;
  user_id : string;
  type : string;
  title : string;
  message : string;
  status : string;
  priority : string;
  metadata : option Dict;
  created_at : option Z;
  updated_at : option Z;
  read_at : option Z;
  is_active : option bool
}.
End NotificationDB.

(** The JSON body of [POST /notify]. *)
Module Payload.
Record t : Type := mk {
  user_id : string;
  type : string;
  title : string;
  message : string;
  priority : option string;
  metadata : option Dict
}.
End Payload.

(** A validated [NotificationCreate]. *)
Module NotificationCreate.
Record t : Type := mk {
  user_id : string;
  type : string;
  title : string;
  message : string;
  priority : string;
  metadata : option Dict
}.
End NotificationCreate.

Module NotificationResponse.
Record t : Type := mk {
  id : Z;
  notification_id : string;
  user_id : string;
  type : string;
  title : string;
  message : string;
  status : string;
  priority : string;
  metadata : option Dict;
  created_at : Z;
  updated_at : Z;
  read_at : option Z
}.
End NotificationResponse.

Abbreviation World := (World NotificationDB.t).
Abbreviation M := (M NotificationDB.t).

(** ** [NotificationCreate]: field constraints and validators *)

Definition validate_priority (v : string) : string + string :=
  let allowed_priorities := ["low"; "normal"; "high"; "urgent"] in
  if negb (str_in v allowed_priorities)
  then inl "priority deve ser um dos seguintes: ['low', 'normal', 'high', 'urgent']"
  else inr v.

Definition validate_type (v : string) : string + string :=
  let allowed_types :=
    ["transaction_created"; "system_alert"; "security_alert";
     "payment_confirmation"; "general"] in
  if negb (str_in v allowed_types)
  then inl "type deve ser um dos seguintes: ['transaction_created', 'system_alert', 'security_alert', 'payment_confirmation', 'general']"
  else inr v.

(** [Field(..., max_length=200)] *)
Definition check_title (v : string) : string + string :=
  if (200 <? String.length v)%nat
  then inl "String should have at most 200 characters"
  else inr v.

(** [Field(default="normal")] and then the validator; the default is taken
    as it is. *)
Definition check_priority (v : option string) : string + string :=
  match v with
  | None => inr "normal"
  | Some v => validate_priority v
  end.

Definition validate (p : Payload.t) : list (string * string) + NotificationCreate.t :=
  match validate_type (Payload.type p),
        check_title (Payload.title p),
        check_priority (Payload.priority p) with
  | inr ty, inr ti, inr pr =>
      inr (NotificationCreate.mk (Payload.user_id p) ty ti
             (Payload.message p) pr (Payload.metadata p))
  | rty, rti, rpr =>
      inl (field_error "type" rty ++ field_error "title" rti
           ++ field_error "priority" rpr)%list
  end.

(** ** The session *)

Definition inserted (E : Env) (pk : Z) (obj : NotificationDB.t) : NotificationDB.t :=
  NotificationDB.mk (Some pk)
    (NotificationDB.notification_id obj) (NotificationDB.user_id obj)
    (NotificationDB.type obj) (NotificationDB.title obj)
    (NotificationDB.message obj) (NotificationDB.status obj)
    (NotificationDB.priority obj) (NotificationDB.metadata obj)
    (Some (default (import_time E) (NotificationDB.created_at obj)))
    (Some (default (import_time E) (NotificationDB.updated_at obj)))
    (NotificationDB.read_at obj)
    (Some (default true (NotificationDB.is_active obj))).

(** [db.add(obj); await db.commit()]: returns the key of the new row. *)
Definition db_add_commit (obj : NotificationDB.t) : M Z :=
  run may_raise DbCommit;
  do E <- ask;
  do w <- get_world;
  let pk := seq w in
  run modify (fun w =>
        set_seq (pk + 1)
          (set_table (fun rows => (rows ++ [inserted E pk obj])%list) w));
  ret pk.

Definition has_pk (pk : Z) (r : NotificationDB.t) : bool :=
  match NotificationDB.id r with
  | Some i => i =? pk
  | None => false
  end.

(** [await db.refresh(obj)] *)
Definition db_refresh (pk : Z) : M NotificationDB.t :=
  run may_raise DbRefresh;
  do w <- get_world;
  match find (has_pk pk) (table w) with
  | Some r => ret r
  | None => raise (Exception "Could not refresh instance")
  end.

(** [WHERE notification_id = :notification_id AND is_active = true] *)
Definition selected (notification_id : string) (r : NotificationDB.t) : bool :=
  String.eqb (NotificationDB.notification_id r) notification_id
  && match NotificationDB.is_active r with Some true => true | _ => false end.

(** [SET status = 'read', read_at = :read_at, updated_at = :updated_at] *)
Definition set_read (read_at updated_at : Z) (r : NotificationDB.t) : NotificationDB.t :=
  NotificationDB.mk (NotificationDB.id r)
    (NotificationDB.notification_id r) (NotificationDB.user_id r)
    (NotificationDB.type r) (NotificationDB.title r)
    (NotificationDB.message r) "read"
    (NotificationDB.priority r) (NotificationDB.metadata r)
    (NotificationDB.created_at r)
    (Some updated_at)
    (Some read_at)
    (NotificationDB.is_active r).

(** The table after the UPDATE, inside the transaction of the session. *)
Definition updated (notification_id : string) (read_at updated_at : Z)
    (rows : list NotificationDB.t) : list NotificationDB.t :=
  map (fun r =>
         if selected notification_id r then set_read read_at updated_at r else r)
      rows.

(** [await db.execute("UPDATE ... RETURNING *")]: the pending table and
    the rows returned.  Nothing is committed yet. *)
Definition db_update_returning (notification_id : string) (read_at updated_at : Z)
    : M (list NotificationDB.t * list NotificationDB.t) :=
  run may_raise DbExecute;
  do w <- get_world;
  ret (updated notification_id read_at updated_at (table w),
       map (set_read read_at updated_at) (filter (selected notification_id) (table w))).

(** [await db.commit()] of the pending table. *)
Definition db_commit (pending : list NotificationDB.t) : M unit :=
  run may_raise DbCommit;
  modify (set_table (fun _ => pending)).

(** [obj.__dict__], the column attributes. *)
Definition __dict__ (o : NotificationDB.t) : Dict :=
  [("id", opt_int (NotificationDB.id o));
   ("notification_id", VStr (NotificationDB.notification_id o));
   ("user_id", VStr (NotificationDB.user_id o));
   ("type", VStr (NotificationDB.type o));
   ("title", VStr (NotificationDB.title o));
   ("message", VStr (NotificationDB.message o));
   ("status", VStr (NotificationDB.status o));
   ("priority", VStr (NotificationDB.priority o));
   ("metadata", opt_dict (NotificationDB.metadata o));
   ("created_at", opt_int (NotificationDB.created_at o));
   ("updated_at", opt_int (NotificationDB.updated_at o));
   ("read_at", opt_int (NotificationDB.read_at o));
   ("is_active", opt_bool (NotificationDB.is_active o))].

(** ** [NotificationResponse] *)

(** [NotificationResponse.from_orm(obj)] and [NotificationResponse(...)]
    from a row: the key and the two timestamps are required. *)
Definition from_orm (o : NotificationDB.t) : M NotificationResponse.t :=
  match NotificationDB.id o,
        NotificationDB.created_at o, NotificationDB.updated_at o with
  | Some i, Some c, Some u =>
      ret (NotificationResponse.mk i
             (NotificationDB.notification_id o) (NotificationDB.user_id o)
             (NotificationDB.type o) (NotificationDB.title o)
             (NotificationDB.message o) (NotificationDB.status o)
             (NotificationDB.priority o) (NotificationDB.metadata o)
             c u (NotificationDB.read_at o))
  | _, _, _ => raise (Exception "validation error for NotificationResponse")
  end.

(** ** Helpers *)

Definition generate_notification_id : M string :=
  do timestamp <- time_time;
  do u <- uuid_uuid4;
  let unique_id := prefix 8 u in
  ret ("NOT" ++ str_int timestamp ++ unique_id).

(** Simula envio de notificação externa (email, SMS, push) *)
Definition send_external_notification (notification_data : Dict) : M bool :=
  try_except
    (do notification_id <- getitem notification_data "notification_id";
     do user_id <- getitem notification_data "user_id";
     do type <- getitem notification_data "type";
     do priority <- getitem notification_data "priority";
     run log INFO "Notificação externa enviada"
           [("notification_id", notification_id); ("user_id", user_id);
            ("type", type); ("priority", priority)];
     ret true)
    (fun e =>
       run log ERROR "Erro ao enviar notificação externa" [("error", VStr (str_exn e))];
       ret false).

(** ** Endpoints *)

Definition create_notification (notification : NotificationCreate.t)
    : M NotificationResponse.t :=
  do start_time <- time_time;
  try_except
    ((* Gerar ID único para notificação *)
     do notification_id <- generate_notification_id;
     do E <- ask;
     (* Criar objeto de notificação para banco *)
     let db_notification :=
       NotificationDB.mk None
         notification_id
         (NotificationCreate.user_id notification)
         (NotificationCreate.type notification)
         (NotificationCreate.title notification)
         (NotificationCreate.message notification)
         "unread"
         (NotificationCreate.priority notification)
         (NotificationCreate.metadata notification)
         None None None None in
     (* Salvar no banco *)
     do pk <- db_add_commit db_notification;
     do db_notification <- db_refresh pk;
     (* Cache da notificação *)
     let cache_key := "notification:" ++ notification_id in
     run redis_setex cache_key 3600 (py_str E (VDict (__dict__ db_notification)));
     (* Cache de notificações do usuário *)
     let user_cache_key :=
       "user_notifications:" ++ NotificationCreate.user_id notification in
     run redis_expire user_cache_key 0;
     (* Métricas *)
     run modify inc_CREATED;
     do t <- time_time;
     run modify (observe_DURATION (t - start_time));
     (* Log da notificação *)
     run log INFO "Notificação criada com sucesso"
           [("notification_id", VStr notification_id);
            ("user_id", VStr (NotificationCreate.user_id notification));
            ("type", VStr (NotificationCreate.type notification));
            ("priority", VStr (NotificationCreate.priority notification))];
     (* Enviar notificação externa em background *)
     run modify (create_task
           [("notification_id", VStr notification_id);
            ("user_id", VStr (NotificationCreate.user_id notification));
            ("type", VStr (NotificationCreate.type notification));
            ("title", VStr (NotificationCreate.title notification));
            ("message", VStr (NotificationCreate.message notification));
            ("priority", VStr (NotificationCreate.priority notification))]);
     from_orm db_notification)
    (fun e =>
       run modify inc_ERRORS;
       run log ERROR "Erro ao criar notificação"
             [("error", VStr (str_exn e));
              ("user_id", VStr (NotificationCreate.user_id notification))];
       raise (HTTPException HTTP_500_INTERNAL_SERVER_ERROR
                "Erro interno ao criar notificação")).

Definition mark_notification_as_read (notification_id : string)
    : M NotificationResponse.t :=
  try_except
    (do read_at <- time_time;
     do updated_at <- time_time;
     do result <- db_update_returning notification_id read_at updated_at;
     let (pending, returned) := result in
     match head returned with
     | None =>
         raise (HTTPException HTTP_404_NOT_FOUND "Notificação não encontrada")
     | Some notification =>
         run db_commit pending;
         (* Invalidar cache *)
         run get_redis;
         run redis_delete ("notification:" ++ notification_id);
         run redis_delete ("user_notifications:" ++ NotificationDB.user_id notification);
         run log INFO "Notificação marcada como lida"
               [("notification_id", VStr notification_id)];
         from_orm notification
     end)
    (fun e =>
       match e with
       | HTTPException _ _ => raise e
       | Exception _ =>
           run log ERROR "Erro ao marcar notificação como lida"
                 [("error", VStr (str_exn e));
                  ("notification_id", VStr notification_id)];
           raise (HTTPException HTTP_500_INTERNAL_SERVER_ERROR
                    "Erro interno ao marcar notificação como lida")
       end).

(** [WHERE user_id = :user_id AND is_active = true], and
    [AND status = :status] when a status is given. *)
Definition selected_user (user_id : string) (status : option string)
    (r : NotificationDB.t) : bool :=
  String.eqb (NotificationDB.user_id r) user_id
  && match NotificationDB.is_active r with Some true => true | _ => false end
  && match status with
     | Some s => String.eqb (NotificationDB.status r) s
     | None => true
     end.

(** [(await db.execute(query, params)).fetchall()] for the query of
    [get_user_notifications]; the store refuses a negative LIMIT or
    OFFSET. *)
Definition db_select_user (user_id : string) (status : option string)
    (limit offset : Z) : M (list NotificationDB.t) :=
  run may_raise DbExecute;
  if (limit <? 0) || (offset <? 0)
  then raise (Exception "LIMIT and OFFSET must not be negative")
  else
    do w <- get_world;
    ret (limit_offset limit offset
           (order_by_desc NotificationDB.created_at
              (List.filter (selected_user user_id status) (table w)))).

(** The query of [get_unread_notifications]: [status = 'unread'], no
    LIMIT. *)
Definition db_select_unread (user_id : string) : M (list NotificationDB.t) :=
  run may_raise DbExecute;
  do w <- get_world;
  ret (order_by_desc NotificationDB.created_at
         (List.filter (selected_user user_id (Some "unread")) (table w))).

Definition get_user_notifications (user_id : string)
    (status_filter : option string) (limit offset : Z)
    : M (list NotificationResponse.t) :=
  do start_time <- time_time;
  try_except
    ((* Tentar buscar do cache primeiro *)
     let cache_key := "user_notifications:" ++ user_id in
     do cached_notifications <- redis_get cache_key;
     run (if truthy_str cached_notifications && negb (truthy_str status_filter)
          then log INFO "Notificações encontradas no cache"
                 [("user_id", VStr user_id)]
          else ret tt);
     (* Construir query baseada nos filtros *)
     let status := if truthy_str status_filter then status_filter else None in
     (* Buscar do banco *)
     do notifications <- db_select_user user_id status limit offset;
     (* Métricas *)
     run modify inc_RETRIEVED;
     do t <- time_time;
     run modify (observe_DURATION (t - start_time));
     (* Log da consulta *)
     run log INFO "Notificações do usuário consultadas"
           [("user_id", VStr user_id);
            ("count", VInt (Z.of_nat (length notifications)))];
     (* TODO: Implementar conversão para lista de NotificationResponse *)
     ret [])
    (fun e =>
       run modify inc_ERRORS;
       run log ERROR "Erro ao buscar notificações do usuário"
             [("error", VStr (str_exn e)); ("user_id", VStr user_id)];
       raise (HTTPException HTTP_500_INTERNAL_SERVER_ERROR
                "Erro interno ao buscar notificações")).

Definition get_unread_notifications (user_id : string)
    : M (list NotificationResponse.t) :=
  try_except
    (do notifications <- db_select_unread user_id;
     run log INFO "Notificações não lidas consultadas"
           [("user_id", VStr user_id);
            ("count", VInt (Z.of_nat (length notifications)))];
     (* TODO: Implementar conversão para lista de NotificationResponse *)
     ret [])
    (fun e =>
       run log ERROR "Erro ao buscar notificações não lidas"
             [("error", VStr (str_exn e)); ("user_id", VStr user_id)];
       raise (HTTPException HTTP_500_INTERNAL_SERVER_ERROR
                "Erro interno ao buscar notificações")).

(** ** The body of [POST /notify] as JSON *)

Definition str_field (k : string) (json : Dict) : option string :=
  match dict_get k json with
  | Some (VStr s) => Some s
  | _ => None
  end.

(** The fields of [NotificationCreate] read from a JSON object, each at
    the type of its annotation: the four required strings, [priority]
    when present, [metadata] when present and not null.  [None] when a
    required field is missing or a value has another type; such a body is
    answered 422.  Keys that are not fields are ignored. *)
Definition of_json (json : Dict) : option Payload.t :=
  match str_field "user_id" json, str_field "type" json,
        str_field "title" json, str_field "message" json with
  | Some user_id, Some type, Some title, Some message =>
      match dict_get "priority" json, dict_get "metadata" json with
      | (None | Some (VStr _)) as priority, (None | Some VNone | Some (VDict _)) as metadata =>
          Some (Payload.mk user_id type title message
                  (match priority with Some (VStr p) => Some p | _ => None end)
                  (match metadata with Some (VDict d) => Some d | _ => None end))
      | _, _ => None
      end
  | _, _, _, _ => None
  end.

(** ** The application *)

(** The coroutines given to [asyncio.create_task] run whatever becomes of
    the request that created them. *)
Fixpoint run_tasks (tasks : list Dict) : M unit :=
  match tasks with
  | [] => ret tt
  | d :: tasks' => do _ <- send_external_notification d; run_tasks tasks'
  end.

Definition clear_event_loop (w : World) : World :=
  mkWorld (table w) (seq w) (cache w) (redis_client w) (CREATED w)
    (RETRIEVED w) (ERRORS w) (DURATION w) (API_REQUEST_DURATION w)
    (logger w) (background_tasks w) [] (outbox w) (ticks w) (draws w).

Definition run_event_loop : M unit :=
  do w <- get_world;
  run modify clear_event_loop;
  run_tasks (event_loop w).

(** [POST /notify] *)
Definition post_notify (url : string) (body : Payload.t)
    (E : Env) (w : World) : Response NotificationResponse.t * World :=
  let (response, w') :=
    serve (log_requests "POST" url
             (Depends get_redis
                (route_body HTTP_201_CREATED validate create_notification body)))
      E w in
  (response, snd (run_event_loop E w')).

(** [PUT /notifications/{notification_id}/read] *)
Definition put_notification_read (url : string) (notification_id : string)
    (E : Env) (w : World) : Response NotificationResponse.t * World :=
  serve (log_requests "PUT" url
           (route HTTP_200_OK (mark_notification_as_read notification_id))) E w.

(** [GET /notifications/{user_id}]; [status_filter], [limit] and [offset]
    are query parameters, the last two with defaults 100 and 0. *)
Definition get_notifications (url : string) (user_id : string)
    (status_filter : option string) (limit offset : option Z)
    (E : Env) (w : World) : Response (list NotificationResponse.t) * World :=
  serve (log_requests "GET" url
           (Depends get_redis
              (route HTTP_200_OK
                 (get_user_notifications user_id status_filter
                    (default 100 limit) (default 0 offset)))))
    E w.

(** [GET /notifications/{user_id}/unread] *)
Definition get_notifications_unread (url : string) (user_id : string)
    (E : Env) (w : World) : Response (list NotificationResponse.t) * World :=
  serve (log_requests "GET" url
           (route HTTP_200_OK (get_unread_notifications user_id))) E w.

(** [GET /health] *)
Definition get_health (url : string) (E : Env) (w : World)
    : Response HealthResponse * World :=
  serve (log_requests "GET" url (route HTTP_200_OK health_check)) E w.

End NotificationService.

(* ===================================================================== *)
(** * Vocabulary of the statements *)
(* ===================================================================== *)

(** No call to a collaborator raises. *)
Definition no_faults (E : Env) : Prop := forall c, faults E c = None.

(** The environment [E] with another answer to the outgoing POST. *)
Definition with_post_outcome (o : HttpOutcome) (E : Env) : Env :=
  mkEnv (faults E) (clock E) (import_time E) (uuid4 E) o
    (str_upper E) (py_str E) (py_eval E).

(** A status code of the 4xx class. *)
Definition client_error (c : Z) : Prop := 400 <= c < 500.

(** What the framework sends for the way a handler ended. *)
Definition answer {A} (declared : Z) (r : result A) : Response A :=
  match r with
  | Return a => mkResponse declared (Json a)
  | Raise (HTTPException c d) => mkResponse c (Detail d)
  | Raise (Exception _) =>
      mkResponse HTTP_500_INTERNAL_SERVER_ERROR (Detail "Internal Server Error")
  end.

(** The status string of one dependency: "healthy" when its probe passed,
    "unhealthy: " and the text of the exception when it raised. *)
Definition probe_status (probe : option string) : string :=
  match probe with
  | None => "healthy"
  | Some msg => "unhealthy: " ++ msg
  end.

(** The overall status for the two probes. *)
Definition overall_status (db rd : option string) : string :=
  match db, rd with
  | None, None => "healthy"
  | _, _ => "degraded"
  end.

(** The next key of the sequence is not in the table. *)
Definition transactions_pk_fresh (w : TransactionApi.World) : Prop :=
  Forall (fun r => TransactionApi.has_pk (seq w) r = false) (table w).

(** The invariant the database keeps: every row has a key, and the
    sequence is ahead of all of them. *)
Definition transactions_keys_below_seq (w : TransactionApi.World) : Prop :=
  Forall (fun r => match TransactionApi.TransactionDB.id r with
                   | Some i => i < seq w
                   | None => False
                   end) (table w).

(** [row] is what the write path stores for the validated request [t]
    under the business identifier [tid] and the key [pk]. *)
Definition written (E : Env) (pk : Z) (tid : string)
    (t : TransactionApi.TransactionCreate.t)
    (row : TransactionApi.TransactionDB.t) : Prop :=
  TransactionApi.TransactionDB.id row = Some pk
  /\ TransactionApi.TransactionDB.transaction_id row = tid
  /\ TransactionApi.TransactionDB.user_id row = TransactionApi.TransactionCreate.user_id t
  /\ TransactionApi.TransactionDB.amount row = TransactionApi.TransactionCreate.amount t
  /\ TransactionApi.TransactionDB.currency row = TransactionApi.TransactionCreate.currency t
  /\ TransactionApi.TransactionDB.transaction_type row
     = TransactionApi.TransactionCreate.transaction_type t
  /\ TransactionApi.TransactionDB.status row = "pending"
  /\ TransactionApi.TransactionDB.description row
     = TransactionApi.TransactionCreate.description t
  /\ TransactionApi.TransactionDB.metadata row
     = match TransactionApi.TransactionCreate.metadata t with
       | Some (kv :: d) => Some (py_str E (VDict (kv :: d)))
       | _ => None
       end
  /\ TransactionApi.TransactionDB.created_at row = Some (import_time E)
  /\ TransactionApi.TransactionDB.updated_at row = Some (import_time E)
  /\ TransactionApi.TransactionDB.is_active row = Some true.

(** The record the client gets back shows the stored [row]. *)
Definition shows (a : TransactionApi.TransactionResponse.t)
    (row : TransactionApi.TransactionDB.t) : Prop :=
  TransactionApi.TransactionDB.id row = Some (TransactionApi.TransactionResponse.id a)
  /\ TransactionApi.TransactionResponse.transaction_id a
     = TransactionApi.TransactionDB.transaction_id row
  /\ TransactionApi.TransactionResponse.user_id a = TransactionApi.TransactionDB.user_id row
  /\ TransactionApi.TransactionResponse.amount a = TransactionApi.TransactionDB.amount row
  /\ TransactionApi.TransactionResponse.currency a = TransactionApi.TransactionDB.currency row
  /\ TransactionApi.TransactionResponse.transaction_type a
     = TransactionApi.TransactionDB.transaction_type row
  /\ TransactionApi.TransactionResponse.status a = TransactionApi.TransactionDB.status row
  /\ TransactionApi.TransactionResponse.description a
     = TransactionApi.TransactionDB.description row
  /\ TransactionApi.TransactionDB.created_at row
     = Some (TransactionApi.TransactionResponse.created_at a)
  /\ TransactionApi.TransactionDB.updated_at row
     = Some (TransactionApi.TransactionResponse.updated_at a).



(* ===================================================================== *)
(** * A concrete environment and concrete requests *)
(* ===================================================================== *)

Module Fixture.

(** [str.upper] on ASCII letters. *)
Definition upper_ascii (c : ascii) : ascii :=
  let n := nat_of_ascii c in
  if ((97 <=? n) && (n <=? 122))%nat then ascii_of_nat (n - 32) else c.

Fixpoint upper (s : string) : string :=
  match s with
  | EmptyString => EmptyString
  | String c s' => String (upper_ascii c) (upper s')
  end.

Definition render (v : pyval) : string :=
  match v with
  | VNone => "None"
  | VBool true => "True"
  | VBool false => "False"
  | VInt n => str_int n
  | VStr s => s
  | VFloat _ => "100.0"
  | VList _ => "[...]"
  | VDict _ => "{...}"
  end.

Definition quiet (c : call) : option string := None.

(** Everything works; the notification service answers 201. *)
Definition E0 : Env :=
  mkEnv quiet (fun k => 1700000000000 + Z.of_nat k) 1690000000000
    (fun _ => "123e4567-e89b-12d3-a456-426614174000") (Responded 201)
    upper render (fun _ => inr "SyntaxError").

(** The store refuses the commit. *)
Definition E_commit_fails : Env :=
  mkEnv (fun c => match c with DbCommit => Some "connection lost" | _ => None end)
    (clock E0) (import_time E0) (uuid4 E0) (post_outcome E0)
    (str_upper E0) (py_str E0) (py_eval E0).

(** The cache refuses the write. *)
Definition E_setex_fails : Env :=
  mkEnv (fun c => match c with RedisSetex => Some "connection refused" | _ => None end)
    (clock E0) (import_time E0) (uuid4 E0) (post_outcome E0)
    (str_upper E0) (py_str E0) (py_eval E0).

(** 100.0 *)
Definition hundred : spec_float := S754_finite false 7036874417766400 (-46).
(** -1.0 *)
Definition minus_one : spec_float := S754_finite true 4503599627370496 (-52).

Definition t0 : World TransactionApi.TransactionDB.t :=
  mkWorld [] 1 ∅ false 0 0 0 [] [] [] [] [] [] 0 0.

Definition n0 : World NotificationService.NotificationDB.t :=
  mkWorld [] 1 ∅ false 0 0 0 [] [] [] [] [] [] 0 0.

(** The example of the specification. *)
Definition credit : TransactionApi.Payload.t :=
  TransactionApi.Payload.mk "u1" hundred (Some "usd") "credit" None None.

Definition credit_empty_metadata : TransactionApi.Payload.t :=
  TransactionApi.Payload.mk "u1" hundred (Some "usd") "credit" None (Some []).

Definition refund : TransactionApi.Payload.t :=
  TransactionApi.Payload.mk "u1" minus_one (Some "usd") "credit" None None.

Definition long_currency : TransactionApi.Payload.t :=
  TransactionApi.Payload.mk "u1" hundred (Some "euro") "credit" None None.

Definition alert : NotificationService.Payload.t :=
  NotificationService.Payload.mk "u1" "system_alert" "Aviso" "Manutenção" None None.

Definition telegram : NotificationService.Payload.t :=
  NotificationService.Payload.mk "u1" "telegram" "Aviso" "Manutenção" None None.

(** A notification of [u1] that is stored and unread, and a world holding
    it together with its two cache entries. *)
Definition unread : NotificationService.NotificationDB.t :=
  NotificationService.NotificationDB.mk (Some 1) "NOT1700000000000123e4567"
    "u1" "system_alert" "Aviso" "Manutenção" "unread" "normal" None
    (Some 1690000000000) (Some 1690000000000) None (Some true).

Definition n1 : World NotificationService.NotificationDB.t :=
  mkWorld [unread] 2
    (<["notification:NOT1700000000000123e4567" := ("{...}", 3600)]>
       (<["user_notifications:u1" := ("[...]", 3600)]> ∅))
    false 1 0 0 [] [] [] [] [] [] 0 0.

(** What [create_transaction] hands to [send_notification] for [credit]. *)
Definition credit_data : Dict :=
  [("transaction_id", VStr "TXN1700000000002123e4567");
   ("user_id", VStr "u1");
   ("amount", VFloat hundred);
   ("currency", VStr "USD");
   ("transaction_type", VStr "credit")].

(** An environment in which [str] writes the dictionary [{'order': 7}] as
    Python does and [eval] reads that text back. *)
Definition order : Dict := [("order", VInt 7)].

Definition E_literal : Env :=
  mkEnv quiet (clock E0) (import_time E0) (uuid4 E0) (post_outcome E0) upper
    (fun v => match v with VDict (_ :: _) => "{'order': 7}" | _ => render v end)
    (fun s => if String.eqb s "{'order': 7}" then inl (VDict order)
              else inr "SyntaxError").

(** The cache cannot be reached. *)
Definition E_get_fails : Env :=
  mkEnv (fun c => match c with RedisGet => Some "timeout" | _ => None end)
    (clock E0) (import_time E0) (uuid4 E0) (post_outcome E0)
    (str_upper E0) (py_str E0) (py_eval E0).

(** The store refuses every statement. *)
Definition E_execute_fails : Env :=
  mkEnv (fun c => match c with DbExecute => Some "connection lost" | _ => None end)
    (clock E0) (import_time E0) (uuid4 E0) (post_outcome E0)
    (str_upper E0) (py_str E0) (py_eval E0).

(** A stored transaction of [u1] with metadata, and a world holding it. *)
Definition stored : TransactionApi.TransactionDB.t :=
  TransactionApi.TransactionDB.mk (Some 1) "TXN1700000000000123e4567"
    "u1" hundred "USD" "credit" "pending" None (Some "{'order': 7}")
    (Some 1690000000000) (Some 1690000000000) (Some true).

Definition t1 : World TransactionApi.TransactionDB.t :=
  mkWorld [stored] 2 ∅ false 1 0 0 [] [] [] [] [] [] 0 0.

End Fixture.

(* ===================================================================== *)
(** * Properties *)
(* ===================================================================== *)

(** Unfolds the monad and the framework around a handler. *)
Ltac unfold_monad :=
  unfold serve, log_requests, Depends, route_body, route, health_check, with_client,
    redis_setex, redis_expire, redis_delete, redis_get, redis_ping, get_redis,
    time_time, uuid_uuid4, log, try_except, bind, ret, raise, ask, modify,
    get_world, may_raise in *.

Ltac unfold_transaction_api :=
  unfold TransactionApi.post_transactions, TransactionApi.get_transactions,
    TransactionApi.run_background_tasks,
    TransactionApi.create_transaction, TransactionApi.get_transaction,
    TransactionApi.generate_transaction_id, TransactionApi.db_add_commit,
    TransactionApi.db_refresh, TransactionApi.db_select_one,
    TransactionApi.from_orm, TransactionApi.decode_metadata in *;
  unfold_monad.

Ltac unfold_notification_service :=
  unfold NotificationService.post_notify, NotificationService.put_notification_read,
    NotificationService.run_event_loop,
    NotificationService.create_notification,
    NotificationService.mark_notification_as_read,
    NotificationService.generate_notification_id,
    NotificationService.db_add_commit, NotificationService.db_refresh,
    NotificationService.db_update_returning, NotificationService.db_commit,
    NotificationService.from_orm in *;
  unfold_monad.

(** Splits on the next undecided [match] of the goal. *)
Ltac case_next :=
  match goal with
  | |- context [match ?x with _ => _ end] =>
      lazymatch x with
      | context [match _ with _ => _ end] => fail
      | _ => destruct x eqn:?; simpl in *
      end
  end.

(** ** The example of the specification *)

(** [{user_id: "u1", amount: 100.0, currency: "usd", transaction_type:
    "credit"}] is answered 201 with currency "USD", status "pending" and
    an identifier made of "TXN", the milliseconds and 8 characters. *)
Example credit_is_created :
  fst (TransactionApi.post_transactions "/transactions" Fixture.credit
         Fixture.E0 Fixture.t0)
  = mkResponse 201
      (Json (TransactionApi.TransactionResponse.mk 1 "TXN1700000000002123e4567"
               "u1" Fixture.hundred "USD" "credit" "pending" None None
               1690000000000 1690000000000)).
Proof. reflexivity. Qed.

(** The same request with metadata that is not empty: the text of the
    dictionary is committed and cached, and then [TransactionResponse]
    refuses the text for its [Optional[Dict]] field, so that the request
    is answered 500 and counted both as created and as an error. *)
Example credit_with_metadata_is_stored_and_answered_500 :
  let req :=
    TransactionApi.Payload.mk "u1" Fixture.hundred (Some "usd") "credit" None
      (Some [("order", VInt 7)]) in
  let r := TransactionApi.post_transactions "/transactions" req
             Fixture.E0 Fixture.t0 in
  fst r = mkResponse 500 (Detail "Erro interno ao criar transação")
  /\ map TransactionApi.TransactionDB.metadata (table (snd r)) = [Some "{...}"]
  /\ CREATED (snd r) = 1%nat /\ ERRORS (snd r) = 1%nat
  /\ outbox (snd r) = [].
Proof. repeat split. Qed.

(** ** Validation *)

(** An amount that is [<= 0] is not [> 0]. *)
Lemma amount_not_positive (a : spec_float) :
  SFleb a TransactionApi.zero = true -> SFltb TransactionApi.zero a = false.
Proof.
  destruct a as [s | s | | s m e]; try destruct s; simpl;
    try reflexivity; discriminate.
Qed.

Lemma check_amount_rejects (a : spec_float) :
  SFleb a TransactionApi.zero = true ->
  exists msg, TransactionApi.check_amount a = inl msg.
Proof.
  intros H. unfold TransactionApi.check_amount.
  rewrite (amount_not_positive a H). eauto.
Qed.

Lemma validate_transaction_type_rejects (v : string) :
  str_in v ["credit"; "debit"; "transfer"] = false ->
  exists msg, TransactionApi.validate_transaction_type v = inl msg.
Proof.
  intros H. unfold TransactionApi.validate_transaction_type.
  rewrite H. simpl. eauto.
Qed.

Lemma check_currency_rejects (E : Env) (c : string) :
  String.length c <> 3%nat ->
  exists msg, TransactionApi.check_currency E (Some c) = inl msg.
Proof.
  intros H. unfold TransactionApi.check_currency, TransactionApi.validate_currency.
  destruct (3 <? String.length c)%nat eqn:Hlen; [eauto |].
  destruct (String.length c =? 3)%nat eqn:Heq; simpl; [| eauto].
  apply Nat.eqb_eq in Heq. contradiction.
Qed.

(** A body with a rejected field is rejected, and the errors are not empty. *)
Lemma transaction_validate_rejects (E : Env) (p : TransactionApi.Payload.t) :
  (exists msg, TransactionApi.check_amount (TransactionApi.Payload.amount p) = inl msg)
  \/ (exists msg, TransactionApi.check_currency E (TransactionApi.Payload.currency p) = inl msg)
  \/ (exists msg, TransactionApi.validate_transaction_type
                    (TransactionApi.Payload.transaction_type p) = inl msg) ->
  exists errs, TransactionApi.validate E p = inl errs /\ errs <> [].
Proof.
  unfold TransactionApi.validate.
  intros [[m H] | [[m H] | [m H]]]; rewrite H;
    repeat case_next; eexists; (split; [reflexivity | simpl; try discriminate]).
  all: destruct (field_error _ _); discriminate.
Qed.

Lemma notification_validate_rejects (p : NotificationService.Payload.t) :
  str_in (NotificationService.Payload.type p)
    ["transaction_created"; "system_alert"; "security_alert";
     "payment_confirmation"; "general"] = false ->
  exists errs, NotificationService.validate p = inl errs /\ errs <> [].
Proof.
  intros H. unfold NotificationService.validate, NotificationService.validate_type.
  rewrite H. simpl.
  repeat case_next; eexists; (split; [reflexivity | simpl; discriminate]).
Qed.

(** A rejected body is answered 422, and the handler does not run: apart
    from the request log of the middleware the world stays as it was. *)
Lemma post_transactions_rejected url req E (w : TransactionApi.World) errs :
  TransactionApi.validate E req = inl errs ->
  let r := TransactionApi.post_transactions url req E w in
  fst r = mkResponse HTTP_422_UNPROCESSABLE_ENTITY (FieldErrors errs)
  /\ table (snd r) = table w /\ seq (snd r) = seq w /\ cache (snd r) = cache w
  /\ ERRORS (snd r) = ERRORS w /\ outbox (snd r) = outbox w.
Proof.
  intros H. unfold_transaction_api. rewrite H. simpl. repeat split.
Qed.

(** The coroutines of the event loop only write to the log. *)
Lemma send_external_notification_frame d E (w : NotificationService.World) :
  let w' := snd (NotificationService.send_external_notification d E w) in
  table w' = table w /\ seq w' = seq w /\ cache w' = cache w
  /\ ERRORS w' = ERRORS w /\ CREATED w' = CREATED w
  /\ incl (logger w) (logger w').
Proof.
  unfold NotificationService.send_external_notification, getitem.
  unfold_monad. simpl.
  repeat case_next; repeat split; auto using incl_refl, incl_tl.
Qed.

Lemma notification_run_tasks_frame tasks E (w : NotificationService.World) :
  let w' := snd (NotificationService.run_tasks tasks E w) in
  table w' = table w /\ seq w' = seq w /\ cache w' = cache w
  /\ ERRORS w' = ERRORS w /\ CREATED w' = CREATED w
  /\ incl (logger w) (logger w').
Proof.
  revert w. induction tasks as [| d tasks IH]; intros w; simpl;
    [repeat split; apply incl_refl |].
  unfold bind.
  pose proof (send_external_notification_frame d E w) as Hd. simpl in Hd.
  destruct (NotificationService.send_external_notification d E w) as [[b | e] w1];
    simpl in *.
  - specialize (IH w1). simpl in IH.
    repeat split; try (intuition congruence).
    apply incl_tran with (logger w1); tauto.
  - exact Hd.
Qed.

Lemma run_event_loop_frame E (w : NotificationService.World) :
  let w' := snd (NotificationService.run_event_loop E w) in
  table w' = table w /\ seq w' = seq w /\ cache w' = cache w
  /\ ERRORS w' = ERRORS w /\ CREATED w' = CREATED w
  /\ incl (logger w) (logger w').
Proof.
  unfold NotificationService.run_event_loop, bind, get_world, modify. simpl.
  apply (notification_run_tasks_frame (event_loop w) E
           (NotificationService.clear_event_loop w)).
Qed.

Lemma post_notify_rejected url req E (w : NotificationService.World) errs :
  NotificationService.validate req = inl errs ->
  let r := NotificationService.post_notify url req E w in
  fst r = mkResponse HTTP_422_UNPROCESSABLE_ENTITY (FieldErrors errs)
  /\ table (snd r) = table w /\ seq (snd r) = seq w
  /\ cache (snd r) = cache w.
Proof.
  intros H. unfold NotificationService.post_notify. unfold_monad. rewrite H.
  simpl. split; [reflexivity |].
  match goal with
  | |- context [NotificationService.run_event_loop E ?w1] =>
      pose proof (run_event_loop_frame E w1) as Hf
  end.
  simpl in Hf. destruct Hf as (-> & -> & -> & _). repeat split.
Qed.

(** C1.  A creation request with [amount <= 0] or with a transaction type
    outside credit, debit, transfer (transaction service), or with a type
    outside transaction_created, system_alert, security_alert,
    payment_confirmation, general (notification service), is answered with
    a client error carrying the field errors, and neither the table nor
    the cache is written. *)
Theorem invalid_request_no_write :
  (forall url req E (w : TransactionApi.World),
      SFleb (TransactionApi.Payload.amount req) TransactionApi.zero = true
      \/ str_in (TransactionApi.Payload.transaction_type req)
           ["credit"; "debit"; "transfer"] = false ->
      let r := TransactionApi.post_transactions url req E w in
      client_error (status_code (fst r))
      /\ (exists errs, body (fst r) = FieldErrors errs /\ errs <> [])
      /\ table (snd r) = table w /\ seq (snd r) = seq w
      /\ cache (snd r) = cache w)
  /\
  (forall url req E (w : NotificationService.World),
      str_in (NotificationService.Payload.type req)
        ["transaction_created"; "system_alert"; "security_alert";
         "payment_confirmation"; "general"] = false ->
      let r := NotificationService.post_notify url req E w in
      client_error (status_code (fst r))
      /\ (exists errs, body (fst r) = FieldErrors errs /\ errs <> [])
      /\ table (snd r) = table w /\ seq (snd r) = seq w
      /\ cache (snd r) = cache w).
Proof.
  split.
  - intros url req E w H.
    destruct (transaction_validate_rejects E req) as (errs & Hv & Hne).
    { destruct H as [H | H].
      - left. now apply check_amount_rejects.
      - right. right. now apply validate_transaction_type_rejects. }
    destruct (post_transactions_rejected url req E w errs Hv)
      as (Hr & Ht & Hs & Hc & _).
    cbv zeta. rewrite Hr. simpl.
    repeat split; try assumption; try (unfold HTTP_422_UNPROCESSABLE_ENTITY; lia).
    exists errs. now split.
  - intros url req E w H.
    destruct (notification_validate_rejects req H) as (errs & Hv & Hne).
    destruct (post_notify_rejected url req E w errs Hv) as (Hr & Ht & Hs & Hc).
    cbv zeta. rewrite Hr. simpl.
    repeat split; try assumption; try (unfold HTTP_422_UNPROCESSABLE_ENTITY; lia).
    exists errs. now split.
Qed.

Lemma invalid_request_no_write_witness :
  (SFleb (TransactionApi.Payload.amount Fixture.refund) TransactionApi.zero = true
   /\ cache (snd (TransactionApi.post_transactions "/transactions" Fixture.refund
                    Fixture.E0 Fixture.t0)) = cache Fixture.t0)
  /\ (str_in (NotificationService.Payload.type Fixture.telegram)
        ["transaction_created"; "system_alert"; "security_alert";
         "payment_confirmation"; "general"] = false
      /\ table (snd (NotificationService.post_notify "/notify" Fixture.telegram
                       Fixture.E0 Fixture.n0)) = table Fixture.n0).
Proof.
  split; (split; [reflexivity |]).
  - apply (proj1 invalid_request_no_write "/transactions" Fixture.refund
             Fixture.E0 Fixture.t0).
    left. reflexivity.
  - apply (proj2 invalid_request_no_write "/notify" Fixture.telegram
             Fixture.E0 Fixture.n0).
    reflexivity.
Defined.

(** ** The write path *)

(** Looking a key up in a table that ends with a row of that key finds a
    row; when no earlier row has the key it is the last one. *)
Lemma find_last {A} (f : A -> bool) (l : list A) (x : A) :
  f x = true ->
  exists y, find f (l ++ [x]) = Some y
            /\ (Forall (fun r => f r = false) l -> y = x).
Proof.
  intros Hx. induction l as [| a l IH]; simpl.
  - rewrite Hx. eauto.
  - destruct (f a) eqn:Ha.
    + exists a. split; [reflexivity |].
      intros Hall. inversion Hall; congruence.
    + destruct IH as (y & Hy & Hlast). exists y. split; [exact Hy |].
      intros Hall. inversion Hall; auto.
Qed.

Lemma transaction_inserted_has_pk E pk obj :
  TransactionApi.has_pk pk (TransactionApi.inserted E pk obj) = true.
Proof. unfold TransactionApi.has_pk. simpl. apply Z.eqb_refl. Qed.

Lemma notification_inserted_has_pk E pk obj :
  NotificationService.has_pk pk (NotificationService.inserted E pk obj) = true.
Proof. unfold NotificationService.has_pk. simpl. apply Z.eqb_refl. Qed.

(** The notifier writes to the log and to the outbox only. *)
Lemma send_notification_frame d E (w : TransactionApi.World) :
  let w' := snd (TransactionApi.send_notification d E w) in
  table w' = table w /\ seq w' = seq w /\ cache w' = cache w
  /\ ERRORS w' = ERRORS w /\ CREATED w' = CREATED w
  /\ incl (logger w) (logger w').
Proof.
  unfold TransactionApi.send_notification, TransactionApi.client_post,
    getitem.
  unfold_monad. simpl.
  repeat case_next; repeat split; auto using incl_refl, incl_tl.
Qed.

Lemma transaction_run_tasks_frame tasks E (w : TransactionApi.World) :
  let w' := snd (TransactionApi.run_tasks tasks E w) in
  table w' = table w /\ seq w' = seq w /\ cache w' = cache w
  /\ ERRORS w' = ERRORS w /\ CREATED w' = CREATED w
  /\ incl (logger w) (logger w').
Proof.
  revert w. induction tasks as [| d tasks IH]; intros w; simpl;
    [repeat split; apply incl_refl |].
  unfold bind.
  pose proof (send_notification_frame d E w) as Hd. simpl in Hd.
  destruct (TransactionApi.send_notification d E w) as [[b | e] w1]; simpl in *.
  - specialize (IH w1). simpl in IH.
    repeat split; try (intuition congruence).
    apply incl_tran with (logger w1); tauto.
  - exact Hd.
Qed.

Lemma run_background_tasks_frame E (w : TransactionApi.World) :
  let w' := snd (TransactionApi.run_background_tasks E w) in
  table w' = table w /\ seq w' = seq w /\ cache w' = cache w
  /\ ERRORS w' = ERRORS w /\ CREATED w' = CREATED w
  /\ incl (logger w) (logger w').
Proof.
  unfold TransactionApi.run_background_tasks, bind, get_world, modify. simpl.
  apply (transaction_run_tasks_frame (background_tasks w) E
           (drop_background_tasks w)).
Qed.

(** The middleware and the server around a path operation: the response
    answers the way the handler ended; store, cache, counters and outbox are
    as the handler left them; the tasks of a handler that raised are gone. *)
Lemma serve_route {Row A} method url declared (h : M Row A) E (w : World Row) :
  let out := h E (tick w) in
  let r := serve (log_requests method url (route declared h)) E w in
  fst r = answer declared (fst out)
  /\ table (snd r) = table (snd out) /\ seq (snd r) = seq (snd out)
  /\ cache (snd r) = cache (snd out)
  /\ ERRORS (snd r) = ERRORS (snd out) /\ CREATED (snd r) = CREATED (snd out)
  /\ outbox (snd r) = outbox (snd out)
  /\ incl (logger (snd out)) (logger (snd r))
  /\ background_tasks (snd r)
     = match fst out with
       | Return _ => background_tasks (snd out)
       | Raise _ => []
       end.
Proof.
  unfold_monad. simpl.
  destruct (h E (tick w)) as [[a | [c d | m]] w1]; simpl; repeat split;
    auto using incl_refl, incl_tl.
Qed.

(** The same around a path operation that depends on [get_redis]. *)
Lemma serve_depends_route {Row A} method url declared (h : M Row A) E (w : World Row) :
  let out := h E (with_client (tick w)) in
  let r := serve (log_requests method url
                    (Depends get_redis (route declared h))) E w in
  fst r = answer declared (fst out)
  /\ table (snd r) = table (snd out) /\ seq (snd r) = seq (snd out)
  /\ cache (snd r) = cache (snd out)
  /\ ERRORS (snd r) = ERRORS (snd out) /\ CREATED (snd r) = CREATED (snd out)
  /\ outbox (snd r) = outbox (snd out)
  /\ incl (logger (snd out)) (logger (snd r))
  /\ background_tasks (snd r)
     = match fst out with
       | Return _ => background_tasks (snd out)
       | Raise _ => []
       end.
Proof.
  unfold serve, log_requests, Depends, route, get_redis, time_time, log, bind,
    ret, modify.
  simpl.
  destruct (h E (with_client (tick w))) as [[a | [c d | m]] w1]; simpl; repeat split;
    auto using incl_refl, incl_tl.
Qed.

(** An accepted body reaches the handler; the response is the answer to
    the way the handler ended, and store, cache and counters are as the
    handler left them. *)
Lemma post_transactions_accepted url req t E (w : TransactionApi.World) :
  TransactionApi.validate E req = inr t ->
  let h := TransactionApi.create_transaction t E
             (with_client (tick (drop_background_tasks w))) in
  let r := TransactionApi.post_transactions url req E w in
  fst r = answer HTTP_201_CREATED (fst h)
  /\ table (snd r) = table (snd h) /\ seq (snd r) = seq (snd h)
  /\ cache (snd r) = cache (snd h)
  /\ ERRORS (snd r) = ERRORS (snd h) /\ CREATED (snd r) = CREATED (snd h)
  /\ incl (logger (snd h)) (logger (snd r)).
Proof.
  intros Hv. cbv zeta.
  unfold TransactionApi.post_transactions, route_body. rewrite Hv.
  pose proof (serve_depends_route "POST" url HTTP_201_CREATED
                (TransactionApi.create_transaction t) E
                (drop_background_tasks w)) as Hs.
  cbv zeta in Hs.
  destruct (serve _ E (drop_background_tasks w)) as [resp w2].
  pose proof (run_background_tasks_frame E w2) as Hf. cbv zeta in Hf.
  simpl in *. repeat split; try (intuition congruence).
  apply incl_tran with (logger w2); tauto.
Qed.

Lemma post_notify_accepted url req n E (w : NotificationService.World) :
  NotificationService.validate req = inr n ->
  let h := NotificationService.create_notification n E (with_client (tick w)) in
  let r := NotificationService.post_notify url req E w in
  fst r = answer HTTP_201_CREATED (fst h)
  /\ table (snd r) = table (snd h) /\ seq (snd r) = seq (snd h)
  /\ cache (snd r) = cache (snd h)
  /\ ERRORS (snd r) = ERRORS (snd h) /\ CREATED (snd r) = CREATED (snd h)
  /\ incl (logger (snd h)) (logger (snd r)).
Proof.
  intros Hv. cbv zeta.
  unfold NotificationService.post_notify, route_body. rewrite Hv.
  pose proof (serve_depends_route "POST" url HTTP_201_CREATED
                (NotificationService.create_notification n) E w) as Hs.
  cbv zeta in Hs.
  destruct (serve _ E w) as [resp w2].
  pose proof (run_event_loop_frame E w2) as Hf. cbv zeta in Hf.
  simpl in *. repeat split; try (intuition congruence).
  apply incl_tran with (logger w2); tauto.
Qed.

(** *** [create_transaction] *)

(** The commit raises: the generic handler counts the error and raises the
    500; nothing was written. *)
Lemma create_transaction_commit_fails t E (w : TransactionApi.World) msg :
  faults E DbCommit = Some msg ->
  let h := TransactionApi.create_transaction t E w in
  fst h = Raise (HTTPException HTTP_500_INTERNAL_SERVER_ERROR
                   "Erro interno ao criar transação")
  /\ ERRORS (snd h) = S (ERRORS w)
  /\ table (snd h) = table w /\ seq (snd h) = seq w /\ cache (snd h) = cache w.
Proof.
  intros Hc. unfold_transaction_api. simpl. rewrite Hc. simpl. repeat split.
Qed.

(** The commit does not raise: whatever happens next, the table has gained
    the row of the request. *)
Lemma create_transaction_persists t E (w : TransactionApi.World) :
  faults E DbCommit = None ->
  let h := TransactionApi.create_transaction t E w in
  exists tid row,
    table (snd h) = (table w ++ [row])%list /\ written E (seq w) tid t row
    /\ seq (snd h) = seq w + 1.
Proof.
  intros Hc. unfold_transaction_api. simpl. rewrite Hc. simpl.
  do 2 eexists. split.
  { destruct (faults E DbRefresh); simpl; [reflexivity |].
    match goal with
    | |- context [find (TransactionApi.has_pk ?pk) (?l ++ [?x])] =>
        destruct (find_last (TransactionApi.has_pk pk) l x
                    (transaction_inserted_has_pk _ _ _)) as (y & -> & _)
    end.
    simpl. repeat case_next; reflexivity. }
  split.
  { unfold written. simpl.
    destruct (TransactionApi.TransactionCreate.metadata t) as [[| kv d] |];
      simpl; repeat split. }
  destruct (faults E DbRefresh); simpl; [reflexivity |].
  match goal with
  | |- context [find (TransactionApi.has_pk ?pk) (?l ++ [?x])] =>
      destruct (find_last (TransactionApi.has_pk pk) l x
                  (transaction_inserted_has_pk _ _ _)) as (y & -> & _)
  end.
  simpl. repeat case_next; reflexivity.
Qed.

(** The invariant of the keys gives a fresh key and is kept by the
    creation endpoint. *)
Lemma keys_below_seq_fresh (w : TransactionApi.World) :
  transactions_keys_below_seq w -> transactions_pk_fresh w.
Proof.
  unfold transactions_keys_below_seq, transactions_pk_fresh.
  apply Stdlib.Lists.List.Forall_impl. intros r. unfold TransactionApi.has_pk.
  destruct (TransactionApi.TransactionDB.id r) as [i |]; [| reflexivity].
  intros Hlt. apply Z.eqb_neq. lia.
Qed.

Lemma post_transactions_keeps_keys url req E (w : TransactionApi.World) :
  transactions_keys_below_seq w ->
  transactions_keys_below_seq (snd (TransactionApi.post_transactions url req E w)).
Proof.
  intros Hinv. unfold transactions_keys_below_seq in *.
  destruct (TransactionApi.validate E req) as [errs | t] eqn:Hv.
  - destruct (post_transactions_rejected url req E w errs Hv)
      as (_ & -> & -> & _).
    exact Hinv.
  - destruct (post_transactions_accepted url req t E w Hv)
      as (_ & -> & -> & _).
    destruct (faults E DbCommit) as [msg |] eqn:Hc.
    + destruct (create_transaction_commit_fails t E
                  (with_client (tick (drop_background_tasks w))) msg Hc)
        as (_ & _ & -> & -> & _).
      exact Hinv.
    + destruct (create_transaction_persists t E
                  (with_client (tick (drop_background_tasks w))) Hc)
        as (tid & row & -> & Hwritten & ->).
      destruct Hwritten as (Hid & _). simpl in *.
      apply Forall_app. split.
      * eapply Stdlib.Lists.List.Forall_impl; [| exact Hinv]. intros r.
        simpl.
        destruct (TransactionApi.TransactionDB.id r); [lia | tauto].
      * constructor; [| constructor]. rewrite Hid.
        change (seq (with_client (tick (drop_background_tasks w)))) with (seq w).
        lia.
Qed.

(** The commit and the reload pass and [setex] raises: the generic handler
    catches the error of the cache, logs its text, counts it and raises
    the 500; the cache holds nothing new. *)
Lemma create_transaction_setex_fails t E (w : TransactionApi.World) msg :
  faults E DbCommit = None -> faults E DbRefresh = None ->
  faults E RedisSetex = Some msg ->
  let h := TransactionApi.create_transaction t E w in
  fst h = Raise (HTTPException HTTP_500_INTERNAL_SERVER_ERROR
                   "Erro interno ao criar transação")
  /\ ERRORS (snd h) = S (ERRORS w) /\ CREATED (snd h) = CREATED w
  /\ cache (snd h) = cache w
  /\ logger (snd h)
     = (mkLog ERROR "Erro ao criar transação"
          [("error", VStr msg);
           ("user_id", VStr (TransactionApi.TransactionCreate.user_id t))]
        :: logger w)%list.
Proof.
  intros Hc Hr Hs. unfold_transaction_api. simpl. rewrite Hc. simpl.
  rewrite Hr. simpl.
  match goal with
  | |- context [find (TransactionApi.has_pk ?pk) (?l ++ [?x])] =>
      destruct (find_last (TransactionApi.has_pk pk) l x
                  (transaction_inserted_has_pk _ _ _)) as (y & -> & _)
  end.
  simpl. rewrite Hs. simpl. repeat split.
Qed.

(** The handler returns: the row is in the table and in the cache, one
    notification task is attached to the response, and the record returned
    shows the row. *)
Lemma create_transaction_returns t E (w : TransactionApi.World) a :
  transactions_pk_fresh w ->
  fst (TransactionApi.create_transaction t E w) = Return a ->
  let h := TransactionApi.create_transaction t E w in
  exists tid row,
    table (snd h) = (table w ++ [row])%list
    /\ written E (seq w) tid t row /\ shows a row
    /\ TransactionApi.TransactionResponse.metadata a = None
    /\ cache (snd h)
       = <[("transaction:" ++ tid) :=
             (py_str E (VDict (TransactionApi.__dict__ row)), 3600)]> (cache w)
    /\ CREATED (snd h) = S (CREATED w) /\ ERRORS (snd h) = ERRORS w
    /\ outbox (snd h) = outbox w
    /\ background_tasks (snd h)
       = (background_tasks w
          ++ [[("transaction_id", VStr tid);
               ("user_id", VStr (TransactionApi.TransactionCreate.user_id t));
               ("amount", VFloat (TransactionApi.TransactionCreate.amount t));
               ("currency", VStr (TransactionApi.TransactionCreate.currency t));
               ("transaction_type",
                VStr (TransactionApi.TransactionCreate.transaction_type t))]])%list.
Proof.
  intros Hfresh. cbv zeta. unfold written, shows. unfold_transaction_api. simpl.
  destruct (faults E DbCommit); simpl; [discriminate |].
  destruct (faults E DbRefresh); simpl; [discriminate |].
  match goal with
  | |- context [find (TransactionApi.has_pk ?pk) (?l ++ [?x])] =>
      destruct (find_last (TransactionApi.has_pk pk) l x
                  (transaction_inserted_has_pk _ _ _)) as (y & -> & Hy)
  end.
  rewrite (Hy Hfresh). simpl.
  destruct (faults E RedisSetex); simpl; [discriminate |].
  destruct (TransactionApi.TransactionCreate.metadata t) as [[| kv d] |];
    simpl; try discriminate.
  all: intros [= <-]; do 2 eexists; simpl; repeat split; reflexivity.
Qed.

(** *** [create_notification] *)

Lemma create_notification_commit_fails n E (w : NotificationService.World) msg :
  faults E DbCommit = Some msg ->
  let h := NotificationService.create_notification n E w in
  fst h = Raise (HTTPException HTTP_500_INTERNAL_SERVER_ERROR
                   "Erro interno ao criar notificação")
  /\ ERRORS (snd h) = S (ERRORS w)
  /\ table (snd h) = table w /\ seq (snd h) = seq w /\ cache (snd h) = cache w.
Proof.
  intros Hc. unfold_notification_service. simpl. rewrite Hc. simpl. repeat split.
Qed.

Lemma create_notification_persists n E (w : NotificationService.World) :
  faults E DbCommit = None ->
  let h := NotificationService.create_notification n E w in
  exists row,
    table (snd h) = (table w ++ [row])%list
    /\ NotificationService.NotificationDB.status row = "unread"
    /\ NotificationService.NotificationDB.user_id row
       = NotificationService.NotificationCreate.user_id n
    /\ NotificationService.NotificationDB.type row
       = NotificationService.NotificationCreate.type n
    /\ NotificationService.NotificationDB.metadata row
       = NotificationService.NotificationCreate.metadata n.
Proof.
  intros Hc. unfold_notification_service. simpl. rewrite Hc. simpl.
  eexists. split.
  { destruct (faults E DbRefresh); simpl; [reflexivity |].
    match goal with
    | |- context [find (NotificationService.has_pk ?pk) (?l ++ [?x])] =>
        destruct (find_last (NotificationService.has_pk pk) l x
                    (notification_inserted_has_pk _ _ _)) as (y & -> & _)
    end.
    simpl. repeat case_next; reflexivity. }
  simpl. repeat split.
Qed.

Lemma create_notification_setex_fails n E (w : NotificationService.World) msg :
  faults E DbCommit = None -> faults E DbRefresh = None ->
  faults E RedisSetex = Some msg ->
  let h := NotificationService.create_notification n E w in
  fst h = Raise (HTTPException HTTP_500_INTERNAL_SERVER_ERROR
                   "Erro interno ao criar notificação")
  /\ ERRORS (snd h) = S (ERRORS w) /\ CREATED (snd h) = CREATED w
  /\ cache (snd h) = cache w
  /\ logger (snd h)
     = (mkLog ERROR "Erro ao criar notificação"
          [("error", VStr msg);
           ("user_id", VStr (NotificationService.NotificationCreate.user_id n))]
        :: logger w)%list.
Proof.
  intros Hc Hr Hs. unfold_notification_service. simpl. rewrite Hc. simpl.
  rewrite Hr. simpl.
  match goal with
  | |- context [find (NotificationService.has_pk ?pk) (?l ++ [?x])] =>
      destruct (find_last (NotificationService.has_pk pk) l x
                  (notification_inserted_has_pk _ _ _)) as (y & -> & _)
  end.
  simpl. rewrite Hs. simpl. repeat split.
Qed.

(** C2.  When the commit and the reload of the row pass and the cache write
    raises, the generic handler catches the error of the cache (its text
    is logged with "Erro ao criar ..."), the error counter goes up by one
    and the creation is answered 500, although the table has gained the row
    of the request. *)
Theorem cache_failure_after_commit_is_server_error :
  (forall url req t E (w : TransactionApi.World) msg,
      TransactionApi.validate E req = inr t ->
      faults E DbCommit = None -> faults E DbRefresh = None ->
      faults E RedisSetex = Some msg ->
      let r := TransactionApi.post_transactions url req E w in
      fst r = mkResponse HTTP_500_INTERNAL_SERVER_ERROR
                (Detail "Erro interno ao criar transação")
      /\ ERRORS (snd r) = S (ERRORS w)
      /\ In (mkLog ERROR "Erro ao criar transação"
               [("error", VStr msg);
                ("user_id", VStr (TransactionApi.TransactionCreate.user_id t))])
            (logger (snd r))
      /\ exists tid row,
           table (snd r) = (table w ++ [row])%list
           /\ written E (seq w) tid t row)
  /\
  (forall url req n E (w : NotificationService.World) msg,
      NotificationService.validate req = inr n ->
      faults E DbCommit = None -> faults E DbRefresh = None ->
      faults E RedisSetex = Some msg ->
      let r := NotificationService.post_notify url req E w in
      fst r = mkResponse HTTP_500_INTERNAL_SERVER_ERROR
                (Detail "Erro interno ao criar notificação")
      /\ ERRORS (snd r) = S (ERRORS w)
      /\ In (mkLog ERROR "Erro ao criar notificação"
               [("error", VStr msg);
                ("user_id", VStr (NotificationService.NotificationCreate.user_id n))])
            (logger (snd r))
      /\ exists row,
           table (snd r) = (table w ++ [row])%list
           /\ NotificationService.NotificationDB.status row = "unread"
           /\ NotificationService.NotificationDB.user_id row
              = NotificationService.NotificationCreate.user_id n).
Proof.
  split.
  - intros url req t E w msg Hv Hc Hr Hs. cbv zeta.
    destruct (post_transactions_accepted url req t E w Hv)
      as (Hresp & Htable & _ & _ & Herr & _ & Hlog).
    destruct (create_transaction_setex_fails t E (with_client (tick (drop_background_tasks w)))
                msg Hc Hr Hs) as (Hh & Herr' & _ & _ & Hlog').
    destruct (create_transaction_persists t E (with_client (tick (drop_background_tasks w))) Hc)
      as (tid & row & Hrow & Hwritten & _).
    rewrite Hresp, Hh, Herr, Herr', Htable, Hrow. simpl.
    repeat split.
    + apply Hlog. rewrite Hlog'. now left.
    + exists tid, row. now split.
  - intros url req n E w msg Hv Hc Hr Hs. cbv zeta.
    destruct (post_notify_accepted url req n E w Hv)
      as (Hresp & Htable & _ & _ & Herr & _ & Hlog).
    destruct (create_notification_setex_fails n E (with_client (tick w)) msg Hc Hr Hs)
      as (Hh & Herr' & _ & _ & Hlog').
    destruct (create_notification_persists n E (with_client (tick w)) Hc)
      as (row & Hrow & Hstatus & Huser & _).
    rewrite Hresp, Hh, Herr, Herr', Htable, Hrow. simpl.
    repeat split.
    + apply Hlog. rewrite Hlog'. now left.
    + exists row. now repeat split.
Qed.

Lemma cache_failure_after_commit_is_server_error_witness :
  (TransactionApi.validate Fixture.E_setex_fails Fixture.credit
   = inr (TransactionApi.TransactionCreate.mk "u1" Fixture.hundred "USD" "credit"
            None None)
   /\ faults Fixture.E_setex_fails RedisSetex = Some "connection refused"
   /\ status_code (fst (TransactionApi.post_transactions "/transactions"
                          Fixture.credit Fixture.E_setex_fails Fixture.t0)) = 500)
  /\ (NotificationService.validate Fixture.alert
       = inr (NotificationService.NotificationCreate.mk "u1" "system_alert" "Aviso"
                "Manutenção" "normal" None)
      /\ ERRORS (snd (NotificationService.post_notify "/notify" Fixture.alert
                        Fixture.E_setex_fails Fixture.n0)) = 1%nat).
Proof.
  split; (split; [reflexivity |]).
  - split; [reflexivity |].
    pose proof (proj1 cache_failure_after_commit_is_server_error
                  "/transactions" Fixture.credit _ Fixture.E_setex_fails Fixture.t0
                  "connection refused" eq_refl eq_refl eq_refl eq_refl) as H.
    cbv zeta in H. destruct H as (H & _). rewrite H. reflexivity.
  - apply (proj2 cache_failure_after_commit_is_server_error
             "/notify" Fixture.alert _ Fixture.E_setex_fails Fixture.n0
             "connection refused" eq_refl eq_refl eq_refl eq_refl).
Defined.

(** C3.  When the commit raises, the creation is answered 500, the error
    counter goes up by one, and table and cache are as before: the cache
    is written only after the commit.  When the commit does not raise, the
    table gains one row, whose status is "pending" (transactions) or
    "unread" (notifications). *)
Theorem store_failure_leaves_nothing_cached :
  (forall url req t E (w : TransactionApi.World),
      TransactionApi.validate E req = inr t ->
      let r := TransactionApi.post_transactions url req E w in
      (forall msg, faults E DbCommit = Some msg ->
         fst r = mkResponse HTTP_500_INTERNAL_SERVER_ERROR
                   (Detail "Erro interno ao criar transação")
         /\ ERRORS (snd r) = S (ERRORS w)
         /\ cache (snd r) = cache w /\ table (snd r) = table w)
      /\ (faults E DbCommit = None ->
          exists row, table (snd r) = (table w ++ [row])%list
                      /\ TransactionApi.TransactionDB.status row = "pending"))
  /\
  (forall url req n E (w : NotificationService.World),
      NotificationService.validate req = inr n ->
      let r := NotificationService.post_notify url req E w in
      (forall msg, faults E DbCommit = Some msg ->
         fst r = mkResponse HTTP_500_INTERNAL_SERVER_ERROR
                   (Detail "Erro interno ao criar notificação")
         /\ ERRORS (snd r) = S (ERRORS w)
         /\ cache (snd r) = cache w /\ table (snd r) = table w)
      /\ (faults E DbCommit = None ->
          exists row, table (snd r) = (table w ++ [row])%list
                      /\ NotificationService.NotificationDB.status row = "unread")).
Proof.
  split.
  - intros url req t E w Hv. cbv zeta.
    destruct (post_transactions_accepted url req t E w Hv)
      as (Hresp & Htable & _ & Hcache & Herr & _).
    rewrite Hresp, Htable, Hcache, Herr. split.
    + intros msg Hc.
      destruct (create_transaction_commit_fails t E
                  (with_client (tick (drop_background_tasks w))) msg Hc)
        as (-> & -> & -> & _ & ->).
      repeat split.
    + intros Hc.
      destruct (create_transaction_persists t E (with_client (tick (drop_background_tasks w))) Hc)
        as (tid & row & Hrow & Hwritten & _).
      exists row. split; [exact Hrow |]. apply Hwritten.
  - intros url req n E w Hv. cbv zeta.
    destruct (post_notify_accepted url req n E w Hv)
      as (Hresp & Htable & _ & Hcache & Herr & _).
    rewrite Hresp, Htable, Hcache, Herr. split.
    + intros msg Hc.
      destruct (create_notification_commit_fails n E (with_client (tick w)) msg Hc)
        as (-> & -> & -> & _ & ->).
      repeat split.
    + intros Hc.
      destruct (create_notification_persists n E (with_client (tick w)) Hc)
        as (row & Hrow & Hstatus & _).
      exists row. now split.
Qed.

Lemma store_failure_leaves_nothing_cached_witness :
  (faults Fixture.E_commit_fails DbCommit = Some "connection lost"
   /\ cache (snd (TransactionApi.post_transactions "/transactions" Fixture.credit
                    Fixture.E_commit_fails Fixture.t0)) = cache Fixture.t0)
  /\ (faults Fixture.E0 DbCommit = None
      /\ exists row,
           table (snd (NotificationService.post_notify "/notify" Fixture.alert
                         Fixture.E0 Fixture.n0)) = (table Fixture.n0 ++ [row])%list
           /\ NotificationService.NotificationDB.status row = "unread").
Proof.
  split; (split; [reflexivity |]).
  - apply (proj1 (proj1 store_failure_leaves_nothing_cached
                    "/transactions" Fixture.credit _ Fixture.E_commit_fails
                    Fixture.t0 eq_refl)
             "connection lost" eq_refl).
  - apply (proj2 (proj2 store_failure_leaves_nothing_cached
                    "/notify" Fixture.alert _ Fixture.E0 Fixture.n0 eq_refl)
             eq_refl).
Defined.

(** ** The notifier *)

(** The POST [send_notification] issues for the summary of a transaction. *)
Lemma send_notification_posts E (w : TransactionApi.World) tid user amount currency ty :
  let d := [("transaction_id", VStr tid); ("user_id", user); ("amount", amount);
            ("currency", currency); ("transaction_type", ty)] in
  outbox (snd (TransactionApi.send_notification d E w))
  = (mkPost TransactionApi.NOTIFICATION_SERVICE_URL
       [("user_id", user);
        ("type", VStr "transaction_created");
        ("title", VStr "Nova Transação");
        ("message", VStr ("Transação de " ++ py_str E amount ++ " "
                          ++ py_str E currency ++ " foi criada"));
        ("metadata", VDict d)]
       10 :: outbox w)%list.
Proof.
  unfold TransactionApi.send_notification, TransactionApi.client_post,
    getitem.
  unfold_monad. simpl.
  repeat case_next; reflexivity.
Qed.

(** The handlers of the transaction service never look at the answer to
    the POST. *)
Lemma create_transaction_ignores_post_outcome o t E (w : TransactionApi.World) :
  TransactionApi.create_transaction t (with_post_outcome o E) w
  = TransactionApi.create_transaction t E w.
Proof.
  unfold_transaction_api. unfold TransactionApi.inserted. simpl.
  repeat case_next; reflexivity.
Qed.

Lemma validate_ignores_post_outcome o E req :
  TransactionApi.validate (with_post_outcome o E) req = TransactionApi.validate E req.
Proof. reflexivity. Qed.

(** The response of [POST /transactions] is decided before the tasks run. *)
Lemma post_transactions_response url req E (w : TransactionApi.World) :
  fst (TransactionApi.post_transactions url req E w)
  = match TransactionApi.validate E req with
    | inl errs => mkResponse HTTP_422_UNPROCESSABLE_ENTITY (FieldErrors errs)
    | inr t =>
        answer HTTP_201_CREATED
          (fst (TransactionApi.create_transaction t E (with_client (tick (drop_background_tasks w)))))
    end.
Proof.
  destruct (TransactionApi.validate E req) as [errs | t] eqn:Hv.
  - apply (post_transactions_rejected url req E w errs Hv).
  - apply (post_transactions_accepted url req t E w Hv).
Qed.

(** A created response comes from a handler that returned. *)
Lemma created_response_inv url req E (w : TransactionApi.World) a :
  body (fst (TransactionApi.post_transactions url req E w)) = Json a ->
  exists t,
    TransactionApi.validate E req = inr t
    /\ fst (TransactionApi.create_transaction t E (with_client (tick (drop_background_tasks w))))
       = Return a
    /\ fst (TransactionApi.post_transactions url req E w)
       = mkResponse HTTP_201_CREATED (Json a).
Proof.
  rewrite !post_transactions_response.
  destruct (TransactionApi.validate E req) as [errs | t]; simpl; [discriminate |].
  intros H. exists t. split; [reflexivity |].
  destruct (fst (TransactionApi.create_transaction t E
                   (with_client (tick (drop_background_tasks w))))) as [a' | [c d | m]];
    simpl in *; try discriminate.
  injection H as ->. split; reflexivity.
Qed.

(** After a creation that returned, exactly the POST of its summary has
    been added to the outbox. *)
Lemma post_transactions_outbox url req t E (w : TransactionApi.World) a :
  transactions_pk_fresh w ->
  TransactionApi.validate E req = inr t ->
  fst (TransactionApi.create_transaction t E (with_client (tick (drop_background_tasks w))))
  = Return a ->
  exists p md,
    outbox (snd (TransactionApi.post_transactions url req E w))
    = (p :: outbox w)%list
    /\ post_url p = TransactionApi.NOTIFICATION_SERVICE_URL
    /\ post_timeout p = 10
    /\ dict_get "type" (post_json p) = Some (VStr "transaction_created")
    /\ dict_get "metadata" (post_json p) = Some (VDict md)
    /\ dict_get "transaction_id" md
       = Some (VStr (TransactionApi.TransactionResponse.transaction_id a)).
Proof.
  intros Hfresh Hv Ha.
  destruct (create_transaction_returns t E (with_client (tick (drop_background_tasks w))) a
              Hfresh Ha)
    as (tid & row & _ & Hwritten & Hshows & _ & _ & _ & _ & Hout & Htasks).
  unfold TransactionApi.post_transactions, route_body. rewrite Hv.
  pose proof (serve_depends_route "POST" url HTTP_201_CREATED
                (TransactionApi.create_transaction t) E
                (drop_background_tasks w)) as Hs.
  cbv zeta in Hs. rewrite Ha in Hs.
  destruct (serve _ E (drop_background_tasks w)) as [resp w2]. simpl in Hs.
  destruct Hs as (_ & _ & _ & _ & _ & _ & Hout2 & _ & Htasks2).
  unfold TransactionApi.run_background_tasks, bind, get_world, modify. simpl.
  rewrite Htasks2, Htasks. simpl. unfold bind.
  match goal with
  | |- context [TransactionApi.send_notification ?d E ?w3] =>
      pose proof (send_notification_posts E w3 tid
                    (VStr (TransactionApi.TransactionCreate.user_id t))
                    (VFloat (TransactionApi.TransactionCreate.amount t))
                    (VStr (TransactionApi.TransactionCreate.currency t))
                    (VStr (TransactionApi.TransactionCreate.transaction_type t)))
        as Hp;
      cbv zeta in Hp;
      destruct (TransactionApi.send_notification d E w3) as [[[] | e] w4]
  end; simpl in *; rewrite Hp, Hout2, Hout.
  all: do 2 eexists; split; [reflexivity |]; simpl; repeat split.
  all: destruct Hshows as (_ & -> & _); destruct Hwritten as (_ & -> & _);
    reflexivity.
Qed.

(** C4.  When [POST /transactions] answers with the created record, the
    answer is the 201, and exactly one POST has been added to the outbox:
    it goes to the creation endpoint of the notification service, its body
    has type "transaction_created", and its metadata holds the identifier
    of the transaction that was returned.  Whatever that POST meets (any
    status code, or an error of the network), the response to the client
    and the table are the same. *)
Theorem notification_posted_once_response_unaffected :
  forall url req E (w : TransactionApi.World),
    (forall o,
        fst (TransactionApi.post_transactions url req (with_post_outcome o E) w)
        = fst (TransactionApi.post_transactions url req E w)
        /\ table (snd (TransactionApi.post_transactions url req
                         (with_post_outcome o E) w))
           = table (snd (TransactionApi.post_transactions url req E w)))
    /\ (forall a,
          transactions_pk_fresh w ->
          body (fst (TransactionApi.post_transactions url req E w)) = Json a ->
          fst (TransactionApi.post_transactions url req E w)
          = mkResponse HTTP_201_CREATED (Json a)
          /\ exists p md,
               outbox (snd (TransactionApi.post_transactions url req E w))
               = (p :: outbox w)%list
               /\ post_url p = "http://notification-service:8081/notify"
               /\ dict_get "type" (post_json p) = Some (VStr "transaction_created")
               /\ dict_get "metadata" (post_json p) = Some (VDict md)
               /\ dict_get "transaction_id" md
                  = Some (VStr (TransactionApi.TransactionResponse.transaction_id a))).
Proof.
  intros url req E w. split.
  - intros o. split.
    + rewrite !post_transactions_response, validate_ignores_post_outcome.
      destruct (TransactionApi.validate E req); [reflexivity |].
      now rewrite create_transaction_ignores_post_outcome.
    + pose proof (validate_ignores_post_outcome o E req) as Hv.
      destruct (TransactionApi.validate E req) as [errs | t] eqn:Hv'.
      * destruct (post_transactions_rejected url req _ w errs Hv) as (_ & -> & _).
        destruct (post_transactions_rejected url req _ w errs Hv') as (_ & -> & _).
        reflexivity.
      * destruct (post_transactions_accepted url req t _ w Hv) as (_ & -> & _).
        destruct (post_transactions_accepted url req t _ w Hv') as (_ & -> & _).
        now rewrite create_transaction_ignores_post_outcome.
  - intros a Hfresh Ha.
    destruct (created_response_inv url req E w a Ha) as (t & Hv & Hh & Hr).
    split; [exact Hr |].
    destruct (post_transactions_outbox url req t E w a Hfresh Hv Hh)
      as (p & md & Hout & Hurl & _ & Hty & Hmd & Htid).
    exists p, md. repeat split; assumption.
Qed.

Lemma notification_posted_once_response_unaffected_witness :
  transactions_pk_fresh Fixture.t0
  /\ body (fst (TransactionApi.post_transactions "/transactions" Fixture.credit
                  Fixture.E0 Fixture.t0))
     = Json (TransactionApi.TransactionResponse.mk 1 "TXN1700000000002123e4567"
               "u1" Fixture.hundred "USD" "credit" "pending" None None
               1690000000000 1690000000000)
  /\ exists p md,
       outbox (snd (TransactionApi.post_transactions "/transactions" Fixture.credit
                      Fixture.E0 Fixture.t0))
       = (p :: outbox Fixture.t0)%list
       /\ post_url p = "http://notification-service:8081/notify"
       /\ dict_get "type" (post_json p) = Some (VStr "transaction_created")
       /\ dict_get "metadata" (post_json p) = Some (VDict md)
       /\ dict_get "transaction_id" md = Some (VStr "TXN1700000000002123e4567").
Proof.
  split; [constructor |]. split; [reflexivity |].
  apply (proj2 (proj2 (notification_posted_once_response_unaffected
                         "/transactions" Fixture.credit Fixture.E0 Fixture.t0)
                  (TransactionApi.TransactionResponse.mk 1 "TXN1700000000002123e4567"
                     "u1" Fixture.hundred "USD" "credit" "pending" None None
                     1690000000000 1690000000000)
                  (Stdlib.Lists.List.Forall_nil _) eq_refl)).
Defined.

(** ** Currency *)

Lemma validate_reports_currency (E : Env) (p : TransactionApi.Payload.t) msg :
  TransactionApi.check_currency E (TransactionApi.Payload.currency p) = inl msg ->
  exists errs, TransactionApi.validate E p = inl errs /\ In ("currency", msg) errs.
Proof.
  intros H. unfold TransactionApi.validate. rewrite H.
  destruct (TransactionApi.check_amount _), (TransactionApi.validate_transaction_type _);
    eexists; (split; [reflexivity |]); simpl; auto.
Qed.

Lemma validate_accepts_inv (E : Env) (p : TransactionApi.Payload.t) t :
  TransactionApi.validate E p = inr t ->
  TransactionApi.check_amount (TransactionApi.Payload.amount p)
  = inr (TransactionApi.TransactionCreate.amount t)
  /\ TransactionApi.check_currency E (TransactionApi.Payload.currency p)
     = inr (TransactionApi.TransactionCreate.currency t)
  /\ TransactionApi.validate_transaction_type (TransactionApi.Payload.transaction_type p)
     = inr (TransactionApi.TransactionCreate.transaction_type t)
  /\ TransactionApi.TransactionCreate.user_id t = TransactionApi.Payload.user_id p
  /\ TransactionApi.TransactionCreate.description t = TransactionApi.Payload.description p
  /\ TransactionApi.TransactionCreate.metadata t = TransactionApi.Payload.metadata p.
Proof.
  unfold TransactionApi.validate.
  destruct (TransactionApi.check_amount _), (TransactionApi.check_currency _ _),
    (TransactionApi.validate_transaction_type _); try discriminate.
  intros [= <-]. simpl. repeat split.
Qed.

Lemma check_currency_accepts_inv (E : Env) (c v : string) :
  TransactionApi.check_currency E (Some c) = inr v ->
  String.length c = 3%nat /\ v = str_upper E c.
Proof.
  unfold TransactionApi.check_currency, TransactionApi.validate_currency.
  destruct (3 <? String.length c)%nat; [discriminate |].
  destruct (String.length c =? 3)%nat eqn:Hlen; simpl; [| discriminate].
  intros [= <-]. apply Nat.eqb_eq in Hlen. now split.
Qed.

(** C8.  A body whose currency does not have exactly 3 characters is
    rejected with an error on the field and nothing is stored.  In a body
    that is accepted the currency has 3 characters and the validated
    value is its upper-cased form; that value is what the committed row
    holds and what the created record returns. *)
Theorem currency_three_characters_upper_cased :
  (forall url req c E (w : TransactionApi.World),
      TransactionApi.Payload.currency req = Some c ->
      String.length c <> 3%nat ->
      let r := TransactionApi.post_transactions url req E w in
      (exists errs msg,
          TransactionApi.validate E req = inl errs /\ In ("currency", msg) errs
          /\ fst r = mkResponse HTTP_422_UNPROCESSABLE_ENTITY (FieldErrors errs))
      /\ table (snd r) = table w)
  /\
  (forall url req c t E (w : TransactionApi.World),
      TransactionApi.Payload.currency req = Some c ->
      TransactionApi.validate E req = inr t ->
      let r := TransactionApi.post_transactions url req E w in
      String.length c = 3%nat
      /\ TransactionApi.TransactionCreate.currency t = str_upper E c
      /\ (faults E DbCommit = None ->
          exists row, table (snd r) = (table w ++ [row])%list
                      /\ TransactionApi.TransactionDB.currency row = str_upper E c)
      /\ (forall a, transactions_pk_fresh w -> body (fst r) = Json a ->
            TransactionApi.TransactionResponse.currency a = str_upper E c)).
Proof.
  split.
  - intros url req c E w Hc Hlen. cbv zeta.
    destruct (check_currency_rejects E c Hlen) as (msg & Hmsg).
    rewrite <- Hc in Hmsg.
    destruct (validate_reports_currency E req msg Hmsg) as (errs & Hv & Hin).
    destruct (post_transactions_rejected url req E w errs Hv) as (-> & -> & _).
    split; [| reflexivity]. exists errs, msg. now repeat split.
  - intros url req c t E w Hc Hv. cbv zeta.
    destruct (validate_accepts_inv E req t Hv) as (_ & Hcur & _).
    rewrite Hc in Hcur.
    destruct (check_currency_accepts_inv E c _ Hcur) as (Hlen & Hup).
    split; [exact Hlen |]. split; [exact Hup |].
    destruct (post_transactions_accepted url req t E w Hv) as (_ & Htable & _).
    split.
    + intros Hcommit.
      destruct (create_transaction_persists t E (with_client (tick (drop_background_tasks w)))
                  Hcommit) as (tid & row & Hrow & Hwritten & _).
      exists row. rewrite Htable. split; [exact Hrow |].
      destruct Hwritten as (_ & _ & _ & _ & -> & _). exact Hup.
    + intros a Hfresh Ha.
      destruct (created_response_inv url req E w a Ha) as (t' & Hv' & Hh & _).
      rewrite Hv in Hv'. injection Hv' as <-.
      destruct (create_transaction_returns t E (with_client (tick (drop_background_tasks w))) a
                  Hfresh Hh) as (tid & row & _ & Hwritten & Hshows & _).
      destruct Hshows as (_ & _ & _ & _ & -> & _).
      destruct Hwritten as (_ & _ & _ & _ & -> & _). exact Hup.
Qed.

Lemma currency_three_characters_upper_cased_witness :
  (TransactionApi.Payload.currency Fixture.long_currency = Some "euro"
   /\ String.length "euro" <> 3%nat
   /\ table (snd (TransactionApi.post_transactions "/transactions"
                    Fixture.long_currency Fixture.E0 Fixture.t0)) = table Fixture.t0)
  /\ (TransactionApi.Payload.currency Fixture.credit = Some "usd"
      /\ TransactionApi.validate Fixture.E0 Fixture.credit
         = inr (TransactionApi.TransactionCreate.mk "u1" Fixture.hundred "USD"
                  "credit" None None)
      /\ exists row,
           table (snd (TransactionApi.post_transactions "/transactions"
                         Fixture.credit Fixture.E0 Fixture.t0))
           = (table Fixture.t0 ++ [row])%list
           /\ TransactionApi.TransactionDB.currency row = "USD").
Proof.
  split.
  - split; [reflexivity |]. split; [discriminate |].
    apply (proj1 currency_three_characters_upper_cased "/transactions"
             Fixture.long_currency "euro" Fixture.E0 Fixture.t0 eq_refl).
    discriminate.
  - split; [reflexivity |]. split; [reflexivity |].
    apply (proj2 currency_three_characters_upper_cased "/transactions"
             Fixture.credit "usd" _ Fixture.E0 Fixture.t0 eq_refl eq_refl).
    reflexivity.
Defined.

(** ** Health *)

(** The health check returns for every outcome of the two probes, and its
    report is a function of them. *)
Lemma health_check_returns {Row} E (w : World Row) :
  exists h w',
    health_check E w = (Return h, w')
    /\ h_status h = overall_status (faults E DbExecute) (faults E RedisPing)
    /\ h_database h = probe_status (faults E DbExecute)
    /\ h_redis h = probe_status (faults E RedisPing)
    /\ h_version h = "1.0.0"
    /\ table w' = table w /\ seq w' = seq w /\ cache w' = cache w
    /\ ERRORS w' = ERRORS w.
Proof.
  unfold_monad. simpl.
  repeat case_next;
    do 2 eexists; (split; [reflexivity |]); simpl; repeat split.
Qed.

(** C9.  For every outcome of the store probe and of the cache probe the
    health endpoint of either service answers 200 with a report: the
    overall status is "healthy" when both probes passed and "degraded" in
    every other case, and each dependency is reported as "healthy" or as
    "unhealthy: " followed by the text of the exception its probe raised.
    The handler returns in every case; a failed probe is data. *)
Theorem health_reports_probes_as_data :
  (forall (Row : Type) E (w : World Row),
      exists h w',
        health_check E w = (Return h, w')
        /\ h_status h = overall_status (faults E DbExecute) (faults E RedisPing)
        /\ h_database h = probe_status (faults E DbExecute)
        /\ h_redis h = probe_status (faults E RedisPing))
  /\ (forall url E (w : TransactionApi.World),
        exists h,
          fst (TransactionApi.get_health url E w) = mkResponse HTTP_200_OK (Json h)
          /\ h_status h = overall_status (faults E DbExecute) (faults E RedisPing)
          /\ h_database h = probe_status (faults E DbExecute)
          /\ h_redis h = probe_status (faults E RedisPing))
  /\ (forall url E (w : NotificationService.World),
        exists h,
          fst (NotificationService.get_health url E w)
          = mkResponse HTTP_200_OK (Json h)
          /\ h_status h = overall_status (faults E DbExecute) (faults E RedisPing)
          /\ h_database h = probe_status (faults E DbExecute)
          /\ h_redis h = probe_status (faults E RedisPing)).
Proof.
  split; [| split].
  - intros Row E w.
    destruct (health_check_returns E w) as (h & w' & Hh & Hs & Hd & Hr & _).
    exists h, w'. now repeat split.
  - intros url E w. unfold TransactionApi.get_health.
    destruct (serve_route "GET" url HTTP_200_OK health_check E w) as (-> & _).
    destruct (health_check_returns E (tick w)) as (h & w' & -> & Hs & Hd & Hr & _).
    exists h. now repeat split.
  - intros url E w. unfold NotificationService.get_health.
    destruct (serve_route "GET" url HTTP_200_OK health_check E w) as (-> & _).
    destruct (health_check_returns E (tick w)) as (h & w' & -> & Hs & Hd & Hr & _).
    exists h. now repeat split.
Qed.

(** "healthy" is reported exactly when both probes passed. *)
Lemma overall_status_healthy_iff (db rd : option string) :
  overall_status db rd = "healthy" <-> db = None /\ rd = None.
Proof.
  destruct db, rd; simpl; split; try discriminate; try tauto.
  all: intros [H1 H2]; discriminate.
Qed.

(** ** What the notifier makes of the answer *)

(** Any status code other than 200 is logged as a failed send. *)
Lemma send_notification_not_200 d E (w : TransactionApi.World) c user amount currency :
  dict_get "user_id" d = Some user ->
  dict_get "amount" d = Some amount ->
  dict_get "currency" d = Some currency ->
  post_outcome E = Responded c ->
  c <> 200 ->
  let r := TransactionApi.send_notification d E w in
  fst r = Return tt
  /\ logger (snd r)
     = (mkLog WARNING "Falha ao enviar notificação" [("status_code", VInt c)]
        :: logger w)%list.
Proof.
  intros Hu Ha Hc Ho Hne.
  unfold TransactionApi.send_notification, TransactionApi.client_post,
    getitem.
  unfold_monad. rewrite Hu, Ha, Hc, Ho. simpl.
  destruct (c =? 200) eqn:Hcode; [apply Z.eqb_eq in Hcode; contradiction |].
  split; reflexivity.
Qed.

(** The creation endpoint of the notification service answers a creation
    that returned with 201. *)
Lemma post_notify_created url req E (w : NotificationService.World) a :
  body (fst (NotificationService.post_notify url req E w)) = Json a ->
  fst (NotificationService.post_notify url req E w)
  = mkResponse HTTP_201_CREATED (Json a).
Proof.
  destruct (NotificationService.validate req) as [errs | n] eqn:Hv.
  - destruct (post_notify_rejected url req E w errs Hv) as (-> & _).
    discriminate.
  - destruct (post_notify_accepted url req n E w Hv) as (-> & _).
    destruct (fst (NotificationService.create_notification n E
                     (with_client (tick w))))
      as [a' | [c d | m]]; simpl; try discriminate.
    now intros [= ->].
Qed.

(** C10.  When the POST of the notifier is answered with a status code
    other than 200, [send_notification] logs the warning "Falha ao enviar
    notificação" with that code.  The creation endpoint of the
    notification service answers a creation that went through with 201, so
    a notification that was created is logged by the transaction service
    as a failed send. *)
Theorem created_notification_logged_as_failure :
  forall d Et (wt : TransactionApi.World) user amount currency,
    dict_get "user_id" d = Some user ->
    dict_get "amount" d = Some amount ->
    dict_get "currency" d = Some currency ->
    (forall c,
        post_outcome Et = Responded c -> c <> 200 ->
        logger (snd (TransactionApi.send_notification d Et wt))
        = (mkLog WARNING "Falha ao enviar notificação" [("status_code", VInt c)]
           :: logger wt)%list)
    /\ (forall url req En (wn : NotificationService.World) a,
          let answered := fst (NotificationService.post_notify url req En wn) in
          body answered = Json a ->
          status_code answered = 201
          /\ (post_outcome Et = Responded (status_code answered) ->
              logger (snd (TransactionApi.send_notification d Et wt))
              = (mkLog WARNING "Falha ao enviar notificação"
                   [("status_code", VInt 201)]
                 :: logger wt)%list)).
Proof.
  intros d Et wt user amount currency Hu Ha Hc. split.
  - intros c Ho Hne.
    apply (send_notification_not_200 d Et wt c user amount currency Hu Ha Hc Ho Hne).
  - intros url req En wn a answered Hbody. subst answered.
    rewrite (post_notify_created url req En wn a Hbody). simpl.
    split; [reflexivity |].
    intros Ho.
    apply (send_notification_not_200 d Et wt 201 user amount currency Hu Ha Hc Ho).
    discriminate.
Qed.

Lemma created_notification_logged_as_failure_witness :
  body (fst (NotificationService.post_notify "/notify" Fixture.alert
               Fixture.E0 Fixture.n0))
  = Json (NotificationService.NotificationResponse.mk 1 "NOT1700000000002123e4567"
            "u1" "system_alert" "Aviso" "Manutenção" "unread" "normal" None
            1690000000000 1690000000000 None)
  /\ post_outcome Fixture.E0
     = Responded (status_code (fst (NotificationService.post_notify "/notify"
                                      Fixture.alert Fixture.E0 Fixture.n0)))
  /\ logger (snd (TransactionApi.send_notification Fixture.credit_data
                    Fixture.E0 Fixture.t0))
     = [mkLog WARNING "Falha ao enviar notificação" [("status_code", VInt 201)]].
Proof.
  split; [reflexivity |]. split; [reflexivity |].
  apply (proj2 (created_notification_logged_as_failure Fixture.credit_data
                  Fixture.E0 Fixture.t0 (VStr "u1") (VFloat Fixture.hundred)
                  (VStr "USD") eq_refl eq_refl eq_refl)
           "/notify" Fixture.alert Fixture.E0 Fixture.n0 _ eq_refl).
  reflexivity.
Defined.

(** ** Mark as read *)

Lemma selected_spec nid (r : NotificationService.NotificationDB.t) :
  NotificationService.selected nid r = true
  <-> NotificationService.NotificationDB.notification_id r = nid
      /\ NotificationService.NotificationDB.is_active r = Some true.
Proof.
  unfold NotificationService.selected. rewrite andb_true_iff, String.eqb_eq.
  destruct (NotificationService.NotificationDB.is_active r) as [[|] |];
    intuition congruence.
Qed.

(** [fetchone()] on the rows an UPDATE returns is the image of the first
    row the WHERE clause selects. *)
Lemma head_returned {A B} (f : A -> bool) (g : A -> B) (l : list A) :
  head (map g (filter f l)) = option_map g (find f l).
Proof.
  induction l as [| x l IH]; simpl; [reflexivity |].
  unfold filter in *. simpl.
  destruct (decide (f x)) as [Hx | Hx]; simpl.
  - destruct (f x); [reflexivity | contradiction].
  - destruct (f x); [exfalso; apply Hx; exact I | exact IH].
Qed.

(** With unique business identifiers the identifier selects the record
    that carries it. *)
Lemma find_selected nid (rows : list NotificationService.NotificationDB.t) r0 :
  (forall r1 r2, In r1 rows -> In r2 rows ->
     NotificationService.NotificationDB.notification_id r1
     = NotificationService.NotificationDB.notification_id r2 -> r1 = r2) ->
  In r0 rows ->
  NotificationService.NotificationDB.notification_id r0 = nid ->
  NotificationService.NotificationDB.is_active r0 = Some true ->
  find (NotificationService.selected nid) rows = Some r0.
Proof.
  intros Huniq Hin Hid Hact.
  destruct (find (NotificationService.selected nid) rows) as [r1 |] eqn:Hfind.
  - apply find_some in Hfind. destruct Hfind as (Hin1 & Hsel).
    apply selected_spec in Hsel. destruct Hsel as (Hid1 & _).
    f_equal. apply Huniq; congruence.
  - exfalso. apply (find_none _ _ Hfind) in Hin.
    assert (NotificationService.selected nid r0 = true) as Hsel
      by (apply selected_spec; now split).
    congruence.
Qed.

(** No active record carries the identifier: the UPDATE returns nothing. *)
Lemma find_not_selected nid (rows : list NotificationService.NotificationDB.t) :
  (forall r, In r rows ->
     NotificationService.NotificationDB.notification_id r = nid ->
     NotificationService.NotificationDB.is_active r <> Some true) ->
  find (NotificationService.selected nid) rows = None.
Proof.
  intros Hnone.
  destruct (find (NotificationService.selected nid) rows) as [r1 |] eqn:Hfind;
    [| reflexivity].
  apply find_some in Hfind. destruct Hfind as (Hin & Hsel).
  apply selected_spec in Hsel. destruct Hsel as (Hid & Hact).
  exfalso. exact (Hnone r1 Hin Hid Hact).
Qed.

(** The identifier selects nothing: the handler raises the 404 after the
    UPDATE (or the 500 when the UPDATE itself raised), and in either case
    it has touched neither table nor cache, nor asked for the client. *)
Lemma mark_notification_as_read_not_found nid E (w : NotificationService.World) :
  find (NotificationService.selected nid) (table w) = None ->
  let h := NotificationService.mark_notification_as_read nid E w in
  fst h = match faults E DbExecute with
          | None => Raise (HTTPException HTTP_404_NOT_FOUND
                             "Notificação não encontrada")
          | Some _ => Raise (HTTPException HTTP_500_INTERNAL_SERVER_ERROR
                               "Erro interno ao marcar notificação como lida")
          end
  /\ table (snd h) = table w /\ cache (snd h) = cache w
  /\ redis_client (snd h) = redis_client w.
Proof.
  intros Hfind. unfold_notification_service. simpl.
  destruct (faults E DbExecute); simpl; [repeat split |].
  rewrite head_returned, Hfind. simpl. repeat split.
Qed.

(** The identifier selects [r0] and nothing raises: the UPDATE is
    committed and both cache keys are deleted; for a row that has its key
    and its creation time the handler returns the updated record. *)
Lemma mark_notification_as_read_found nid E (w : NotificationService.World) r0 :
  no_faults E ->
  find (NotificationService.selected nid) (table w) = Some r0 ->
  let h := NotificationService.mark_notification_as_read nid E w in
  let read_at := clock E (ticks w) in
  let updated_at := clock E (S (ticks w)) in
  table (snd h) = NotificationService.updated nid read_at updated_at (table w)
  /\ cache (snd h)
     = delete ("user_notifications:" ++ NotificationService.NotificationDB.user_id r0)
         (delete ("notification:" ++ nid) (cache w))
  /\ forall i c,
       NotificationService.NotificationDB.id r0 = Some i ->
       NotificationService.NotificationDB.created_at r0 = Some c ->
       fst h = Return
                 (NotificationService.NotificationResponse.mk i
                    (NotificationService.NotificationDB.notification_id r0)
                    (NotificationService.NotificationDB.user_id r0)
                    (NotificationService.NotificationDB.type r0)
                    (NotificationService.NotificationDB.title r0)
                    (NotificationService.NotificationDB.message r0)
                    "read"
                    (NotificationService.NotificationDB.priority r0)
                    (NotificationService.NotificationDB.metadata r0)
                    c updated_at (Some read_at)).
Proof.
  intros Hok Hfind. unfold_notification_service. simpl.
  rewrite (Hok DbExecute). simpl.
  rewrite head_returned, Hfind. simpl.
  rewrite (Hok DbCommit). simpl.
  destruct (redis_client w); simpl; rewrite ?Hok; simpl.
  all: split; [repeat case_next; reflexivity |].
  all: split; [repeat case_next; reflexivity |].
  all: intros i c -> ->; reflexivity.
Qed.

Lemma updated_selected nid read_at updated_at rows (r : NotificationService.NotificationDB.t) :
  In r rows ->
  NotificationService.selected nid r = true ->
  In (NotificationService.set_read read_at updated_at r)
     (NotificationService.updated nid read_at updated_at rows).
Proof.
  intros Hin Hsel. unfold NotificationService.updated.
  apply in_map_iff. exists r. rewrite Hsel. now split.
Qed.

Lemma updated_not_selected nid read_at updated_at rows (r : NotificationService.NotificationDB.t) :
  In r rows ->
  NotificationService.selected nid r = false ->
  In r (NotificationService.updated nid read_at updated_at rows).
Proof.
  intros Hin Hsel. unfold NotificationService.updated.
  apply in_map_iff. exists r. rewrite Hsel. now split.
Qed.

(** C6.  For a stored notification whose soft-delete flag is unset,
    whatever its status, mark-as-read (with store and cache answering)
    returns 200 with the record in status "read", a read timestamp that is
    not null and a new update timestamp; the row in the table is updated
    in the same way, rows whose flag is not set stay as they were, and the
    cache entry of the record and the one of the list of its user are
    deleted. *)
Theorem mark_as_read_updates_and_invalidates :
  forall url nid E (w : NotificationService.World) r0 i c,
    no_faults E ->
    (forall r1 r2, In r1 (table w) -> In r2 (table w) ->
       NotificationService.NotificationDB.notification_id r1
       = NotificationService.NotificationDB.notification_id r2 -> r1 = r2) ->
    In r0 (table w) ->
    NotificationService.NotificationDB.notification_id r0 = nid ->
    NotificationService.NotificationDB.is_active r0 = Some true ->
    NotificationService.NotificationDB.id r0 = Some i ->
    NotificationService.NotificationDB.created_at r0 = Some c ->
    let r := NotificationService.put_notification_read url nid E w in
    exists a read_at updated_at,
      fst r = mkResponse HTTP_200_OK (Json a)
      /\ NotificationService.NotificationResponse.notification_id a = nid
      /\ NotificationService.NotificationResponse.status a = "read"
      /\ NotificationService.NotificationResponse.read_at a = Some read_at
      /\ NotificationService.NotificationResponse.updated_at a = updated_at
      /\ In (NotificationService.set_read read_at updated_at r0) (table (snd r))
      /\ NotificationService.NotificationDB.status
           (NotificationService.set_read read_at updated_at r0) = "read"
      /\ NotificationService.NotificationDB.read_at
           (NotificationService.set_read read_at updated_at r0) = Some read_at
      /\ NotificationService.NotificationDB.updated_at
           (NotificationService.set_read read_at updated_at r0) = Some updated_at
      /\ (forall x, In x (table w) ->
            NotificationService.NotificationDB.is_active x <> Some true ->
            In x (table (snd r)))
      /\ cache (snd r) !! ("notification:" ++ nid) = None
      /\ cache (snd r)
         !! ("user_notifications:" ++ NotificationService.NotificationDB.user_id r0)
         = None.
Proof.
  intros url nid E w r0 i c Hok Huniq Hin Hid Hact Hpk Hcreated. cbv zeta.
  pose proof (find_selected nid (table w) r0 Huniq Hin Hid Hact) as Hfind.
  unfold NotificationService.put_notification_read.
  destruct (serve_route "PUT" url HTTP_200_OK
              (NotificationService.mark_notification_as_read nid) E w)
    as (-> & -> & _ & -> & _).
  destruct (mark_notification_as_read_found nid E (tick w) r0 Hok Hfind)
    as (-> & -> & Hresp).
  rewrite (Hresp i c Hpk Hcreated). simpl.
  do 3 eexists. split; [reflexivity |]. simpl.
  repeat split.
  - exact Hid.
  - apply updated_selected; [exact Hin |]. apply selected_spec. now split.
  - intros x Hx Hinactive. apply updated_not_selected; [exact Hx |].
    destruct (NotificationService.selected nid x) eqn:Hsel; [| reflexivity].
    apply selected_spec in Hsel. tauto.
  - rewrite lookup_delete. case_decide; [reflexivity | apply lookup_delete_eq].
  - apply lookup_delete_eq.
Qed.

Lemma mark_as_read_updates_and_invalidates_witness :
  no_faults Fixture.E0
  /\ In Fixture.unread (table Fixture.n1)
  /\ exists a read_at updated_at,
       fst (NotificationService.put_notification_read
              "/notifications/NOT1700000000000123e4567/read"
              "NOT1700000000000123e4567" Fixture.E0 Fixture.n1)
       = mkResponse HTTP_200_OK (Json a)
       /\ NotificationService.NotificationResponse.status a = "read"
       /\ NotificationService.NotificationResponse.read_at a = Some read_at
       /\ NotificationService.NotificationResponse.updated_at a = updated_at
       /\ cache (snd (NotificationService.put_notification_read
                        "/notifications/NOT1700000000000123e4567/read"
                        "NOT1700000000000123e4567" Fixture.E0 Fixture.n1))
          !! "notification:NOT1700000000000123e4567" = None
       /\ cache (snd (NotificationService.put_notification_read
                        "/notifications/NOT1700000000000123e4567/read"
                        "NOT1700000000000123e4567" Fixture.E0 Fixture.n1))
          !! "user_notifications:u1" = None.
Proof.
  split; [intros c; reflexivity |]. split; [left; reflexivity |].
  destruct (mark_as_read_updates_and_invalidates
              "/notifications/NOT1700000000000123e4567/read"
              "NOT1700000000000123e4567" Fixture.E0 Fixture.n1 Fixture.unread
              1 1690000000000)
    as (a & read_at & updated_at & H1 & _ & H3 & H4 & H5 & _ & _ & _ & _ & _ & H11 & H12).
  - intros c. reflexivity.
  - intros r1 r2 [<- | []] [<- | []] _. reflexivity.
  - left. reflexivity.
  - reflexivity.
  - reflexivity.
  - reflexivity.
  - reflexivity.
  - exists a, read_at, updated_at. repeat split; assumption.
Defined.

(** C7.  When no record with the soft-delete flag unset carries the
    identifier, mark-as-read deletes no cache key and changes no row; when
    the UPDATE itself went through, the handler raises the
    [HTTPException] with 404 and the endpoint answers 404. *)
Theorem unknown_identifier_not_found_no_invalidation :
  forall url nid E (w : NotificationService.World),
    (forall r, In r (table w) ->
       NotificationService.NotificationDB.notification_id r = nid ->
       NotificationService.NotificationDB.is_active r <> Some true) ->
    let r := NotificationService.put_notification_read url nid E w in
    cache (snd r) = cache w
    /\ table (snd r) = table w
    /\ (faults E DbExecute = None ->
        fst (NotificationService.mark_notification_as_read nid E (tick w))
        = Raise (HTTPException HTTP_404_NOT_FOUND "Notificação não encontrada")
        /\ fst r = mkResponse 404 (Detail "Notificação não encontrada")).
Proof.
  intros url nid E w Hnone. cbv zeta.
  pose proof (find_not_selected nid (table w) Hnone) as Hfind.
  unfold NotificationService.put_notification_read.
  destruct (serve_route "PUT" url HTTP_200_OK
              (NotificationService.mark_notification_as_read nid) E w)
    as (-> & -> & _ & -> & _).
  destruct (mark_notification_as_read_not_found nid E (tick w) Hfind)
    as (-> & -> & -> & _).
  split; [reflexivity |]. split; [reflexivity |].
  intros ->. split; reflexivity.
Qed.

Lemma unknown_identifier_not_found_no_invalidation_witness :
  (forall r, In r (table Fixture.n1) ->
     NotificationService.NotificationDB.notification_id r = "NOT0" ->
     NotificationService.NotificationDB.is_active r <> Some true)
  /\ faults Fixture.E0 DbExecute = None
  /\ cache (snd (NotificationService.put_notification_read
                   "/notifications/NOT0/read" "NOT0" Fixture.E0 Fixture.n1))
     = cache Fixture.n1
  /\ fst (NotificationService.put_notification_read
            "/notifications/NOT0/read" "NOT0" Fixture.E0 Fixture.n1)
     = mkResponse 404 (Detail "Notificação não encontrada").
Proof.
  assert (forall r, In r (table Fixture.n1) ->
            NotificationService.NotificationDB.notification_id r = "NOT0" ->
            NotificationService.NotificationDB.is_active r <> Some true) as Hnone.
  { intros r [<- | []] Hid. discriminate Hid. }
  split; [exact Hnone |]. split; [reflexivity |].
  destruct (unknown_identifier_not_found_no_invalidation
              "/notifications/NOT0/read" "NOT0" Fixture.E0 Fixture.n1 Hnone)
    as (Hcache & _ & H404).
  split; [exact Hcache |]. apply H404. reflexivity.
Defined.

(** ** Reading back *)

(** [get_transaction] on an identifier that selects [row], when neither the
    cache nor the store raises: a row without metadata text is returned as
    a record without metadata, and [eval] is not called. *)
Lemma get_transaction_found tid E (w : TransactionApi.World) row i c u :
  faults E RedisGet = None -> faults E DbExecute = None ->
  find (TransactionApi.selected tid) (table w) = Some row ->
  TransactionApi.TransactionDB.id row = Some i ->
  TransactionApi.TransactionDB.created_at row = Some c ->
  TransactionApi.TransactionDB.updated_at row = Some u ->
  TransactionApi.TransactionDB.metadata row = None ->
  fst (TransactionApi.get_transaction tid E w)
  = Return (TransactionApi.TransactionResponse.mk i
              (TransactionApi.TransactionDB.transaction_id row)
              (TransactionApi.TransactionDB.user_id row)
              (TransactionApi.TransactionDB.amount row)
              (TransactionApi.TransactionDB.currency row)
              (TransactionApi.TransactionDB.transaction_type row)
              (TransactionApi.TransactionDB.status row)
              (TransactionApi.TransactionDB.description row)
              None c u).
Proof.
  intros Hget Hexec Hfind Hid Hc Hu Hmeta.
  unfold_transaction_api. simpl. rewrite Hget. simpl.
  destruct (truthy_str _); simpl; rewrite Hexec; simpl; rewrite Hfind; simpl;
    rewrite Hmeta, Hid, Hc, Hu; reflexivity.
Qed.

(** A creation that returned, read back by the identifier it returned: when
    that identifier is new to the table and nothing raises, the read
    returns the record the creation returned. *)
Lemma read_back_after_create url url' req E (w : TransactionApi.World) a :
  no_faults E ->
  transactions_pk_fresh w ->
  (forall r, In r (table w) ->
     TransactionApi.TransactionDB.transaction_id r
     <> TransactionApi.TransactionResponse.transaction_id a) ->
  let created := TransactionApi.post_transactions url req E w in
  body (fst created) = Json a ->
  fst (TransactionApi.get_transactions url'
         (TransactionApi.TransactionResponse.transaction_id a) E (snd created))
  = mkResponse HTTP_200_OK (Json a).
Proof.
  intros Hok Hfresh Hnew created Ha. subst created.
  destruct (created_response_inv url req E w a Ha) as (t & Hv & Hh & _).
  destruct (post_transactions_accepted url req t E w Hv) as (_ & Htable & _).
  destruct (create_transaction_returns t E (with_client (tick (drop_background_tasks w))) a
              Hfresh Hh)
    as (tid & row & Hrow & Hwritten & Hshows & Hmeta & _).
  unfold TransactionApi.get_transactions.
  destruct (serve_depends_route "GET" url' HTTP_200_OK
              (TransactionApi.get_transaction
                 (TransactionApi.TransactionResponse.transaction_id a)) E
              (snd (TransactionApi.post_transactions url req E w)))
    as (-> & _).
  destruct Hwritten as (Hpk & Htid & Huser & Hamount & Hcur & Hty & Hstatus
                        & Hdesc & Hmd & Hcreated & Hupdated & Hactive).
  destruct Hshows as (Hpk' & Htid' & Huser' & Hamount' & Hcur' & Hty' & Hstatus'
                      & Hshows).
  assert (TransactionApi.TransactionDB.metadata row = None) as Hnone.
  { rewrite Hmd. destruct (TransactionApi.TransactionCreate.metadata t)
      as [[| kv d] |] eqn:Hreq; try reflexivity.
    (* a request with metadata text stored does not return *)
    exfalso. revert Hh. unfold_transaction_api. simpl.
    rewrite !Hok. simpl. rewrite Hreq. simpl.
    match goal with
    | |- context [find (TransactionApi.has_pk ?pk) (?l ++ [?x])] =>
        destruct (find_last (TransactionApi.has_pk pk) l x
                    (transaction_inserted_has_pk _ _ _)) as (y & -> & Hy)
    end.
    rewrite (Hy Hfresh). simpl. rewrite ?Hok. simpl. discriminate. }
  destruct Hshows as (Hdesc' & Hcreated' & Hupdated').
  rewrite (get_transaction_found _ E _ row
             (TransactionApi.TransactionResponse.id a)
             (TransactionApi.TransactionResponse.created_at a)
             (TransactionApi.TransactionResponse.updated_at a)
             (Hok RedisGet) (Hok DbExecute)); try assumption.
  - simpl. destruct a; simpl in *. subst. reflexivity.
  - simpl. rewrite Htable, Hrow.
    change (table (with_client (tick (drop_background_tasks w)))) with (table w).
    assert (TransactionApi.selected
              (TransactionApi.TransactionResponse.transaction_id a) row = true)
      as Hsel.
    { unfold TransactionApi.selected. rewrite Hactive, <- Htid'.
      now rewrite String.eqb_refl. }
    destruct (find_last (TransactionApi.selected
                           (TransactionApi.TransactionResponse.transaction_id a))
                (table w) row Hsel) as (y & -> & Hy).
    f_equal. apply Hy. apply Stdlib.Lists.List.Forall_forall. intros r Hr.
    unfold TransactionApi.selected.
    destruct (String.eqb_spec (TransactionApi.TransactionDB.transaction_id r)
                (TransactionApi.TransactionResponse.transaction_id a))
      as [Heq | Hne]; [| reflexivity].
    exfalso. exact (Hnew r Hr Heq).
Qed.

(** When nothing raises, a request without metadata, or with the empty
    dictionary, is created. *)
Lemma create_transaction_succeeds t E (w : TransactionApi.World) :
  no_faults E ->
  transactions_pk_fresh w ->
  truthy_dict (TransactionApi.TransactionCreate.metadata t) = false ->
  exists a, fst (TransactionApi.create_transaction t E w) = Return a.
Proof.
  intros Hok Hfresh Hmeta. unfold_transaction_api. simpl.
  rewrite !Hok. simpl.
  match goal with
  | |- context [find (TransactionApi.has_pk ?pk) (?l ++ [?x])] =>
      destruct (find_last (TransactionApi.has_pk pk) l x
                  (transaction_inserted_has_pk _ _ _)) as (y & -> & Hy)
  end.
  rewrite (Hy Hfresh). simpl. rewrite ?Hok. simpl.
  destruct (TransactionApi.TransactionCreate.metadata t) as [[| kv d] |];
    simpl in *; try discriminate; eexists; reflexivity.
Qed.

(** C5.  A valid request whose metadata is the empty dictionary, created
    in an empty store and read back by its business identifier, in any
    environment in which no call raises: both requests succeed, and the
    record read back is the one the creation returned, with the
    identifier, the user, the amount, the type, the validated currency
    and the status "pending"; but its metadata is absent where the
    request had the empty dictionary. *)
Theorem empty_metadata_read_back_absent :
  forall url url' req t E,
    no_faults E ->
    TransactionApi.validate E req = inr t ->
    TransactionApi.Payload.metadata req = Some [] ->
    let created := TransactionApi.post_transactions url req E Fixture.t0 in
    exists a,
      fst created = mkResponse HTTP_201_CREATED (Json a)
      /\ fst (TransactionApi.get_transactions url'
                (TransactionApi.TransactionResponse.transaction_id a) E (snd created))
         = mkResponse HTTP_200_OK (Json a)
      /\ TransactionApi.TransactionResponse.user_id a
         = TransactionApi.Payload.user_id req
      /\ TransactionApi.TransactionResponse.amount a
         = TransactionApi.Payload.amount req
      /\ TransactionApi.TransactionResponse.currency a
         = TransactionApi.TransactionCreate.currency t
      /\ TransactionApi.TransactionResponse.transaction_type a
         = TransactionApi.Payload.transaction_type req
      /\ TransactionApi.TransactionResponse.description a
         = TransactionApi.Payload.description req
      /\ TransactionApi.TransactionResponse.status a = "pending"
      /\ TransactionApi.TransactionResponse.metadata a = None
      /\ TransactionApi.TransactionResponse.metadata a
         <> TransactionApi.Payload.metadata req.
Proof.
  intros url url' req t E Hok Hv Hempty. cbv zeta.
  assert (transactions_pk_fresh Fixture.t0) as Hfresh by constructor.
  destruct (validate_accepts_inv E req t Hv)
    as (Hamount & _ & Hty & Huser & Hdesc & Hmeta).
  destruct (create_transaction_succeeds t E
              (with_client (tick (drop_background_tasks Fixture.t0))) Hok Hfresh)
    as (a & Ha).
  { rewrite Hmeta, Hempty. reflexivity. }
  assert (fst (TransactionApi.post_transactions url req E Fixture.t0)
          = mkResponse HTTP_201_CREATED (Json a)) as Hcreated.
  { rewrite post_transactions_response, Hv, Ha. reflexivity. }
  destruct (create_transaction_returns t E
              (with_client (tick (drop_background_tasks Fixture.t0))) a Hfresh Ha)
    as (tid & row & _ & Hwritten & Hshows & Hnone & _).
  destruct Hwritten as (_ & _ & Hu & Ham & Hcur & Htype & Hstatus & Hd & _).
  destruct Hshows as (_ & _ & Hu' & Ham' & Hcur' & Htype' & Hstatus' & Hd' & _).
  exists a. split; [exact Hcreated |]. split.
  { apply (read_back_after_create url url' req E Fixture.t0 a Hok Hfresh).
    - intros r [].
    - rewrite Hcreated. reflexivity. }
  unfold TransactionApi.check_amount in Hamount.
  destruct (SFltb _ _); [| discriminate]. injection Hamount as Hamount.
  unfold TransactionApi.validate_transaction_type in Hty.
  destruct (negb _); [discriminate |]. injection Hty as Hty.
  repeat split; try congruence.
Qed.

Lemma empty_metadata_read_back_absent_witness :
  no_faults Fixture.E0
  /\ TransactionApi.Payload.metadata Fixture.credit_empty_metadata = Some []
  /\ exists a,
       fst (TransactionApi.get_transactions "/transactions/TXN1700000000002123e4567"
              (TransactionApi.TransactionResponse.transaction_id a) Fixture.E0
              (snd (TransactionApi.post_transactions "/transactions"
                      Fixture.credit_empty_metadata Fixture.E0 Fixture.t0)))
       = mkResponse HTTP_200_OK (Json a)
       /\ TransactionApi.TransactionResponse.metadata a = None.
Proof.
  split; [intros c; reflexivity |]. split; [reflexivity |].
  destruct (empty_metadata_read_back_absent "/transactions"
              "/transactions/TXN1700000000002123e4567"
              Fixture.credit_empty_metadata _ Fixture.E0
              ltac:(intros c; reflexivity) eq_refl eq_refl)
    as (a & _ & Hb & _ & _ & _ & _ & _ & _ & Hmeta & _).
  exists a. split; assumption.
Defined.

(* ===================================================================== *)
(** * Further properties of the two services *)
(* ===================================================================== *)

(** ** What validation accepts *)





(** ** Identifiers *)

Lemma length_prefix n s : String.length (prefix n s) = Nat.min n (String.length s).
Proof.
  unfold prefix. revert s. induction n as [| n IH]; intros s.
  - destruct s; reflexivity.
  - destruct s as [| c s]; simpl; [reflexivity |]. now rewrite IH.
Qed.

Lemma length_append (a b : string) :
  String.length (a ++ b) = (String.length a + String.length b)%nat.
Proof. induction a as [| c a IH]; simpl; [reflexivity | now rewrite IH]. Qed.

(** Two strings that end in pieces of the same length are equal only when
    the pieces and what precedes them are. *)
Lemma append_inj_length (a a' u u' : string) :
  String.length u = String.length u' ->
  a ++ u = a' ++ u' -> a = a' /\ u = u'.
Proof.
  intros Hlen. revert a'. induction a as [| c a IH]; intros a' Heq.
  - destruct a' as [| c' a']; [now split |].
    exfalso. apply (f_equal String.length) in Heq.
    simpl in Heq. rewrite ?length_append in Heq. simpl in Heq. lia.
  - destruct a' as [| c' a'].
    + exfalso. apply (f_equal String.length) in Heq.
      simpl in Heq. rewrite ?length_append in Heq. simpl in Heq. lia.
    + simpl in Heq. injection Heq as -> Heq.
      destruct (IH a' Heq) as (-> & ->). now split.
Qed.

Lemma to_int_not_nil n :
  Z.to_int n <> Decimal.Pos Decimal.Nil /\ Z.to_int n <> Decimal.Neg Decimal.Nil.
Proof.
  destruct n as [| p | p]; simpl; split; try discriminate.
  - intros [= H]. exact (DecimalPos.Unsigned.to_uint_nonnil p H).
  - intros [= H]. exact (DecimalPos.Unsigned.to_uint_nonnil p H).
Qed.

(** [str] of an [int] can be read back. *)
Lemma str_int_inj n m : str_int n = str_int m -> n = m.
Proof.
  unfold str_int. intros H.
  apply DecimalZ.to_int_inj.
  destruct (to_int_not_nil n) as (Hn1 & Hn2), (to_int_not_nil m) as (Hm1 & Hm2).
  pose proof (NilZero.isi (Z.to_int n) Hn1 Hn2) as In.
  pose proof (NilZero.isi (Z.to_int m) Hm1 Hm2) as Im.
  rewrite H in In. congruence.
Qed.

(** X3.  The identifier a creation generates is "TXN" (or "NOT"), the
    clock reading in milliseconds and the first 8 characters of the uuid.
    For uuids of at least 8 characters, two generated identifiers are
    equal exactly when the two clock readings are equal and the two uuids
    agree on their first 8 characters: nothing else tells two creations
    apart. *)
Theorem generated_identifiers_equal_iff :
  forall E (w : TransactionApi.World) E' (w' : TransactionApi.World)
         (n : NotificationService.World) (n' : NotificationService.World),
    (8 <= String.length (uuid4 E (draws w)))%nat ->
    (8 <= String.length (uuid4 E' (draws w')))%nat ->
    (8 <= String.length (uuid4 E (draws n)))%nat ->
    (8 <= String.length (uuid4 E' (draws n')))%nat ->
    (fst (TransactionApi.generate_transaction_id E w)
     = fst (TransactionApi.generate_transaction_id E' w')
     <-> clock E (ticks w) = clock E' (ticks w')
         /\ prefix 8 (uuid4 E (draws w)) = prefix 8 (uuid4 E' (draws w')))
    /\ (fst (NotificationService.generate_notification_id E n)
        = fst (NotificationService.generate_notification_id E' n')
        <-> clock E (ticks n) = clock E' (ticks n')
            /\ prefix 8 (uuid4 E (draws n)) = prefix 8 (uuid4 E' (draws n'))).
Proof.
  intros E w E' w' n n' Hw Hw' Hn Hn'.
  unfold TransactionApi.generate_transaction_id,
    NotificationService.generate_notification_id.
  unfold_monad. simpl.
  split; (split; [intros [= H] | intros (-> & ->); reflexivity]).
  - apply (append_inj_length (str_int _) (str_int _) (prefix _ _) (prefix _ _))
      in H; [| rewrite !length_prefix; lia].
    destruct H as (H & Hu). split; [exact (str_int_inj _ _ H) | exact Hu].
  - apply (append_inj_length (str_int _) (str_int _) (prefix _ _) (prefix _ _))
      in H; [| rewrite !length_prefix; lia].
    destruct H as (H & Hu). split; [exact (str_int_inj _ _ H) | exact Hu].
Qed.

Lemma generated_identifiers_equal_iff_witness :
  (8 <= String.length (uuid4 Fixture.E0 (draws Fixture.t0)))%nat
  /\ (fst (TransactionApi.generate_transaction_id Fixture.E0 Fixture.t0)
      = fst (TransactionApi.generate_transaction_id Fixture.E_commit_fails Fixture.t0)
      -> clock Fixture.E0 (ticks Fixture.t0)
         = clock Fixture.E_commit_fails (ticks Fixture.t0)).
Proof.
  split; [simpl; lia |].
  intros H.
  pose proof (generated_identifiers_equal_iff Fixture.E0 Fixture.t0
                Fixture.E_commit_fails Fixture.t0 Fixture.n0 Fixture.n0) as T.
  simpl in T.
  destruct T as (T & _); try lia.
  apply T. exact H.
Defined.

(** ** Reading one transaction *)





(** X5.  When cache and store answer and no row with the soft-delete flag
    unset carries the identifier (the identifier is unknown, or its
    transaction is soft-deleted), [GET /transactions/{transaction_id}] is
    answered 404, and neither the error counter nor the counter of
    retrieved transactions moves. *)
Theorem get_transaction_not_found :
  forall url tid E (w : TransactionApi.World),
    faults E RedisGet = None -> faults E DbExecute = None ->
    (forall r, In r (table w) ->
       TransactionApi.TransactionDB.transaction_id r = tid ->
       TransactionApi.TransactionDB.is_active r <> Some true) ->
    let r := TransactionApi.get_transactions url tid E w in
    fst r = mkResponse 404 (Detail "Transação não encontrada")
    /\ ERRORS (snd r) = ERRORS w /\ RETRIEVED (snd r) = RETRIEVED w.
Proof.
  intros url tid E w Hget Hexec Hnone. cbv zeta.
  assert (find (TransactionApi.selected tid) (table w) = None) as Hfind.
  { destruct (find _ _) as [r |] eqn:Hf; [| reflexivity].
    apply find_some in Hf. destruct Hf as (Hin & Hsel).
    unfold TransactionApi.selected in Hsel.
    apply andb_true_iff in Hsel. destruct Hsel as (Hid & Hact).
    apply String.eqb_eq in Hid.
    exfalso. apply (Hnone r Hin Hid).
    destruct (TransactionApi.TransactionDB.is_active r) as [[|] |];
      congruence. }
  unfold_transaction_api. simpl. rewrite Hget. simpl.
  destruct (truthy_str _); simpl; rewrite Hexec; simpl; rewrite Hfind; simpl;
    repeat split.
Qed.

Lemma get_transaction_not_found_witness :
  faults Fixture.E0 RedisGet = None
  /\ fst (TransactionApi.get_transactions "/transactions/TXN1" "TXN1"
            Fixture.E0 Fixture.t0)
     = mkResponse 404 (Detail "Transação não encontrada").
Proof.
  split; [reflexivity |].
  apply (get_transaction_not_found "/transactions/TXN1" "TXN1" Fixture.E0
           Fixture.t0 eq_refl eq_refl).
  intros r [].
Defined.

(** X6.  The cache is asked before the store: when the cache lookup
    raises, [GET /transactions/{transaction_id}] is answered 500 and the
    error is counted, whatever the store holds; the same when the query
    of the store raises. *)
Theorem get_transaction_fails_with_cache_or_store :
  forall url tid E (w : TransactionApi.World) msg,
    faults E RedisGet = Some msg
    \/ (faults E RedisGet = None /\ faults E DbExecute = Some msg) ->
    let r := TransactionApi.get_transactions url tid E w in
    fst r = mkResponse 500 (Detail "Erro interno ao buscar transação")
    /\ ERRORS (snd r) = S (ERRORS w)
    /\ RETRIEVED (snd r) = RETRIEVED w
    /\ In (mkLog ERROR "Erro ao buscar transação"
             [("error", VStr msg); ("transaction_id", VStr tid)])
          (logger (snd r)).
Proof.
  intros url tid E w msg H. cbv zeta.
  unfold_transaction_api. simpl.
  destruct H as [Hget | (Hget & Hexec)]; rewrite Hget; simpl.
  - repeat split. right. now left.
  - destruct (truthy_str _); simpl; rewrite Hexec; simpl; repeat split;
      right; now left.
Qed.

Lemma get_transaction_fails_with_cache_or_store_witness :
  (faults Fixture.E_get_fails RedisGet = Some "timeout"
   \/ (faults Fixture.E_get_fails RedisGet = None
       /\ faults Fixture.E_get_fails DbExecute = Some "timeout"))
  /\ fst (TransactionApi.get_transactions "/transactions/TXN1700000000000123e4567"
            "TXN1700000000000123e4567" Fixture.E_get_fails Fixture.t1)
     = mkResponse 500 (Detail "Erro interno ao buscar transação").
Proof.
  split; [left; reflexivity |].
  apply (get_transaction_fails_with_cache_or_store
           "/transactions/TXN1700000000000123e4567" "TXN1700000000000123e4567"
           Fixture.E_get_fails Fixture.t1 "timeout").
  left. reflexivity.
Defined.

(** X7.  The metadata of a record that is read is what [eval] makes of
    the stored text: a dictionary is returned as the metadata, [None] as
    no metadata, and when [eval] raises or gives any other value the
    request is answered 500.  An empty text is not evaluated. *)
Theorem get_transaction_evaluates_stored_metadata :
  forall url tid E (w : TransactionApi.World) row i c u s,
    faults E RedisGet = None -> faults E DbExecute = None ->
    find (TransactionApi.selected tid) (table w) = Some row ->
    TransactionApi.TransactionDB.id row = Some i ->
    TransactionApi.TransactionDB.created_at row = Some c ->
    TransactionApi.TransactionDB.updated_at row = Some u ->
    TransactionApi.TransactionDB.metadata row = Some s ->
    let found metadata :=
      mkResponse HTTP_200_OK
        (Json (TransactionApi.TransactionResponse.mk i
                 (TransactionApi.TransactionDB.transaction_id row)
                 (TransactionApi.TransactionDB.user_id row)
                 (TransactionApi.TransactionDB.amount row)
                 (TransactionApi.TransactionDB.currency row)
                 (TransactionApi.TransactionDB.transaction_type row)
                 (TransactionApi.TransactionDB.status row)
                 (TransactionApi.TransactionDB.description row)
                 metadata c u)) in
    fst (TransactionApi.get_transactions url tid E w)
    = match s with
      | EmptyString => found None
      | _ =>
          match py_eval E s with
          | inl (VDict d) => found (Some d)
          | inl VNone => found None
          | _ => mkResponse 500 (Detail "Erro interno ao buscar transação")
          end
      end.
Proof.
  intros url tid E w row i c u s Hget Hexec Hfind Hid Hc Hu Hmeta. cbv zeta.
  unfold_transaction_api. simpl. rewrite Hget. simpl.
  destruct (truthy_str _); simpl; rewrite Hexec; simpl; rewrite Hfind; simpl;
    rewrite Hmeta; destruct s as [| ch s]; simpl; rewrite ?Hid, ?Hc, ?Hu;
    try reflexivity;
    destruct (py_eval E (String ch s)) as [[] |]; simpl;
    rewrite ?Hid, ?Hc, ?Hu; reflexivity.
Qed.

Lemma get_transaction_evaluates_stored_metadata_witness :
  find (TransactionApi.selected "TXN1700000000000123e4567") (table Fixture.t1)
  = Some Fixture.stored
  /\ fst (TransactionApi.get_transactions "/transactions/TXN1700000000000123e4567"
            "TXN1700000000000123e4567" Fixture.E_literal Fixture.t1)
     = mkResponse 200
         (Json (TransactionApi.TransactionResponse.mk 1 "TXN1700000000000123e4567"
                  "u1" Fixture.hundred "USD" "credit" "pending" None
                  (Some Fixture.order) 1690000000000 1690000000000))
  /\ status_code
       (fst (TransactionApi.get_transactions "/transactions/TXN1700000000000123e4567"
               "TXN1700000000000123e4567" Fixture.E0 Fixture.t1)) = 500.
Proof.
  split; [reflexivity |]. split.
  - exact (get_transaction_evaluates_stored_metadata
             "/transactions/TXN1700000000000123e4567" "TXN1700000000000123e4567"
             Fixture.E_literal Fixture.t1 Fixture.stored 1 1690000000000 1690000000000
             "{'order': 7}" eq_refl eq_refl eq_refl eq_refl eq_refl eq_refl eq_refl).
  - rewrite (get_transaction_evaluates_stored_metadata
               "/transactions/TXN1700000000000123e4567" "TXN1700000000000123e4567"
               Fixture.E0 Fixture.t1 Fixture.stored 1 1690000000000 1690000000000
               "{'order': 7}" eq_refl eq_refl eq_refl eq_refl eq_refl eq_refl eq_refl).
    reflexivity.
Defined.

(** A request whose metadata is a dictionary that is not empty, when
    nothing raises: the row and the cache entry are written and the
    creation is counted; then [TransactionResponse] refuses the text of
    the metadata, and the generic handler counts an error and raises the
    500. *)
Lemma create_transaction_metadata_refused t E (w : TransactionApi.World) kv d :
  no_faults E ->
  transactions_pk_fresh w ->
  TransactionApi.TransactionCreate.metadata t = Some (kv :: d) ->
  let h := TransactionApi.create_transaction t E w in
  let tid := "TXN" ++ str_int (clock E (S (ticks w))) ++ prefix 8 (uuid4 E (draws w)) in
  fst h = Raise (HTTPException HTTP_500_INTERNAL_SERVER_ERROR
                   "Erro interno ao criar transação")
  /\ (exists row,
        table (snd h) = (table w ++ [row])%list
        /\ written E (seq w) tid t row
        /\ cache (snd h)
           = <[("transaction:" ++ tid) :=
                 (py_str E (VDict (TransactionApi.__dict__ row)), 3600)]> (cache w))
  /\ CREATED (snd h) = S (CREATED w) /\ ERRORS (snd h) = S (ERRORS w)
  /\ outbox (snd h) = outbox w.
Proof.
  intros Hok Hfresh Hmeta. cbv zeta. unfold written.
  unfold_transaction_api. simpl.
  rewrite !Hok. simpl.
  match goal with
  | |- context [find (TransactionApi.has_pk ?pk) (?l ++ [?x])] =>
      destruct (find_last (TransactionApi.has_pk pk) l x
                  (transaction_inserted_has_pk _ _ _)) as (y & -> & Hy)
  end.
  rewrite (Hy Hfresh). simpl. rewrite ?Hok. simpl.
  rewrite Hmeta. simpl.
  split; [reflexivity |]. split; [| repeat split].
  eexists. split; [reflexivity |]. simpl. repeat split.
Qed.

(** The tasks of a handler that raised are not run: the outbox is as the
    handler left it. *)
Lemma post_transactions_raised_outbox url req t E (w : TransactionApi.World) e :
  TransactionApi.validate E req = inr t ->
  fst (TransactionApi.create_transaction t E (with_client (tick (drop_background_tasks w))))
  = Raise e ->
  outbox (snd (TransactionApi.post_transactions url req E w))
  = outbox (snd (TransactionApi.create_transaction t E
                   (with_client (tick (drop_background_tasks w))))).
Proof.
  intros Hv He.
  unfold TransactionApi.post_transactions, route_body. rewrite Hv.
  pose proof (serve_depends_route "POST" url HTTP_201_CREATED
                (TransactionApi.create_transaction t) E
                (drop_background_tasks w)) as Hs.
  cbv zeta in Hs. rewrite He in Hs.
  destruct (serve _ E (drop_background_tasks w)) as [resp w2]. simpl in Hs.
  destruct Hs as (_ & _ & _ & _ & _ & _ & Hout2 & _ & Htasks2).
  unfold TransactionApi.run_background_tasks, bind, get_world, modify. simpl.
  rewrite Htasks2. simpl. exact Hout2.
Qed.

(** X8.  A valid request whose metadata is a dictionary that is not empty
    is never answered with the record, although nothing raises in a
    collaborator: the transaction is committed with the text of the
    metadata and cached for 3600 seconds, the counter of created
    transactions and the counter of errors both go up by one, the answer
    is the 500 of the handler, and no notification is posted. *)
Theorem transaction_with_metadata_stored_and_answered_500 :
  forall url req t E (w : TransactionApi.World) kv d,
    no_faults E ->
    transactions_pk_fresh w ->
    TransactionApi.validate E req = inr t ->
    TransactionApi.Payload.metadata req = Some (kv :: d) ->
    let r := TransactionApi.post_transactions url req E w in
    let tid := "TXN" ++ str_int (clock E (S (S (ticks w))))
                 ++ prefix 8 (uuid4 E (draws w)) in
    fst r = mkResponse 500 (Detail "Erro interno ao criar transação")
    /\ (exists row,
          table (snd r) = (table w ++ [row])%list
          /\ written E (seq w) tid t row
          /\ TransactionApi.TransactionDB.metadata row
             = Some (py_str E (VDict (kv :: d)))
          /\ cache (snd r) !! ("transaction:" ++ tid)
             = Some (py_str E (VDict (TransactionApi.__dict__ row)), 3600))
    /\ CREATED (snd r) = S (CREATED w) /\ ERRORS (snd r) = S (ERRORS w)
    /\ outbox (snd r) = outbox w.
Proof.
  intros url req t E w kv d Hok Hfresh Hv Hreq. cbv zeta.
  assert (TransactionApi.TransactionCreate.metadata t = Some (kv :: d)) as Hmeta.
  { revert Hv. unfold TransactionApi.validate.
    repeat case_next; try discriminate. intros [= <-]. exact Hreq. }
  destruct (create_transaction_metadata_refused t E
              (with_client (tick (drop_background_tasks w))) kv d Hok Hfresh Hmeta)
    as (Hh & (row & Hrow & Hwritten & Hcache) & Hcreated & Herrors & Hout).
  destruct (post_transactions_accepted url req t E w Hv)
    as (-> & -> & _ & -> & -> & -> & _).
  rewrite (post_transactions_raised_outbox url req t E w _ Hv Hh).
  rewrite Hh, Hcreated, Herrors, Hout. simpl.
  split; [reflexivity |]. split; [| repeat split].
  exists row. split; [exact Hrow |]. split; [exact Hwritten |]. split.
  - destruct Hwritten as (_ & _ & _ & _ & _ & _ & _ & _ & -> & _).
    now rewrite Hmeta.
  - rewrite Hcache. simpl. apply lookup_insert_eq.
Qed.

Lemma transaction_with_metadata_stored_and_answered_500_witness :
  TransactionApi.validate Fixture.E0
    (TransactionApi.Payload.mk "u1" Fixture.hundred (Some "usd") "credit" None
       (Some [("order", VInt 7)]))
  = inr (TransactionApi.TransactionCreate.mk "u1" Fixture.hundred "USD" "credit" None
           (Some [("order", VInt 7)]))
  /\ ERRORS (snd (TransactionApi.post_transactions "/transactions"
                    (TransactionApi.Payload.mk "u1" Fixture.hundred (Some "usd")
                       "credit" None (Some [("order", VInt 7)]))
                    Fixture.E0 Fixture.t0)) = 1%nat.
Proof.
  split; [reflexivity |].
  apply (transaction_with_metadata_stored_and_answered_500 "/transactions"
           (TransactionApi.Payload.mk "u1" Fixture.hundred (Some "usd") "credit" None
              (Some [("order", VInt 7)]))
           (TransactionApi.TransactionCreate.mk "u1" Fixture.hundred "USD" "credit" None
              (Some [("order", VInt 7)]))
           Fixture.E0 Fixture.t0 ("order", VInt 7) []).
  - intros c. reflexivity.
  - constructor.
  - reflexivity.
  - reflexivity.
Defined.

(** X9.  Metadata that is not empty survives in the store although its
    creation is answered 500: when [eval] reads back the text [str] wrote
    for the dictionary, and the identifier is new to the table, a read of
    the generated identifier is answered 200 with the key of the row, the
    fields of the validated request, the status "pending" and the
    dictionary of the request as metadata. *)
Theorem metadata_refused_at_creation_is_read_back :
  forall url url' req t E (w : TransactionApi.World) kv d,
    no_faults E ->
    transactions_pk_fresh w ->
    TransactionApi.validate E req = inr t ->
    TransactionApi.Payload.metadata req = Some (kv :: d) ->
    py_str E (VDict (kv :: d)) <> "" ->
    py_eval E (py_str E (VDict (kv :: d))) = inl (VDict (kv :: d)) ->
    let tid := "TXN" ++ str_int (clock E (S (S (ticks w))))
                 ++ prefix 8 (uuid4 E (draws w)) in
    (forall r, In r (table w) -> TransactionApi.TransactionDB.transaction_id r <> tid) ->
    let created := TransactionApi.post_transactions url req E w in
    status_code (fst created) = 500
    /\ fst (TransactionApi.get_transactions url' tid E (snd created))
       = mkResponse 200
           (Json (TransactionApi.TransactionResponse.mk (seq w) tid
                    (TransactionApi.TransactionCreate.user_id t)
                    (TransactionApi.TransactionCreate.amount t)
                    (TransactionApi.TransactionCreate.currency t)
                    (TransactionApi.TransactionCreate.transaction_type t)
                    "pending"
                    (TransactionApi.TransactionCreate.description t)
                    (Some (kv :: d)) (import_time E) (import_time E))).
Proof.
  intros url url' req t E w kv d Hok Hfresh Hv Hreq Hne Heval tid Hnew created.
  subst created.
  assert (TransactionApi.TransactionCreate.metadata t = Some (kv :: d)) as Hmeta.
  { revert Hv. unfold TransactionApi.validate.
    repeat case_next; try discriminate. intros [= <-]. exact Hreq. }
  destruct (create_transaction_metadata_refused t E
              (with_client (tick (drop_background_tasks w))) kv d Hok Hfresh Hmeta)
    as (Hh & (row & Hrow & Hwritten & _) & _).
  destruct (post_transactions_accepted url req t E w Hv) as (Hfst & Htable & _).
  split; [rewrite Hfst, Hh; reflexivity |].
  destruct Hwritten as (Hpk & Htid & Huser & Hamount & Hcur & Hty & Hstatus
                        & Hdesc & Hmd & Hcreated & Hupdated & Hactive).
  rewrite Hmeta in Hmd.
  unfold TransactionApi.get_transactions.
  destruct (serve_depends_route "GET" url' HTTP_200_OK
              (TransactionApi.get_transaction tid) E
              (snd (TransactionApi.post_transactions url req E w)))
    as (-> & _).
  assert (find (TransactionApi.selected tid)
            (table (with_client (tick (snd (TransactionApi.post_transactions url req E w)))))
          = Some row) as Hfind.
  { simpl. rewrite Htable, Hrow.
    change (table (with_client (tick (drop_background_tasks w)))) with (table w).
    assert (TransactionApi.selected tid row = true) as Hsel.
    { unfold TransactionApi.selected. rewrite Hactive.
      change (String.eqb (TransactionApi.TransactionDB.transaction_id row) tid && true
              = true).
      rewrite andb_true_r. apply String.eqb_eq. exact Htid. }
    destruct (find_last (TransactionApi.selected tid) (table w) row Hsel)
      as (y & -> & Hy).
    f_equal. apply Hy. apply Stdlib.Lists.List.Forall_forall. intros r Hr.
    unfold TransactionApi.selected.
    destruct (String.eqb_spec (TransactionApi.TransactionDB.transaction_id r) tid)
      as [Heq | Hne']; [| reflexivity].
    exfalso. exact (Hnew r Hr Heq). }
  unfold_transaction_api. simpl. rewrite (Hok RedisGet). simpl.
  destruct (truthy_str _); simpl; rewrite (Hok DbExecute); simpl;
    simpl in Hfind; rewrite Hfind; simpl; rewrite Hmd;
    (destruct (py_str E (VDict (kv :: d))) as [| ch s] eqn:Hs; [congruence |]);
    simpl; rewrite Heval; simpl; rewrite Hpk, Hcreated, Hupdated; simpl;
    rewrite Huser, Hamount, Hcur, Hty, Hstatus, Hdesc;
    change (seq (with_client (tick (drop_background_tasks w)))) with (seq w);
    rewrite Htid; reflexivity.
Qed.

Lemma metadata_refused_at_creation_is_read_back_witness :
  py_eval Fixture.E_literal (py_str Fixture.E_literal (VDict Fixture.order))
  = inl (VDict Fixture.order)
  /\ fst (TransactionApi.get_transactions "/transactions/TXN1700000000002123e4567"
            "TXN1700000000002123e4567" Fixture.E_literal
            (snd (TransactionApi.post_transactions "/transactions"
                    (TransactionApi.Payload.mk "u1" Fixture.hundred (Some "usd")
                       "credit" None (Some Fixture.order))
                    Fixture.E_literal Fixture.t0)))
     = mkResponse 200
         (Json (TransactionApi.TransactionResponse.mk 1 "TXN1700000000002123e4567"
                  "u1" Fixture.hundred "USD" "credit" "pending" None
                  (Some Fixture.order) 1690000000000 1690000000000)).
Proof.
  split; [reflexivity |].
  apply (metadata_refused_at_creation_is_read_back "/transactions"
           "/transactions/TXN1700000000002123e4567"
           (TransactionApi.Payload.mk "u1" Fixture.hundred (Some "usd") "credit" None
              (Some Fixture.order))
           (TransactionApi.TransactionCreate.mk "u1" Fixture.hundred "USD" "credit" None
              (Some Fixture.order))
           Fixture.E_literal Fixture.t0 ("order", VInt 7) []).
  - intros c. reflexivity.
  - constructor.
  - reflexivity.
  - reflexivity.
  - discriminate.
  - reflexivity.
  - intros r [].
Defined.

(** ** Listings *)

Lemma length_insert_desc {A} (key : A -> option Z) (x : A) (l : list A) :
  length (insert_desc key x l) = S (length l).
Proof.
  induction l as [| y l IH]; simpl; [reflexivity |].
  destruct (desc_before (key x) (key y)); simpl; [reflexivity | now rewrite IH].
Qed.

Lemma length_order_by_desc {A} (key : A -> option Z) (rows : list A) :
  length (order_by_desc key rows) = length rows.
Proof.
  unfold order_by_desc. induction rows as [| x rows IH]; simpl; [reflexivity |].
  now rewrite length_insert_desc, IH.
Qed.

Lemma length_limit_offset {A} (limit offset : Z) (rows : list A) :
  length (limit_offset limit offset rows)
  = Nat.min (Z.to_nat limit) (length rows - Z.to_nat offset).
Proof. unfold limit_offset. now rewrite length_take, length_drop. Qed.

(** X10.  [GET /transactions/user/{user_id}] answers 200 with the empty
    list whenever the query runs, whatever the table holds; the rows
    enter the log only, as the number of active rows of the user that
    are left after [offset] rows, and at most [limit] (100 and 0 when the
    parameters are absent).  Whether the query runs or raises, the
    endpoint changes neither the table nor the cache nor any counter. *)
Theorem user_transactions_listing :
  forall url user limit offset E (w : TransactionApi.World),
    let r := TransactionApi.get_transactions_user url user limit offset E w in
    let n := length (List.filter (TransactionApi.selected_user user) (table w)) in
    (table (snd r) = table w /\ cache (snd r) = cache w
     /\ CREATED (snd r) = CREATED w /\ RETRIEVED (snd r) = RETRIEVED w
     /\ ERRORS (snd r) = ERRORS w)
    /\ (faults E DbExecute = None ->
        0 <= default 100 limit -> 0 <= default 0 offset ->
        fst r = mkResponse 200 (Json [])
        /\ In (mkLog INFO "Transações do usuário consultadas"
                 [("user_id", VStr user);
                  ("count",
                   VInt (Z.of_nat (Nat.min (Z.to_nat (default 100 limit))
                                     (n - Z.to_nat (default 0 offset)))))])
              (logger (snd r))).
Proof.
  intros url user limit offset E w. cbv zeta.
  unfold TransactionApi.get_transactions_user,
    TransactionApi.get_user_transactions, TransactionApi.db_select_user.
  unfold_monad. simpl.
  split.
  - destruct (faults E DbExecute); simpl; [repeat split |].
    destruct ((default 100 limit <? 0) || (default 0 offset <? 0)); simpl;
      repeat split.
  - intros Hexec Hl Ho. rewrite Hexec. simpl.
    assert ((default 100 limit <? 0) || (default 0 offset <? 0) = false) as ->.
    { apply orb_false_iff. split; apply Z.ltb_ge; assumption. }
    simpl. split; [reflexivity |]. right. left.
    now rewrite length_limit_offset, length_order_by_desc.
Qed.

Lemma user_transactions_listing_witness :
  faults Fixture.E0 DbExecute = None
  /\ fst (TransactionApi.get_transactions_user "/transactions/user/u1" "u1"
            None None Fixture.E0 Fixture.t1)
     = mkResponse 200 (Json []).
Proof.
  split; [reflexivity |].
  apply (proj2 (user_transactions_listing "/transactions/user/u1" "u1" None None
                  Fixture.E0 Fixture.t1)); [reflexivity | simpl; lia | simpl; lia].
Defined.

(** X11.  When the query of [GET /transactions/user/{user_id}] raises, as
    it does when the store cannot be reached or is given a negative
    [limit] or [offset], the answer is 500 and the text of the exception
    is logged with the user. *)
Theorem user_transactions_listing_fails :
  forall url user limit offset E (w : TransactionApi.World),
    faults E DbExecute <> None
    \/ default 100 limit < 0 \/ default 0 offset < 0 ->
    let r := TransactionApi.get_transactions_user url user limit offset E w in
    fst r = mkResponse 500 (Detail "Erro interno ao buscar transações")
    /\ exists msg,
         In (mkLog ERROR "Erro ao buscar transações do usuário"
               [("error", VStr msg); ("user_id", VStr user)])
            (logger (snd r)).
Proof.
  intros url user limit offset E w H. cbv zeta.
  unfold TransactionApi.get_transactions_user,
    TransactionApi.get_user_transactions, TransactionApi.db_select_user.
  unfold_monad. simpl.
  destruct (faults E DbExecute) as [msg |]; simpl.
  - split; [reflexivity |]. exists msg. right. now left.
  - assert ((default 100 limit <? 0) || (default 0 offset <? 0) = true) as ->.
    { apply orb_true_iff. destruct H as [H | [H | H]]; [congruence | |];
        [left | right]; apply Z.ltb_lt; exact H. }
    simpl. split; [reflexivity |]. eexists. right. now left.
Qed.

Lemma user_transactions_listing_fails_witness :
  (faults Fixture.E0 DbExecute <> None
   \/ default 100 (Some (-1)) < 0 \/ default 0 (@None Z) < 0)
  /\ status_code
       (fst (TransactionApi.get_transactions_user "/transactions/user/u1?limit=-1"
               "u1" (Some (-1)) None Fixture.E0 Fixture.t1)) = 500.
Proof.
  assert (faults Fixture.E0 DbExecute <> None
          \/ default 100 (Some (-1)) < 0 \/ default 0 (@None Z) < 0) as H.
  { right. left. simpl. lia. }
  split; [exact H |].
  destruct (user_transactions_listing_fails "/transactions/user/u1?limit=-1"
              "u1" (Some (-1)) None Fixture.E0 Fixture.t1 H) as (-> & _).
  reflexivity.
Defined.

(** X12.  [GET /notifications/{user_id}] answers 200 with the empty list
    whenever cache and store answer, whatever the table and the cache
    hold, and counts one retrieval; the number it logs is the number of
    active rows of the user (with the status asked for, when the filter
    is given and not empty) left after [offset] rows, and at most
    [limit].  Table and cache are not changed. *)
Theorem user_notifications_listing :
  forall url user status_filter limit offset E (w : NotificationService.World),
    faults E RedisGet = None -> faults E DbExecute = None ->
    0 <= default 100 limit -> 0 <= default 0 offset ->
    let r := NotificationService.get_notifications url user status_filter
               limit offset E w in
    let status := match status_filter with
                  | Some EmptyString => None
                  | _ => status_filter
                  end in
    let n := length (List.filter (NotificationService.selected_user user status)
                       (table w)) in
    fst r = mkResponse 200 (Json [])
    /\ table (snd r) = table w /\ cache (snd r) = cache w
    /\ RETRIEVED (snd r) = S (RETRIEVED w) /\ ERRORS (snd r) = ERRORS w
    /\ In (mkLog INFO "Notificações do usuário consultadas"
             [("user_id", VStr user);
              ("count",
               VInt (Z.of_nat (Nat.min (Z.to_nat (default 100 limit))
                                 (n - Z.to_nat (default 0 offset)))))])
          (logger (snd r)).
Proof.
  intros url user sf limit offset E w Hget Hexec Hl Ho. cbv zeta.
  unfold NotificationService.get_notifications,
    NotificationService.get_user_notifications,
    NotificationService.db_select_user.
  unfold_monad. simpl. rewrite Hget. simpl.
  assert ((default 100 limit <? 0) || (default 0 offset <? 0) = false) as Hneg.
  { apply orb_false_iff. split; apply Z.ltb_ge; assumption. }
  destruct (truthy_str (fst <$> cache w !! _) && negb (truthy_str sf)); simpl;
    rewrite Hexec; simpl; rewrite Hneg; simpl;
    (repeat split; [right; left]);
    rewrite length_limit_offset, length_order_by_desc;
    destruct sf as [[| ch s] |]; reflexivity.
Qed.

Lemma user_notifications_listing_witness :
  faults Fixture.E0 RedisGet = None
  /\ RETRIEVED (snd (NotificationService.get_notifications "/notifications/u1" "u1"
                       (Some "unread") None None Fixture.E0 Fixture.n1)) = 1%nat.
Proof.
  split; [reflexivity |].
  apply (user_notifications_listing "/notifications/u1" "u1" (Some "unread") None None
           Fixture.E0 Fixture.n1); [reflexivity | reflexivity | simpl; lia | simpl; lia].
Defined.

(** X13.  The cache is read before the store although what it holds is
    never used: when the cache cannot be read, [GET
    /notifications/{user_id}] is answered 500 and the error is counted,
    and no retrieval is counted; the same when the query raises. *)
Theorem user_notifications_listing_fails :
  forall url user status_filter limit offset E (w : NotificationService.World) msg,
    faults E RedisGet = Some msg
    \/ (faults E RedisGet = None /\ faults E DbExecute = Some msg) ->
    let r := NotificationService.get_notifications url user status_filter
               limit offset E w in
    fst r = mkResponse 500 (Detail "Erro interno ao buscar notificações")
    /\ ERRORS (snd r) = S (ERRORS w) /\ RETRIEVED (snd r) = RETRIEVED w
    /\ table (snd r) = table w /\ cache (snd r) = cache w
    /\ In (mkLog ERROR "Erro ao buscar notificações do usuário"
             [("error", VStr msg); ("user_id", VStr user)])
          (logger (snd r)).
Proof.
  intros url user sf limit offset E w msg H. cbv zeta.
  unfold NotificationService.get_notifications,
    NotificationService.get_user_notifications,
    NotificationService.db_select_user.
  unfold_monad. simpl.
  destruct H as [Hget | (Hget & Hexec)]; rewrite Hget; simpl.
  - repeat split. right. now left.
  - destruct (truthy_str (fst <$> cache w !! _) && negb (truthy_str sf)); simpl;
      rewrite Hexec; simpl; repeat split; right; now left.
Qed.

Lemma user_notifications_listing_fails_witness :
  (faults Fixture.E_get_fails RedisGet = Some "timeout"
   \/ (faults Fixture.E_get_fails RedisGet = None
       /\ faults Fixture.E_get_fails DbExecute = Some "timeout"))
  /\ fst (NotificationService.get_notifications "/notifications/u1" "u1"
            None None None Fixture.E_get_fails Fixture.n1)
     = mkResponse 500 (Detail "Erro interno ao buscar notificações").
Proof.
  split; [left; reflexivity |].
  apply (user_notifications_listing_fails "/notifications/u1" "u1" None None None
           Fixture.E_get_fails Fixture.n1 "timeout").
  left. reflexivity.
Defined.

(** X14.  [GET /notifications/{user_id}/unread] does not use the cache and
    moves no counter: it answers 200 with the empty list when the query
    runs, logging the number of active unread rows of the user, and 500
    when the query raises; table and cache are as before. *)
Theorem unread_notifications_listing :
  forall url user E (w : NotificationService.World),
    let r := NotificationService.get_notifications_unread url user E w in
    let n := length (List.filter
                       (NotificationService.selected_user user (Some "unread"))
                       (table w)) in
    fst r = match faults E DbExecute with
            | None => mkResponse 200 (Json [])
            | Some _ => mkResponse 500 (Detail "Erro interno ao buscar notificações")
            end
    /\ In match faults E DbExecute with
          | None => mkLog INFO "Notificações não lidas consultadas"
                      [("user_id", VStr user); ("count", VInt (Z.of_nat n))]
          | Some msg => mkLog ERROR "Erro ao buscar notificações não lidas"
                          [("error", VStr msg); ("user_id", VStr user)]
          end (logger (snd r))
    /\ table (snd r) = table w /\ cache (snd r) = cache w
    /\ RETRIEVED (snd r) = RETRIEVED w /\ ERRORS (snd r) = ERRORS w.
Proof.
  intros url user E w. cbv zeta.
  unfold NotificationService.get_notifications_unread,
    NotificationService.get_unread_notifications,
    NotificationService.db_select_unread.
  unfold_monad. simpl.
  destruct (faults E DbExecute) as [msg |]; simpl; repeat split;
    right; left; rewrite ?length_order_by_desc; reflexivity.
Qed.

(** ** The notifiers *)

(** X15.  [send_notification] on any dictionary.  It issues one POST, to
    the notification service with a timeout of 10, when the data has a
    user, an amount and a currency, and none otherwise.  It returns when
    the data has a transaction identifier, and also when it lacks one but
    the POST was issued and answered with a code other than 200; in every
    other case the [KeyError] of the missing identifier leaves the
    function. *)
Theorem send_notification_returns_iff :
  forall d E (w : TransactionApi.World),
    let r := TransactionApi.send_notification d E w in
    let complete :=
      dict_get "user_id" d <> None /\ dict_get "amount" d <> None
      /\ dict_get "currency" d <> None in
    (fst r = Return tt
     <-> dict_get "transaction_id" d <> None
         \/ (complete /\ exists c, post_outcome E = Responded c /\ c <> 200))
    /\ (fst r <> Return tt -> fst r = Raise (Exception "KeyError: transaction_id"))
    /\ (complete ->
        exists p, outbox (snd r) = p :: outbox w
                  /\ post_url p = TransactionApi.NOTIFICATION_SERVICE_URL
                  /\ post_timeout p = 10
                  /\ dict_get "metadata" (post_json p) = Some (VDict d))
    /\ (~ complete -> outbox (snd r) = outbox w).
Proof.
  intros d E w. cbv zeta.
  unfold TransactionApi.send_notification, TransactionApi.client_post, getitem.
  unfold_monad. simpl.
  destruct (dict_get "user_id" d) as [u |]; simpl;
    [destruct (dict_get "amount" d) as [a |]; simpl;
       [destruct (dict_get "currency" d) as [cur |]; simpl |] |].
  1: destruct (post_outcome E) as [c | msg]; simpl;
       [destruct (Z.eqb_spec c 200) as [-> | Hc]; simpl |].
  all: destruct (dict_get "transaction_id" d) as [tid |]; simpl.
  all: repeat split.
  all: try (intros; discriminate).
  all: try (intros; exfalso; congruence).
  all: try (intros _; left; discriminate).
  all: try (intros _; eexists; repeat split; fail).
  all: try tauto.
  all: try (intros [H | (_ & c' & [= <-] & H)]; congruence).
  all: try (intros [H | (_ & c' & [=] & H)]; congruence).
  all: try (intros [H | ((H1 & H2 & H3) & _)]; congruence).
  all: try (intros _; right; split; [repeat split; discriminate |];
            eexists; split; [reflexivity | assumption]).
  all: try (intros H; exfalso; apply H; repeat split; discriminate).
Qed.

Lemma send_notification_returns_iff_witness :
  dict_get "transaction_id" Fixture.credit_data <> None
  /\ fst (TransactionApi.send_notification Fixture.credit_data Fixture.E0 Fixture.t0)
     = Return tt.
Proof.
  split; [discriminate |].
  apply (proj1 (send_notification_returns_iff Fixture.credit_data Fixture.E0 Fixture.t0)).
  left. discriminate.
Defined.

(** X16.  [send_external_notification] never raises, on any dictionary: it
    returns [True] exactly when the data has the identifier, the user,
    the type and the priority, and [False] otherwise.  Either way it adds
    one entry to the log, of level INFO exactly when it returns [True],
    and changes nothing else: not the table, the cache, the counters or
    the outbox. *)
Theorem send_external_notification_never_raises :
  forall d E (w : NotificationService.World),
    let r := NotificationService.send_external_notification d E w in
    exists sent entry,
      fst r = Return sent
      /\ (sent = true
          <-> dict_get "notification_id" d <> None /\ dict_get "user_id" d <> None
              /\ dict_get "type" d <> None /\ dict_get "priority" d <> None)
      /\ logger (snd r) = entry :: logger w
      /\ (log_level entry = INFO <-> sent = true)
      /\ table (snd r) = table w /\ cache (snd r) = cache w
      /\ CREATED (snd r) = CREATED w /\ ERRORS (snd r) = ERRORS w
      /\ outbox (snd r) = outbox w.
Proof.
  intros d E w. cbv zeta.
  unfold NotificationService.send_external_notification, getitem.
  unfold_monad. simpl.
  destruct (dict_get "notification_id" d) as [nid |]; simpl;
    [destruct (dict_get "user_id" d) as [u |]; simpl;
       [destruct (dict_get "type" d) as [ty |]; simpl;
          [destruct (dict_get "priority" d) as [pr |]; simpl |] |] |].
  all: do 2 eexists; split; [reflexivity |]; simpl.
  all: repeat split; try discriminate; try tauto.
  all: try (intros (H1 & H2 & H3 & H4); congruence).
Qed.

(** ** Creation of a notification *)

Lemma send_external_notification_returns d E (w : NotificationService.World) :
  exists sent, fst (NotificationService.send_external_notification d E w) = Return sent.
Proof.
  unfold NotificationService.send_external_notification, getitem.
  unfold_monad. simpl.
  repeat case_next; eexists; reflexivity.
Qed.

(** The coroutines run one after the other, the last one on the world the
    others left. *)
Lemma notification_run_tasks_last tasks d E (w : NotificationService.World) :
  snd (NotificationService.run_tasks (tasks ++ [d]) E w)
  = snd (NotificationService.send_external_notification d E
           (snd (NotificationService.run_tasks tasks E w))).
Proof.
  revert w. induction tasks as [| d' tasks IH]; intros w; simpl; unfold bind.
  - destruct (NotificationService.send_external_notification d E w)
      as [[b | e] w1]; reflexivity.
  - destruct (send_external_notification_returns d' E w) as (b & Hb).
    destruct (NotificationService.send_external_notification d' E w)
      as [[b' | e] w1]; simpl in *; [apply IH | discriminate].
Qed.

(** The handler when nothing raises and the next key is free. *)
Lemma create_notification_succeeds n E (w : NotificationService.World) :
  no_faults E ->
  Forall (fun r => NotificationService.has_pk (seq w) r = false) (table w) ->
  let h := NotificationService.create_notification n E w in
  let nid := "NOT" ++ str_int (clock E (S (ticks w))) ++ prefix 8 (uuid4 E (draws w)) in
  let user := NotificationService.NotificationCreate.user_id n in
  let row :=
    NotificationService.NotificationDB.mk (Some (seq w)) nid user
      (NotificationService.NotificationCreate.type n)
      (NotificationService.NotificationCreate.title n)
      (NotificationService.NotificationCreate.message n)
      "unread"
      (NotificationService.NotificationCreate.priority n)
      (NotificationService.NotificationCreate.metadata n)
      (Some (import_time E)) (Some (import_time E)) None (Some true) in
  fst h = Return (NotificationService.NotificationResponse.mk (seq w) nid user
                    (NotificationService.NotificationCreate.type n)
                    (NotificationService.NotificationCreate.title n)
                    (NotificationService.NotificationCreate.message n)
                    "unread"
                    (NotificationService.NotificationCreate.priority n)
                    (NotificationService.NotificationCreate.metadata n)
                    (import_time E) (import_time E) None)
  /\ table (snd h) = (table w ++ [row])%list
  /\ cache (snd h)
     = delete ("user_notifications:" ++ user)
         (<[("notification:" ++ nid) :=
              (py_str E (VDict (NotificationService.__dict__ row)), 3600)]> (cache w))
  /\ CREATED (snd h) = S (CREATED w) /\ ERRORS (snd h) = ERRORS w
  /\ event_loop (snd h)
     = (event_loop w
        ++ [[("notification_id", VStr nid); ("user_id", VStr user);
             ("type", VStr (NotificationService.NotificationCreate.type n));
             ("title", VStr (NotificationService.NotificationCreate.title n));
             ("message", VStr (NotificationService.NotificationCreate.message n));
             ("priority", VStr (NotificationService.NotificationCreate.priority n))]])%list.
Proof.
  intros Hok Hfresh. cbv zeta.
  unfold_notification_service. simpl. rewrite !Hok. simpl.
  match goal with
  | |- context [find (NotificationService.has_pk ?pk) (?l ++ [?x])] =>
      destruct (find_last (NotificationService.has_pk pk) l x
                  (notification_inserted_has_pk _ _ _)) as (y & -> & Hy)
  end.
  rewrite (Hy Hfresh). simpl. rewrite ?Hok. simpl. rewrite ?Hok. simpl.
  repeat split.
Qed.

(** The middleware and the server leave the event loop as the handler
    left it. *)
Lemma serve_depends_route_event_loop {Row A} method url declared (h : M Row A) E
    (w : World Row) :
  event_loop (snd (serve (log_requests method url
                            (Depends get_redis (route declared h))) E w))
  = event_loop (snd (h E (with_client (tick w)))).
Proof.
  unfold serve, log_requests, Depends, route, get_redis, time_time, log, bind,
    ret, modify.
  simpl.
  destruct (h E (with_client (tick w))) as [[a | [c d | m]] w1]; reflexivity.
Qed.

(** A coroutine whose data has the four keys logs the send. *)
Lemma send_external_notification_logs E (w : NotificationService.World)
    nid user type title message priority :
  In (mkLog INFO "Notificação externa enviada"
        [("notification_id", nid); ("user_id", user);
         ("type", type); ("priority", priority)])
     (logger (snd (NotificationService.send_external_notification
                     [("notification_id", nid); ("user_id", user); ("type", type);
                      ("title", title); ("message", message); ("priority", priority)]
                     E w))).
Proof. now left. Qed.

(** Running the coroutines starts no new one. *)
Lemma notification_run_tasks_event_loop tasks E (w : NotificationService.World) :
  event_loop (snd (NotificationService.run_tasks tasks E w)) = event_loop w.
Proof.
  revert w. induction tasks as [| d tasks IH]; intros w; simpl; [reflexivity |].
  unfold bind.
  assert (event_loop (snd (NotificationService.send_external_notification d E w))
          = event_loop w) as Hd.
  { unfold NotificationService.send_external_notification, getitem.
    unfold_monad. simpl. repeat case_next; reflexivity. }
  destruct (NotificationService.send_external_notification d E w) as [[b | e] w1];
    simpl in *; [now rewrite IH | exact Hd].
Qed.

(** X17.  A valid [POST /notify], when nothing raises and the next key is
    free: the answer is 201 with the record of the new row, which has the
    generated identifier, the fields of the validated request (the
    metadata as it came, also when it is the empty dictionary), the
    status "unread" and no [read_at]; the row is appended to the table;
    it is cached under "notification:<id>" for 3600 seconds and the list
    cached for the user is removed; one creation is counted, no error;
    and the external send has run and logged the notification. *)
Theorem notification_created :
  forall url req n E (w : NotificationService.World),
    no_faults E ->
    Forall (fun r => NotificationService.has_pk (seq w) r = false) (table w) ->
    NotificationService.validate req = inr n ->
    let r := NotificationService.post_notify url req E w in
    let nid := "NOT" ++ str_int (clock E (S (S (ticks w))))
                 ++ prefix 8 (uuid4 E (draws w)) in
    let user := NotificationService.NotificationCreate.user_id n in
    let row :=
      NotificationService.NotificationDB.mk (Some (seq w)) nid user
        (NotificationService.NotificationCreate.type n)
        (NotificationService.NotificationCreate.title n)
        (NotificationService.NotificationCreate.message n)
        "unread"
        (NotificationService.NotificationCreate.priority n)
        (NotificationService.NotificationCreate.metadata n)
        (Some (import_time E)) (Some (import_time E)) None (Some true) in
    fst r = mkResponse 201
              (Json (NotificationService.NotificationResponse.mk (seq w) nid user
                       (NotificationService.NotificationCreate.type n)
                       (NotificationService.NotificationCreate.title n)
                       (NotificationService.NotificationCreate.message n)
                       "unread"
                       (NotificationService.NotificationCreate.priority n)
                       (NotificationService.NotificationCreate.metadata n)
                       (import_time E) (import_time E) None))
    /\ table (snd r) = (table w ++ [row])%list
    /\ cache (snd r)
       = delete ("user_notifications:" ++ user)
           (<[("notification:" ++ nid) :=
                (py_str E (VDict (NotificationService.__dict__ row)), 3600)]> (cache w))
    /\ CREATED (snd r) = S (CREATED w) /\ ERRORS (snd r) = ERRORS w
    /\ In (mkLog INFO "Notificação externa enviada"
             [("notification_id", VStr nid); ("user_id", VStr user);
              ("type", VStr (NotificationService.NotificationCreate.type n));
              ("priority", VStr (NotificationService.NotificationCreate.priority n))])
          (logger (snd r)).
Proof.
  intros url req n E w Hok Hfresh Hv. cbv zeta.
  destruct (create_notification_succeeds n E (with_client (tick w)) Hok Hfresh)
    as (Hh & Htable & Hcache & Hcreated & Herrors & Hloop).
  destruct (post_notify_accepted url req n E w Hv)
    as (-> & -> & _ & -> & -> & -> & _).
  rewrite Hh, Htable, Hcache, Hcreated, Herrors.
  repeat split.
  unfold NotificationService.post_notify, route_body. rewrite Hv.
  pose proof (serve_depends_route_event_loop "POST" url HTTP_201_CREATED
                (NotificationService.create_notification n) E w) as Hs.
  destruct (serve _ E w) as [resp w2]. simpl in Hs.
  unfold NotificationService.run_event_loop, bind, get_world, modify.
  cbn [fst snd]. rewrite Hs, Hloop.
  rewrite notification_run_tasks_last.
  apply send_external_notification_logs.
Qed.

Lemma notification_created_witness :
  NotificationService.validate Fixture.alert
  = inr (NotificationService.NotificationCreate.mk "u1" "system_alert" "Aviso"
           "Manutenção" "normal" None)
  /\ CREATED (snd (NotificationService.post_notify "/notify" Fixture.alert
                     Fixture.E0 Fixture.n0)) = 1%nat.
Proof.
  split; [reflexivity |].
  apply (notification_created "/notify" Fixture.alert
           (NotificationService.NotificationCreate.mk "u1" "system_alert" "Aviso"
              "Manutenção" "normal" None)
           Fixture.E0 Fixture.n0).
  - intros c. reflexivity.
  - constructor.
  - reflexivity.
Defined.

(** X18.  When the row is committed and cached and the removal of the
    user's cached list then raises, [POST /notify] is answered 500 and
    the error is counted, but the notification stays stored and cached;
    it is not counted as created, and its external send is never started:
    with no coroutine pending, the log gains the error and the line of
    the middleware and nothing else. *)
Theorem notification_list_invalidation_failure :
  forall url req n E (w : NotificationService.World) msg,
    NotificationService.validate req = inr n ->
    faults E DbCommit = None -> faults E DbRefresh = None ->
    faults E RedisSetex = None -> faults E RedisExpire = Some msg ->
    Forall (fun r => NotificationService.has_pk (seq w) r = false) (table w) ->
    let r := NotificationService.post_notify url req E w in
    let nid := "NOT" ++ str_int (clock E (S (S (ticks w))))
                 ++ prefix 8 (uuid4 E (draws w)) in
    fst r = mkResponse 500 (Detail "Erro interno ao criar notificação")
    /\ (exists row,
          table (snd r) = (table w ++ [row])%list
          /\ NotificationService.NotificationDB.notification_id row = nid
          /\ cache (snd r)
             = <[("notification:" ++ nid) :=
                   (py_str E (VDict (NotificationService.__dict__ row)), 3600)]>
                 (cache w))
    /\ CREATED (snd r) = CREATED w /\ ERRORS (snd r) = S (ERRORS w)
    /\ (event_loop w = [] ->
        exists duration,
          logger (snd r)
          = mkLog INFO "Requisição processada"
              [("method", VStr "POST"); ("url", VStr url);
               ("status_code", VInt 500); ("duration", VInt duration)]
            :: mkLog ERROR "Erro ao criar notificação"
                 [("error", VStr msg);
                  ("user_id", VStr (NotificationService.NotificationCreate.user_id n))]
            :: logger w).
Proof.
  intros url req n E w msg Hv Hc Hr Hs He Hfresh. cbv zeta.
  unfold NotificationService.post_notify, route_body. rewrite Hv.
  unfold_notification_service. simpl. rewrite Hc. simpl. rewrite Hr. simpl.
  match goal with
  | |- context [find (NotificationService.has_pk ?pk) (?l ++ [?x])] =>
      destruct (find_last (NotificationService.has_pk pk) l x
                  (notification_inserted_has_pk _ _ _)) as (y & -> & Hy)
  end.
  rewrite (Hy Hfresh). simpl. rewrite Hs. simpl. rewrite He. simpl.
  match goal with
  | |- context [NotificationService.run_tasks ?l E ?w0] =>
      pose proof (notification_run_tasks_frame l E w0) as Hf;
      cbv zeta in Hf; simpl in Hf;
      destruct Hf as (Ht & _ & Hca & Her & Hcr & _)
  end.
  split; [reflexivity |]. split.
  { eexists. split; [exact Ht |]. split; [reflexivity | exact Hca]. }
  split; [exact Hcr |]. split; [exact Her |].
  intros ->. simpl. eexists. reflexivity.
Qed.

Lemma notification_list_invalidation_failure_witness :
  faults (mkEnv (fun c => match c with RedisExpire => Some "timeout" | _ => None end)
            (clock Fixture.E0) (import_time Fixture.E0) (uuid4 Fixture.E0)
            (post_outcome Fixture.E0) Fixture.upper Fixture.render
            (py_eval Fixture.E0)) RedisExpire = Some "timeout"
  /\ CREATED (snd (NotificationService.post_notify "/notify" Fixture.alert
                     (mkEnv (fun c => match c with
                                      | RedisExpire => Some "timeout"
                                      | _ => None
                                      end)
                        (clock Fixture.E0) (import_time Fixture.E0) (uuid4 Fixture.E0)
                        (post_outcome Fixture.E0) Fixture.upper Fixture.render
                        (py_eval Fixture.E0))
                     Fixture.n0)) = 0%nat.
Proof.
  split; [reflexivity |].
  apply (notification_list_invalidation_failure "/notify" Fixture.alert
           (NotificationService.NotificationCreate.mk "u1" "system_alert" "Aviso"
              "Manutenção" "normal" None)
           (mkEnv (fun c => match c with RedisExpire => Some "timeout" | _ => None end)
              (clock Fixture.E0) (import_time Fixture.E0) (uuid4 Fixture.E0)
              (post_outcome Fixture.E0) Fixture.upper Fixture.render
              (py_eval Fixture.E0))
           Fixture.n0 "timeout"); try reflexivity.
  constructor.
Defined.

(** ** Mark-as-read when a collaborator raises *)

(** The table [mark_notification_as_read] leaves is the table it found or
    the table of its UPDATE; the counters are not touched. *)
Lemma mark_notification_as_read_table nid E (w : NotificationService.World) :
  let h := NotificationService.mark_notification_as_read nid E w in
  (table (snd h) = table w
   \/ table (snd h)
      = NotificationService.updated nid (clock E (ticks w)) (clock E (S (ticks w)))
          (table w))
  /\ ERRORS (snd h) = ERRORS w /\ CREATED (snd h) = CREATED w
  /\ RETRIEVED (snd h) = RETRIEVED w /\ seq (snd h) = seq w.
Proof.
  unfold_notification_service. simpl.
  destruct (faults E DbExecute); simpl; [repeat split; now left |].
  rewrite head_returned.
  destruct (find _ (table w)) as [r0 |]; simpl; [| repeat split; now left].
  destruct (faults E DbCommit); simpl; [repeat split; now left |].
  destruct (faults E (RedisDelete _)); simpl; [repeat split; now right |].
  destruct (faults E (RedisDelete _)); simpl; [repeat split; now right |].
  repeat case_next; repeat split; now right.
Qed.

(** X19.  When the UPDATE of mark-as-read raises, or its commit does, the
    request is answered 500 and nothing has changed: the table is the one
    before the request, so the notification is still unread, and no cache
    entry has been deleted. *)
Theorem mark_as_read_store_failure_changes_nothing :
  forall url nid E (w : NotificationService.World) r0 msg,
    find (NotificationService.selected nid) (table w) = Some r0 ->
    faults E DbExecute = Some msg
    \/ (faults E DbExecute = None /\ faults E DbCommit = Some msg) ->
    let r := NotificationService.put_notification_read url nid E w in
    fst r = mkResponse 500 (Detail "Erro interno ao marcar notificação como lida")
    /\ table (snd r) = table w /\ cache (snd r) = cache w
    /\ In (mkLog ERROR "Erro ao marcar notificação como lida"
             [("error", VStr msg); ("notification_id", VStr nid)])
          (logger (snd r)).
Proof.
  intros url nid E w r0 msg Hfind H. cbv zeta.
  unfold_notification_service. simpl.
  destruct H as [Hexec | (Hexec & Hcommit)]; rewrite Hexec; simpl.
  - repeat split. right. now left.
  - rewrite head_returned. simpl. simpl in Hfind. rewrite Hfind. simpl.
    rewrite Hcommit. simpl. repeat split. right. now left.
Qed.

Lemma mark_as_read_store_failure_changes_nothing_witness :
  find (NotificationService.selected "NOT1700000000000123e4567") (table Fixture.n1)
  = Some Fixture.unread
  /\ table (snd (NotificationService.put_notification_read
                   "/notifications/NOT1700000000000123e4567/read"
                   "NOT1700000000000123e4567" Fixture.E_commit_fails Fixture.n1))
     = [Fixture.unread].
Proof.
  split; [reflexivity |].
  apply (mark_as_read_store_failure_changes_nothing
           "/notifications/NOT1700000000000123e4567/read"
           "NOT1700000000000123e4567" Fixture.E_commit_fails Fixture.n1
           Fixture.unread "connection lost" eq_refl).
  right. split; reflexivity.
Defined.

(** X20.  The cache is invalidated after the commit: when a deletion from
    the cache raises, mark-as-read is answered 500 although the
    notification has been marked as read in the table, and the entries
    that were not deleted yet stay in the cache: both when the first
    deletion raises, the list of the user when the second one does. *)
Theorem mark_as_read_cache_failure_after_commit :
  forall url nid E (w : NotificationService.World) r0 msg,
    find (NotificationService.selected nid) (table w) = Some r0 ->
    faults E DbExecute = None -> faults E DbCommit = None ->
    let record_key := "notification:" ++ nid in
    let list_key :=
      "user_notifications:" ++ NotificationService.NotificationDB.user_id r0 in
    faults E (RedisDelete record_key) = Some msg
    \/ (faults E (RedisDelete record_key) = None
        /\ faults E (RedisDelete list_key) = Some msg) ->
    let r := NotificationService.put_notification_read url nid E w in
    let read_at := clock E (S (ticks w)) in
    let updated_at := clock E (S (S (ticks w))) in
    fst r = mkResponse 500 (Detail "Erro interno ao marcar notificação como lida")
    /\ table (snd r) = NotificationService.updated nid read_at updated_at (table w)
    /\ In (NotificationService.set_read read_at updated_at r0) (table (snd r))
    /\ cache (snd r)
       = match faults E (RedisDelete record_key) with
         | Some _ => cache w
         | None => delete record_key (cache w)
         end.
Proof.
  intros url nid E w r0 msg Hfind Hexec Hcommit record_key list_key H. cbv zeta.
  assert (In (NotificationService.set_read (clock E (S (ticks w)))
                (clock E (S (S (ticks w)))) r0)
            (NotificationService.updated nid (clock E (S (ticks w)))
               (clock E (S (S (ticks w)))) (table w))) as Hin.
  { apply find_some in Hfind. destruct Hfind as (Hin & Hsel).
    now apply updated_selected. }
  subst record_key list_key.
  unfold_notification_service. simpl. rewrite Hexec. simpl.
  rewrite head_returned. simpl. simpl in Hfind. rewrite Hfind. simpl.
  rewrite Hcommit. simpl.
  destruct H as [Hd1 | (Hd1 & Hd2)]; rewrite Hd1; simpl.
  - repeat split. exact Hin.
  - rewrite Hd2. simpl. repeat split. exact Hin.
Qed.

Lemma mark_as_read_cache_failure_after_commit_witness :
  find (NotificationService.selected "NOT1700000000000123e4567") (table Fixture.n1)
  = Some Fixture.unread
  /\ map NotificationService.NotificationDB.status
       (table (snd (NotificationService.put_notification_read
                      "/notifications/NOT1700000000000123e4567/read"
                      "NOT1700000000000123e4567"
                      (mkEnv (fun c => match c with
                                       | RedisDelete _ => Some "timeout"
                                       | _ => None
                                       end)
                         (clock Fixture.E0) (import_time Fixture.E0)
                         (uuid4 Fixture.E0) (post_outcome Fixture.E0)
                         Fixture.upper Fixture.render (py_eval Fixture.E0))
                      Fixture.n1)))
     = ["read"].
Proof.
  split; [reflexivity |].
  rewrite (proj1 (proj2 (mark_as_read_cache_failure_after_commit
             "/notifications/NOT1700000000000123e4567/read"
             "NOT1700000000000123e4567"
             (mkEnv (fun c => match c with
                              | RedisDelete _ => Some "timeout"
                              | _ => None
                              end)
                (clock Fixture.E0) (import_time Fixture.E0)
                (uuid4 Fixture.E0) (post_outcome Fixture.E0)
                Fixture.upper Fixture.render (py_eval Fixture.E0))
             Fixture.n1 Fixture.unread "timeout" eq_refl eq_refl eq_refl
             (or_introl eq_refl)))).
  reflexivity.
Defined.

(** The UPDATE changes the status and the two timestamps of the rows it
    selects and nothing else. *)
Lemma updated_keeps_columns nid read_at updated_at
    (rows : list NotificationService.NotificationDB.t) :
  Forall2
    (fun old new =>
       NotificationService.NotificationDB.id new
       = NotificationService.NotificationDB.id old
       /\ NotificationService.NotificationDB.notification_id new
          = NotificationService.NotificationDB.notification_id old
       /\ NotificationService.NotificationDB.user_id new
          = NotificationService.NotificationDB.user_id old
       /\ NotificationService.NotificationDB.type new
          = NotificationService.NotificationDB.type old
       /\ NotificationService.NotificationDB.title new
          = NotificationService.NotificationDB.title old
       /\ NotificationService.NotificationDB.message new
          = NotificationService.NotificationDB.message old
       /\ NotificationService.NotificationDB.priority new
          = NotificationService.NotificationDB.priority old
       /\ NotificationService.NotificationDB.metadata new
          = NotificationService.NotificationDB.metadata old
       /\ NotificationService.NotificationDB.created_at new
          = NotificationService.NotificationDB.created_at old
       /\ NotificationService.NotificationDB.is_active new
          = NotificationService.NotificationDB.is_active old
       /\ (NotificationService.selected nid old = false -> new = old))
    rows (NotificationService.updated nid read_at updated_at rows).
Proof.
  unfold NotificationService.updated.
  induction rows as [| r rows IH]; simpl; constructor; [| exact IH].
  destruct (NotificationService.selected nid r); simpl; repeat split; congruence.
Qed.

(** X21.  Whatever the identifier, the environment and the state,
    [PUT /notifications/{notification_id}/read] neither adds nor removes
    a row and moves no counter, not even the error counter when it
    answers 500.  Row by row, the key, the identifier, the user, the
    type, the title, the message, the priority, the metadata, the
    creation time and the soft-delete flag are as before, and a row that
    has another identifier or is soft-deleted is unchanged. *)
Theorem mark_as_read_keeps_rows_and_counters :
  forall url nid E (w : NotificationService.World),
    let r := NotificationService.put_notification_read url nid E w in
    length (table (snd r)) = length (table w)
    /\ ERRORS (snd r) = ERRORS w /\ CREATED (snd r) = CREATED w
    /\ RETRIEVED (snd r) = RETRIEVED w
    /\ Forall2
         (fun old new =>
            NotificationService.NotificationDB.id new
            = NotificationService.NotificationDB.id old
            /\ NotificationService.NotificationDB.notification_id new
               = NotificationService.NotificationDB.notification_id old
            /\ NotificationService.NotificationDB.user_id new
               = NotificationService.NotificationDB.user_id old
            /\ NotificationService.NotificationDB.type new
               = NotificationService.NotificationDB.type old
            /\ NotificationService.NotificationDB.title new
               = NotificationService.NotificationDB.title old
            /\ NotificationService.NotificationDB.message new
               = NotificationService.NotificationDB.message old
            /\ NotificationService.NotificationDB.priority new
               = NotificationService.NotificationDB.priority old
            /\ NotificationService.NotificationDB.metadata new
               = NotificationService.NotificationDB.metadata old
            /\ NotificationService.NotificationDB.created_at new
               = NotificationService.NotificationDB.created_at old
            /\ NotificationService.NotificationDB.is_active new
               = NotificationService.NotificationDB.is_active old
            /\ (NotificationService.selected nid old = false -> new = old))
         (table w) (table (snd r)).
Proof.
  intros url nid E w. cbv zeta.
  assert (let r := NotificationService.put_notification_read url nid E w in
          let h := NotificationService.mark_notification_as_read nid E (tick w) in
          table (snd r) = table (snd h) /\ ERRORS (snd r) = ERRORS (snd h)
          /\ CREATED (snd r) = CREATED (snd h)
          /\ RETRIEVED (snd r) = RETRIEVED (snd h)) as Hs.
  { cbv zeta. unfold NotificationService.put_notification_read.
    unfold_monad. simpl.
    destruct (NotificationService.mark_notification_as_read nid E (tick w))
      as [[a | [c d | m]] w1]; simpl; repeat split. }
  cbv zeta in Hs. destruct Hs as (-> & -> & -> & ->).
  destruct (mark_notification_as_read_table nid E (tick w))
    as (Ht & -> & -> & -> & _).
  assert (Forall2
            (fun old new =>
               NotificationService.NotificationDB.id new
               = NotificationService.NotificationDB.id old
               /\ NotificationService.NotificationDB.notification_id new
                  = NotificationService.NotificationDB.notification_id old
               /\ NotificationService.NotificationDB.user_id new
                  = NotificationService.NotificationDB.user_id old
               /\ NotificationService.NotificationDB.type new
                  = NotificationService.NotificationDB.type old
               /\ NotificationService.NotificationDB.title new
                  = NotificationService.NotificationDB.title old
               /\ NotificationService.NotificationDB.message new
                  = NotificationService.NotificationDB.message old
               /\ NotificationService.NotificationDB.priority new
                  = NotificationService.NotificationDB.priority old
               /\ NotificationService.NotificationDB.metadata new
                  = NotificationService.NotificationDB.metadata old
               /\ NotificationService.NotificationDB.created_at new
                  = NotificationService.NotificationDB.created_at old
               /\ NotificationService.NotificationDB.is_active new
                  = NotificationService.NotificationDB.is_active old
               /\ (NotificationService.selected nid old = false -> new = old))
            (table w)
            (table (snd (NotificationService.mark_notification_as_read nid E (tick w)))))
    as HF.
  { destruct Ht as [-> | ->].
    - change (table (tick w)) with (table w).
      clear. induction (table w) as [| x l IH]; constructor; [| exact IH].
      repeat split.
    - apply (updated_keeps_columns nid _ _ (table w)). }
  split; [| repeat split; exact HF].
  symmetry. exact (Forall2_length _ _ _ HF).
Qed.

(** ** From one service to the other *)

(** After a creation that returned, the outbox has gained the POST of the
    summary of the transaction. *)
Lemma post_transactions_posts url req t E (w : TransactionApi.World) a :
  transactions_pk_fresh w ->
  TransactionApi.validate E req = inr t ->
  fst (TransactionApi.create_transaction t E (with_client (tick (drop_background_tasks w))))
  = Return a ->
  let d := [("transaction_id", VStr (TransactionApi.TransactionResponse.transaction_id a));
            ("user_id", VStr (TransactionApi.TransactionCreate.user_id t));
            ("amount", VFloat (TransactionApi.TransactionCreate.amount t));
            ("currency", VStr (TransactionApi.TransactionCreate.currency t));
            ("transaction_type",
             VStr (TransactionApi.TransactionCreate.transaction_type t))] in
  outbox (snd (TransactionApi.post_transactions url req E w))
  = (mkPost TransactionApi.NOTIFICATION_SERVICE_URL
       [("user_id", VStr (TransactionApi.TransactionCreate.user_id t));
        ("type", VStr "transaction_created");
        ("title", VStr "Nova Transação");
        ("message",
         VStr ("Transação de "
               ++ py_str E (VFloat (TransactionApi.TransactionCreate.amount t)) ++ " "
               ++ py_str E (VStr (TransactionApi.TransactionCreate.currency t))
               ++ " foi criada"));
        ("metadata", VDict d)]
       10 :: outbox w)%list.
Proof.
  intros Hfresh Hv Ha. cbv zeta.
  destruct (create_transaction_returns t E (with_client (tick (drop_background_tasks w))) a
              Hfresh Ha)
    as (tid & row & _ & Hwritten & Hshows & _ & _ & _ & _ & Hout & Htasks).
  unfold TransactionApi.post_transactions, route_body. rewrite Hv.
  pose proof (serve_depends_route "POST" url HTTP_201_CREATED
                (TransactionApi.create_transaction t) E
                (drop_background_tasks w)) as Hs.
  cbv zeta in Hs. rewrite Ha in Hs.
  destruct (serve _ E (drop_background_tasks w)) as [resp w2]. simpl in Hs.
  destruct Hs as (_ & _ & _ & _ & _ & _ & Hout2 & _ & Htasks2).
  unfold TransactionApi.run_background_tasks, bind, get_world, modify. simpl.
  rewrite Htasks2, Htasks. simpl. unfold bind.
  destruct Hshows as (_ & Htid' & _). destruct Hwritten as (_ & Htid & _).
  rewrite Htid', Htid.
  match goal with
  | |- context [TransactionApi.send_notification ?d E ?w3] =>
      pose proof (send_notification_posts E w3 tid
                    (VStr (TransactionApi.TransactionCreate.user_id t))
                    (VFloat (TransactionApi.TransactionCreate.amount t))
                    (VStr (TransactionApi.TransactionCreate.currency t))
                    (VStr (TransactionApi.TransactionCreate.transaction_type t)))
        as Hp;
      cbv zeta in Hp;
      destruct (TransactionApi.send_notification d E w3) as [[[] | e] w4]
  end; simpl in *; rewrite Hp, Hout2, Hout; reflexivity.
Qed.

(** X22.  The two services fit together.  The POST a created transaction
    sends has a body that the notification service reads as a
    [NotificationCreate] and accepts: type "transaction_created", the
    user of the transaction, the default priority "normal", and as
    metadata the summary with the identifier and the currency of the
    record returned.  Sent to [POST /notify] of a notification service in
    which nothing raises, it is answered 201 with an unread notification
    of that user carrying the summary. *)
Theorem created_transaction_is_announced_and_accepted :
  forall url req Et (wt : TransactionApi.World) a,
    transactions_pk_fresh wt ->
    body (fst (TransactionApi.post_transactions url req Et wt)) = Json a ->
    exists p payload n summary,
      outbox (snd (TransactionApi.post_transactions url req Et wt)) = p :: outbox wt
      /\ NotificationService.of_json (post_json p) = Some payload
      /\ NotificationService.validate payload = inr n
      /\ NotificationService.NotificationCreate.user_id n
         = TransactionApi.TransactionResponse.user_id a
      /\ NotificationService.NotificationCreate.type n = "transaction_created"
      /\ NotificationService.NotificationCreate.priority n = "normal"
      /\ NotificationService.NotificationCreate.metadata n = Some summary
      /\ dict_get "transaction_id" summary
         = Some (VStr (TransactionApi.TransactionResponse.transaction_id a))
      /\ dict_get "currency" summary
         = Some (VStr (TransactionApi.TransactionResponse.currency a))
      /\ forall url' En (wn : NotificationService.World),
           no_faults En ->
           Forall (fun r => NotificationService.has_pk (seq wn) r = false) (table wn) ->
           exists created,
             fst (NotificationService.post_notify url' payload En wn)
             = mkResponse 201 (Json created)
             /\ NotificationService.NotificationResponse.user_id created
                = TransactionApi.TransactionResponse.user_id a
             /\ NotificationService.NotificationResponse.status created = "unread"
             /\ NotificationService.NotificationResponse.metadata created
                = Some summary.
Proof.
  intros url req Et wt a Hfresh Ha.
  destruct (created_response_inv url req Et wt a Ha) as (t & Hv & Hh & _).
  destruct (create_transaction_returns t Et
              (with_client (tick (drop_background_tasks wt))) a Hfresh Hh)
    as (tid & row & _ & Hwritten & Hshows & _).
  destruct Hwritten as (_ & _ & Huser & _ & Hcur & _).
  destruct Hshows as (_ & _ & Huser' & _ & Hcur' & _).
  rewrite Huser in Huser'. rewrite Hcur in Hcur'.
  pose proof (post_transactions_posts url req t Et wt a Hfresh Hv Hh) as Hp.
  cbv zeta in Hp.
  do 4 eexists. split; [exact Hp |].
  split; [reflexivity |]. split; [reflexivity |].
  simpl. split; [now rewrite Huser' |].
  split; [reflexivity |]. split; [reflexivity |]. split; [reflexivity |].
  split; [reflexivity |]. split; [simpl; now rewrite Hcur' |].
  intros url' En wn Hok Hfreshn.
  match goal with
  | |- context [NotificationService.post_notify url' ?payload En wn] =>
      destruct (post_notify_accepted url' payload _ En wn eq_refl) as (-> & _)
  end.
  match goal with
  | |- context [NotificationService.create_notification ?n En ?w0] =>
      destruct (create_notification_succeeds n En w0 Hok Hfreshn) as (-> & _)
  end.
  eexists. split; [reflexivity |]. simpl.
  split; [now rewrite Huser' |]. split; reflexivity.
Qed.

Lemma created_transaction_is_announced_and_accepted_witness :
  body (fst (TransactionApi.post_transactions "/transactions" Fixture.credit
               Fixture.E0 Fixture.t0))
  = Json (TransactionApi.TransactionResponse.mk 1 "TXN1700000000002123e4567"
            "u1" Fixture.hundred "USD" "credit" "pending" None None
            1690000000000 1690000000000)
  /\ exists p, outbox (snd (TransactionApi.post_transactions "/transactions"
                              Fixture.credit Fixture.E0 Fixture.t0))
               = p :: outbox Fixture.t0.
Proof.
  split; [reflexivity |].
  destruct (created_transaction_is_announced_and_accepted "/transactions"
              Fixture.credit Fixture.E0 Fixture.t0
              (TransactionApi.TransactionResponse.mk 1 "TXN1700000000002123e4567"
                 "u1" Fixture.hundred "USD" "credit" "pending" None None
                 1690000000000 1690000000000))
    as (p & _ & _ & _ & Hp & _).
  - constructor.
  - reflexivity.
  - exists p. exact Hp.
Defined.

(** ** Status codes *)














(** ** What a creation writes *)

(** X25.  A creation request writes its row exactly when the body is
    valid and the commit passes, whatever happens afterwards (the reload,
    the cache, the response model, the notification): the table is then
    the old table followed by the row of the request, and the sequence
    has moved by one.  In every other case table and sequence are as
    before.  No creation request changes or removes a row that was
    there.  This holds for [POST /transactions] and for [POST /notify]. *)
Theorem creation_writes_iff_committed :
  (forall url req E (w : TransactionApi.World),
      let r := TransactionApi.post_transactions url req E w in
      match TransactionApi.validate E req, faults E DbCommit with
      | inr t, None =>
          exists tid row,
            table (snd r) = (table w ++ [row])%list
            /\ written E (seq w) tid t row /\ seq (snd r) = seq w + 1
      | _, _ => table (snd r) = table w /\ seq (snd r) = seq w
      end)
  /\ (forall url req E (w : NotificationService.World),
        let r := NotificationService.post_notify url req E w in
        match NotificationService.validate req, faults E DbCommit with
        | inr n, None =>
            exists row,
              table (snd r) = (table w ++ [row])%list
              /\ NotificationService.NotificationDB.id row = Some (seq w)
              /\ NotificationService.NotificationDB.status row = "unread"
              /\ NotificationService.NotificationDB.user_id row
                 = NotificationService.NotificationCreate.user_id n
              /\ NotificationService.NotificationDB.type row
                 = NotificationService.NotificationCreate.type n
              /\ NotificationService.NotificationDB.metadata row
                 = NotificationService.NotificationCreate.metadata n
              /\ seq (snd r) = seq w + 1
        | _, _ => table (snd r) = table w /\ seq (snd r) = seq w
        end).
Proof.
  split; intros url req E w; cbv zeta.
  - destruct (TransactionApi.validate E req) as [errs | t] eqn:Hv.
    + destruct (post_transactions_rejected url req E w errs Hv)
        as (_ & -> & -> & _).
      now split.
    + destruct (post_transactions_accepted url req t E w Hv)
        as (_ & -> & -> & _).
      destruct (faults E DbCommit) as [msg |] eqn:Hc.
      * destruct (create_transaction_commit_fails t E
                    (with_client (tick (drop_background_tasks w))) msg Hc)
          as (_ & _ & -> & -> & _).
        now split.
      * destruct (create_transaction_persists t E
                    (with_client (tick (drop_background_tasks w))) Hc)
          as (tid & row & -> & Hwritten & ->).
        exists tid, row. split; [reflexivity |]. split; [exact Hwritten | reflexivity].
  - destruct (NotificationService.validate req) as [errs | n] eqn:Hv.
    + destruct (post_notify_rejected url req E w errs Hv) as (_ & -> & -> & _).
      now split.
    + destruct (post_notify_accepted url req n E w Hv) as (_ & -> & -> & _).
      destruct (faults E DbCommit) as [msg |] eqn:Hc.
      * destruct (create_notification_commit_fails n E (with_client (tick w)) msg Hc)
          as (_ & _ & -> & -> & _).
        now split.
      * unfold_notification_service. simpl. rewrite Hc. simpl.
        eexists. split; [| split; [| split; [| split; [| split; [| split]]]]].
        { destruct (faults E DbRefresh); simpl; [reflexivity |].
          match goal with
          | |- context [find (NotificationService.has_pk ?pk) (?l ++ [?x])] =>
              destruct (find_last (NotificationService.has_pk pk) l x
                          (notification_inserted_has_pk _ _ _)) as (y & -> & _)
          end.
          simpl. repeat case_next; reflexivity. }
        all: try reflexivity.
        destruct (faults E DbRefresh); simpl; [reflexivity |].
        match goal with
        | |- context [find (NotificationService.has_pk ?pk) (?l ++ [?x])] =>
            destruct (find_last (NotificationService.has_pk pk) l x
                        (notification_inserted_has_pk _ _ _)) as (y & -> & _)
        end.
        simpl. repeat case_next; reflexivity.
Qed.
